(* ===== verification/_CoqProject ===== *)
-Q . S2P
Prelude.v
Fields.v
Assignment.v
Preview.v
EditMachine.v
Spec.v
Swipe.v
Carousel.v
CenterCard.v
Format.v
Row.v
Layout.v
Bubble.v
EditView.v
Geometry.v
Slides.v
System.v
Widget.v
