(* ===== verification/Prelude.v ===== *)
(** * Verification of the audiobook carousel and its edit mode

    The program (src/src) is a React widget in TypeScript: a carousel of
    audiobooks ([components/Carousel.tsx]) whose centre card shows up to five
    metadata fields, and a full-screen edit mode
    ([components/EditMode/index.tsx]) in which the user drags field bubbles
    into a preview list, removes and reorders them, and saves the list back to
    the carousel.  Touch swipes ([hooks/useSwipeGesture.ts]) move the carousel.

    ** How the program is modelled

    React state is modelled by explicit state passing.  Each component's
    [useState] cells form one [Record]; each event handler is one function
    from the handler's arguments and the state to the next state, with the
    handler's guards and early returns written as they stand in the source.
    What the browser supplies (the [DataTransfer] payload of a drag, pointer
    coordinates, the bounding rectangle of the preview container, what lies
    under a finger) is an argument of the handler.  DOM side effects that do
    not feed back into component state (clearing the selection, blurring)
    are left out.  What a component renders is a function from its props
    and state to a record of what is on screen: keys, class names, texts,
    the numeric targets and delays of animations, and which parts are
    present; a render that throws returns [Throw].  JavaScript values that can be [undefined]
    or [null] are [option]s; an exception is the result [Throw] of the type
    [res]; array and string built-ins are the functions of this file.

    Numbers: indices and counts are [nat]; the carousel index arithmetic is
    on [Z] with JavaScript's [%] as [Z.rem] (truncated remainder, sign of the
    dividend); pointer coordinates are [Z] (CSS pixels; NaN, infinities and
    fractional pixels are outside the model); the rating and the price of
    a book are rationals where [types.ts] declares [number], so NaN and
    the infinities are outside the model and every statement about the
    rating is about a finite one; the angle of a bubble is an
    exact rational number of turns, and its coordinates are real numbers
    with the real cosine and sine ([Geometry]), where the source computes
    in binary floating point: an equation about coordinates holds in the
    source up to rounding.

    ** Files

    - [Prelude] (this file): JavaScript built-ins used by the sources
      ([Array.prototype.includes], [splice] used as insertion, [pop],
      [find], [findIndex], [map] with a callback that can throw, string
      truthiness, [%], indexing), their lemmas, the hint databases [js]
      (resolve) and [jsrw] (rewrite), the tactics [reflect_js], [by_compute]
      and [enum_elem_of], and the notation scope [js_scope].
    - [Fields]: [types.ts] and [EditMode/constants.ts]: the records
      [AudioBook] and [DraggableInfo], the fifteen field descriptors
      [initialDraggables], [defaultFields], property lookup [book_get] and
      descriptor lookup [find_draggable]; the declared types of the
      properties ([property_type], [descriptor_typed]); and the class
      [Formatter], the prop [formatValue] with the two laws its clients
      rely on (it fails on no field but the rating, and only with a
      [RangeError]).
    - [Assignment]: the edit mode's state ([EditState], the [useState] cells
      of [EditMode]) and every handler that changes it: [handleDragStart],
      [handleDragEnd], [handleDragOver], [handleDragLeave], [handleDrop],
      [handleBubbleDrop], [handleRemoveFromContainer], the reorder callback
      [onReorder], the three touch handlers of the mobile bubble list, and
      the phases of [handleSaveConfiguration] ([saveStart], [saveConfig],
      [saveSuccess]).  Its invariant is [config_ok]: no duplicate, at most
      five entries, only known identifiers.
    - [Preview]: [EditMode/PreviewContainer.tsx]: the rows, drop slots and
      remove buttons rendered for a state, the placeholder
      ([renderPlaceholder]), the colour of the frame, and the list that
      [Reorder.Group] hands to [onReorder] ([moveItem], modelled from the
      documented behaviour of framer-motion).
    - [EditMachine]: the edit mode as a transition system: the events the
      rendered interface offers ([EditEvent], [edit_valid]), the handler
      each runs ([edit_transition]), the step relation [edit_step] and its
      executable form [run_events].
    - [Spec]: the assignment state machine of section 4.1 of the design
      document ([AbsState], [abs_transition], [abs_valid], its executable
      run [abs_run]), written from the document; the abstraction [abs]
      from sessions to its states and [abs_event] from the events of the
      source to its events; the abstract run [abs_follow] that a list of
      concrete actions stands for; and the actions of a touch device
      ([TouchAction]: a whole gesture [touch_gesture] or a single event).
    - [Swipe]: [useSwipeGesture]: the touch state, its three handlers and
      the classification of a completed gesture ([classifySwipe]).
    - [Carousel]: the carousel's state and operations ([nextSlide],
      [prevSlide], [handleKeyPress], [handleSaveConfig], [handleImageLoad]),
      the window of visible books, and the events it handles
      ([carousel_handle]).  The book list is the class [BookData].
    - [CenterCard]: the rows the centre card renders for the stored
      configuration ([renderField], [centerRows]), with the formatter as a
      parameter.
    - [Format]: the two functions [formatValue], of
      [EditMode/constants.ts] (a string, or the [RangeError] of [repeat])
      and of [Carousel.tsx] (a node), with [repeat], [split] and [trim];
      the former is the instance [editFormatter] of [Formatter].
    - [Row]: [EditMode/ReorderableItem.tsx]: the hover and drag flags of
      a row with their handlers and effect, the text a row shows, the
      render of the whole preview list ([renderPreview]) and of the
      container around it ([renderContainer]), and the [onReorder] of the
      [Reorder.Group] ([groupReorder]).  The lemmas on rendering are
      proved for any [Formatter].
    - [Layout]: the effect [updatePositions] of [EditMode]: which bubbles
      get a point on the circle, the slot of each, the angle of each slot.
    - [Bubble]: [EditMode/DraggableBubble.tsx]: what one bubble renders
      from its props ([renderBubble]): anchors, delays, stacking order,
      class, shadow, label and the formatted value while it is dragged.
    - [Geometry]: the coordinates of the bubbles: the points
      [cos(angle) * radius, sin(angle) * radius] of [updatePositions] and
      the anchors [position * 0.1] and [position] of [DraggableBubble], as
      real numbers.
    - [EditView]: the render of [EditMode] ([renderEditMode], lines 205 to
      454 of [index.tsx]): the preview of a touch drag, the container and
      the counter, the chips of the mobile layout or the bubbles of the
      desktop layout, the save button.
    - [Slides]: the render of [Carousel] ([renderSlide], [renderSlides],
      [renderCarousel]): one slide per entry of the window with the
      targets of its animations, the cover or [BookCoverSkeleton], the
      field rows under the centre slide; and [App].
    - [System]: the whole widget: the carousel mounting the edit mode on the
      stored configuration, the two delays of [handleSaveConfiguration] as
      pending timers, [onSave] and [onClose] ([sys_transition], [sys_run]).
    - [Widget]: what the widget renders in a state of [System]: the
      carousel and, while it is open, the edit mode on the current book
      ([renderWidget]).

    ** What the theorems show

    - Assignment: the effect of each handler on every branch; a sixth field
      dropped on a slot evicts the tail, while the container and the touch
      path refuse; no drop introduces a duplicate or a sixth entry; a
      payload that names no descriptor is inserted all the same; removal
      ignores the drag state; saving and reopening restores the list, and
      an identifier without descriptor makes the reopening throw.
    - EditMachine: [config_ok] holds in every reachable session; the flag
      [isDraggingFromContainer] is never set; every valid configuration
      can be produced by events the interface offers; the rows shown and
      the array saved are complete in every reachable session; every
      run of the executable runner is a run of the step relation.
    - Spec: in the desktop layout the edit mode refines the state machine
      of the design document, event by event: a run of the handlers by a
      list of events ends in the abstract state that the abstract machine
      computes from the images of the same events, each of which it
      accepts ([abs_follow]; the diagram of one event is
      [desktop_event_simulation], with the invariant that the dragged
      field is the one named by the payload).  The abstract machine is a
      function of the events, so the theorem fixes the configuration
      after every run: a drop on a slot of a full list keeps the head and
      evicts the tail.  The insertion of the source and that of the
      document agree on every slot the interface offers and differ behind
      a full list; the abstract machine keeps the configuration valid.
      On a touch device the mobile layout refines the machine as well,
      action by action, where a whole gesture (touch start, moves, touch
      end) stands for a drag start followed by a drop on the container,
      which appends the field when the finger is lifted over the preview.
    - Swipe: the direction reported is characterised by the two
      displacements; the threshold is strict; reversing a stroke reverses
      the direction; only the first and the last point of a gesture count.
    - Carousel: the index stays in range under every sequence of events;
      [nextSlide] and [prevSlide] wrap and are inverse to each other; the
      window shows a book twice exactly when there are fewer books than
      positions; a gesture moves the carousel as the detector reports.
    - CenterCard: price and review count never get a row of their own and
      are shown exactly beside discount and rating; rendering throws
      exactly on an [undefined] entry.
    - Format: the edit mode shows one star per whole rating point and
      throws on a negative rating; the carousel shows a fixed string five
      times, which is not the star; [split] and joining are inverse; [trim]
      removes exactly the white space at both ends; the scenario
      [bookTitle, ratingStar, numberOfReviews] renders as two rows.
    - Row: a row that is being dragged is never marked as hovered; the
      preview renders for every book with a rating that is not negative
      and throws a [RangeError] otherwise when the rating is shown.
    - Layout: the layout computed by the reduction of the source is the
      reference layout [referencePositions], the visible bubbles numbered
      in rendering order; the bubbles on the circle are exactly the fields
      that are not active; angles
      are within one turn and distinct and the steps add up to one turn; at
      least ten bubbles are laid out.
    - Geometry: every bubble lies on the circle of the layout's radius, so
      its coordinates are within the radius; the first is at the top; no
      two bubbles of a layout share a point; a bubble enters from the
      circle of a tenth of the radius on the ray of its point.
    - Bubble, EditView: in every reachable session each field is on screen
      exactly once, as a row or as a chip or bubble, and the placeholder
      is shown exactly while there is room; the dragged field is a bubble
      and the only one drawn as dragged; the save button is in one of
      three configurations; bubbles enter in descriptor order with delays
      that do not depend on the other fields; the render throws exactly
      when it has to format a negative rating.
    - Slides: one slide per offset of the window, each with the book of
      its index and the animation of its offset, field rows under the
      centre only; prominence decreases with the distance from the centre;
      a cover that has loaded never shows its placeholder again.
    - System: no offered event throws in a reachable state; the stored
      configuration always renders; the mounted edit mode is a reachable
      session of [EditMachine] (refinement); a save commits the list as it
      was at the click; closing without saving discards the edits; a
      pending timer closes whatever overlay is open; every stored
      descriptor is well typed; the timers of a save run out, with the
      measure [pending] (two firings for a first delay, one for a second);
      every valid configuration can be stored in the carousel by a run of
      the widget (open, rebuild the list, save, two delays).
    - Widget: a reachable state fails to render exactly when the edit mode
      is open on a book with a negative rating and has to format it; with
      no negative rating every reachable state renders, with the edit mode
      exactly while [isEditMode] is set.

    ** Bounds

    No definition uses fuel: every function is structurally recursive or a
    composition of list functions, so every run of [run_events],
    [carousel_run] and [sys_run] is defined for every input.  Termination
    of the save is a theorem about the transition system, not about a
    recursive definition: the number of timer firings from a state is
    bounded by [pending].  The capacity
    of the preview list is the literal 5 of the source ([max_fields]).
    The theorems about the index arithmetic assume a positive number of
    books, which [BookData] provides.

    ** Not modelled

    Static markup that depends on no prop and no state (the close button,
    the arrow buttons, icons); the spring and easing parameters and the
    hover, tap and exit variants of framer-motion, which are constants; exit
    animations, so unmounting is immediate; how JavaScript prints a number
    and reads a string as a number (parameters of [Format]) and Unicode
    white space beyond ASCII; the hooks [useIsMobile] and
    [useReducedMotion], which are not among the sources (their results are
    boolean inputs); the sample data [data/books], which is not among the
    sources either (a non-empty list of books is a parameter); the
    rounding of floating point arithmetic; and, in [Spec], runs that mix
    touch gestures with HTML drag events, which a touch device does not
    raise, and touches of two fingers on two chips at once.  React is
    assumed to run each state updater once.

    ** Where the model is coarser than the browser

    - [js_repeat] throws for a negative count only; the built-in also
      throws for an infinite count and for a result beyond the engine's
      string limit.  With finite ratings the count is finite, and the
      string limit is not modelled.
    - [book_get] finds the declared properties of a book; [book[id]] in
      the source would also find what an identifier like ["toString"]
      inherits from [Object.prototype].  This matters only for an
      identifier that names no descriptor.
    - [moveItem] allows every move of one entry; [Reorder.Group] delivers
      moves to a neighbouring place of rows that are mounted.  Every
      theorem about reordering holds for the moves it delivers.
    - [edit_valid] offers a drop whose payload comes from a drag that
      started on a bubble of this page, or with no payload.  A drag from
      another page or application that carries a text under the key
      ['itemId'] is not offered; [Assignment] has the theorems about the
      handlers on such a payload, the theorems about reachable sessions
      do not cover it.
    - The overlay of the edit mode covers the carousel, so while it is
      open [System] offers the arrow keys and the image loads and not the
      carousel's buttons and swipes; a covered button activated from the
      keyboard does what its arrow key does.
    - [fire] lets any pending timer fire next, whatever the delays, which
      includes the order of the browser. *)

From stdpp Require Export base tactics option list strings numbers relations.
From stdpp Require Export sorting.

(** ** JavaScript built-ins used by the sources *)

Declare Scope js_scope.
Delimit Scope js_scope with js.

(** [arr.includes(x)] *)
Definition js_includes `{EqDecision A} (l : list A) (x : A) : bool :=
  bool_decide (x ∈ l).

(** [arr.splice(i, 0, x)] for an index [i >= 0]: insertion before position
    [i], clamped to the end of the array. *)
Definition js_splice_insert {A} (i : nat) (x : A) (l : list A) : list A :=
  take i l ++ x :: drop i l.

(** [arr.pop()], as a function on the array: the last element is removed; an
    empty array stays empty. *)
Definition js_pop {A} (l : list A) : list A :=
  take (pred (length l)) l.

(** [arr.find(p)]: the first element that satisfies [p], or [undefined]. *)
Definition js_find {A} (P : A → Prop) `{∀ x, Decision (P x)}
    (l : list A) : option A :=
  snd <$> list_find P l.

(** [arr.findIndex(p)]: the first index whose element satisfies [p]; [None]
    stands for the result [-1]. *)
Definition js_findIndex {A} (P : A → Prop) `{∀ x, Decision (P x)}
    (l : list A) : option nat :=
  fst <$> list_find P l.

(** Truthiness of a string: only the empty string is falsy. *)
Definition js_truthy_string (s : string) : bool :=
  negb (String.eqb s "").

(** Truthiness of a [string | null] value: [null] and the empty string are
    falsy. *)
Definition js_truthy (o : option string) : bool :=
  match o with
  | Some s => js_truthy_string s
  | None => false
  end.

(** Exceptions the modelled code can raise, and results of code that may
    throw: [Ok v] is normal completion, [Throw e] an uncaught exception. *)
Inductive JsError := TypeError | RangeError.

Inductive res (A : Type) : Type :=
| Ok (v : A)
| Throw (e : JsError).
Global Arguments Ok {A} v.
Global Arguments Throw {A} e.

Definition res_bind {A B} (m : res A) (f : A → res B) : res B :=
  match m with
  | Ok v => f v
  | Throw e => Throw e
  end.

Definition res_map {A B} (f : A → B) (m : res A) : res B :=
  res_bind m (λ v, Ok (f v)).

(** [arr.map(f)] for an [f] that may throw: the first exception aborts the
    traversal. *)
Fixpoint js_map_res {A B} (f : A → res B) (l : list A) : res (list B) :=
  match l with
  | [] => Ok []
  | x :: l' =>
      res_bind (f x) (λ y, res_bind (js_map_res f l') (λ ys, Ok (y :: ys)))
  end.

(** Reading a property of a value that may be [undefined]: a [TypeError] on
    [undefined]. *)
Definition js_prop {A B} (f : A → B) (o : option A) : res B :=
  match o with
  | Some v => Ok (f v)
  | None => Throw TypeError
  end.

(** [a % n] on integers: the remainder has the sign of the dividend. *)
Definition js_mod (a n : Z) : Z := Z.rem a n.

(** [arr[i]] for an integer index: [undefined] outside the array. *)
Definition js_index {A} (l : list A) (i : Z) : option A :=
  if bool_decide (0 ≤ i)%Z then l !! Z.to_nat i else None.

Notation "' x ← m ; k" := (res_bind m (λ x, k))
  (at level 20, x pattern, m at level 100, k at level 200,
   only parsing) : js_scope.
Notation "x ∈? l" := (js_includes l x) (at level 70) : js_scope.
Notation "a %% n" := (js_mod a n) (at level 40, left associativity) : js_scope.

(** ** Automation *)

Create HintDb js discriminated.
Create Rewrite HintDb jsrw.

(** Turns the boolean tests of the model into the propositions they decide. *)
Ltac reflect_js :=
  repeat match goal with
  | H : js_includes _ _ = true |- _ => apply bool_decide_eq_true_1 in H
  | H : js_includes _ _ = false |- _ => apply bool_decide_eq_false_1 in H
  | |- js_includes _ _ = true => apply bool_decide_eq_true_2
  | |- js_includes _ _ = false => apply bool_decide_eq_false_2
  | H : context [bool_decide _] |- _ => case_bool_decide
  | |- context [bool_decide _] => case_bool_decide
  end.

(** Closes a decidable closed goal by evaluation. *)
Ltac by_compute :=
  first [ vm_compute; reflexivity
        | apply (bool_decide_unpack _); vm_compute; exact I ].

(** Splits membership in an explicit list into its cases and closes each
    numerically. *)
Ltac enum_elem_of :=
  rewrite ?elem_of_cons, ?elem_of_nil; intros; destruct_or?; subst;
  try done; try lia.

(** ** Lemmas on the built-ins *)

(** [Pos.of_nat] on a positive number. *)
Lemma Zpos_of_nat (n : nat) : 0 < n → Z.pos (Pos.of_nat n) = Z.of_nat n.
Proof. intros Hn. rewrite <-(Nat2Pos.id n) at 2 by lia. by rewrite positive_nat_Z. Qed.

Section js_array.
Context {A : Type} `{EqDecision A}.
Implicit Types (l : list A) (x y : A) (i j : nat).

Lemma js_includes_true l x : js_includes l x = true ↔ x ∈ l.
Proof. apply bool_decide_eq_true. Qed.

Lemma js_includes_false l x : js_includes l x = false ↔ x ∉ l.
Proof. apply bool_decide_eq_false. Qed.

Lemma js_splice_insert_perm i x l : js_splice_insert i x l ≡ₚ x :: l.
Proof.
  unfold js_splice_insert.
  by rewrite <-Permutation_middle, take_drop.
Qed.

Lemma length_js_splice_insert i x l :
  length (js_splice_insert i x l) = S (length l).
Proof. by rewrite js_splice_insert_perm. Qed.

Lemma elem_of_js_splice_insert i x y l :
  y ∈ js_splice_insert i x l ↔ y = x ∨ y ∈ l.
Proof. by rewrite js_splice_insert_perm, elem_of_cons. Qed.

Lemma NoDup_js_splice_insert i x l :
  x ∉ l → NoDup l → NoDup (js_splice_insert i x l).
Proof. intros. rewrite js_splice_insert_perm. by constructor. Qed.

Lemma js_splice_insert_lookup i x l :
  i ≤ length l → js_splice_insert i x l !! i = Some x.
Proof.
  intros Hi. unfold js_splice_insert.
  rewrite lookup_app_r by (rewrite length_take; lia).
  rewrite length_take, Nat.min_l, Nat.sub_diag by lia. done.
Qed.

Lemma js_splice_insert_lookup_lt i j x l :
  j < i → j < length l → js_splice_insert i x l !! j = l !! j.
Proof.
  intros Hj Hl. unfold js_splice_insert.
  rewrite lookup_app_l by (rewrite length_take; lia).
  by rewrite lookup_take_lt.
Qed.

Lemma js_splice_insert_lookup_gt i j x l :
  i ≤ j → i ≤ length l → js_splice_insert i x l !! S j = l !! j.
Proof.
  intros Hj Hi. unfold js_splice_insert.
  rewrite lookup_app_r by (rewrite length_take; lia).
  rewrite length_take, Nat.min_l by lia.
  replace (S j - i) with (S (j - i)) by lia. simpl.
  rewrite lookup_drop. f_equal. lia.
Qed.

Lemma js_splice_insert_ge i x l :
  length l ≤ i → js_splice_insert i x l = l ++ [x].
Proof. intros. unfold js_splice_insert. by rewrite take_ge, drop_ge. Qed.

Lemma js_splice_insert_0 x l : js_splice_insert 0 x l = x :: l.
Proof. done. Qed.

Lemma js_pop_snoc l x : js_pop (l ++ [x]) = l.
Proof.
  unfold js_pop. rewrite length_app. simpl.
  replace (pred (length l + 1)) with (length l) by lia.
  apply take_app_length.
Qed.

Lemma js_pop_nil : js_pop (@nil A) = [].
Proof. done. Qed.

Lemma length_js_pop l : length (js_pop l) = pred (length l).
Proof. unfold js_pop. rewrite length_take. lia. Qed.

Lemma js_pop_sublist l : js_pop l `sublist_of` l.
Proof. apply sublist_take. Qed.

Lemma NoDup_js_pop l : NoDup l → NoDup (js_pop l).
Proof. intros Hl. exact (sublist_NoDup _ _ Hl (js_pop_sublist l)). Qed.

Lemma elem_of_js_pop l x : x ∈ js_pop l → x ∈ l.
Proof. intros Hx. exact (elem_of_sublist _ _ _ Hx (js_pop_sublist l)). Qed.

Lemma js_pop_lookup l j : j < pred (length l) → js_pop l !! j = l !! j.
Proof. intros. unfold js_pop. by rewrite lookup_take_lt. Qed.

Lemma js_pop_lookup_last l : js_pop l !! pred (length l) = None.
Proof. apply lookup_ge_None_2. rewrite length_js_pop. lia. Qed.

Lemma NoDup_filter_ne l x : NoDup l → NoDup (filter (λ y, y ≠ x) l).
Proof. intros. by apply list.NoDup_filter. Qed.

Lemma filter_ne_not_elem_of l x : x ∉ l → filter (λ y, y ≠ x) l = l.
Proof.
  induction l as [|y l IH]; [done|].
  intros [Hy Hl]%not_elem_of_cons.
  rewrite filter_cons_True by done. f_equal. by apply IH.
Qed.

Lemma length_filter_ne_NoDup l x :
  NoDup l → x ∈ l → S (length (filter (λ y, y ≠ x) l)) = length l.
Proof.
  induction l as [|y l IH]; [by intros _ ?%elem_of_nil|].
  intros [Hy Hl]%list.NoDup_cons [->|Hx]%elem_of_cons.
  - rewrite filter_cons_False by (by intros ?).
    by rewrite filter_ne_not_elem_of.
  - rewrite filter_cons_True by (by intros ->). simpl. f_equal. by apply IH.
Qed.

Lemma length_filter_le (P : A → Prop) `{∀ x, Decision (P x)} l :
  length (filter P l) ≤ length l.
Proof. apply sublist_length, sublist_filter. Qed.

End js_array.

(** A property preserved by every step holds along every finite run. *)
Lemma rtc_preserve {A} (R : relation A) (P : A → Prop) (x y : A) :
  (∀ a b, P a → R a b → P b) → P x → rtc R x y → P y.
Proof. intros Hstep Hx Hrtc. induction Hrtc; eauto. Qed.

(** In a list whose images under [f] are distinct, the members with the
    image of a member are that member alone. *)
Lemma filter_eq_NoDup {A B} `{EqDecision B} (f : A → B) (l : list A) (x : A) :
  NoDup (f <$> l) → x ∈ l → filter (λ y, f y = f x) l = [x].
Proof.
  induction l as [|y l IH]; [by intros _ ?%elem_of_nil|].
  rewrite fmap_cons, list.NoDup_cons, filter_cons.
  intros [Hy Hnd] [->|Hx]%elem_of_cons.
  - rewrite decide_True by done. f_equal.
    apply elem_of_nil_inv. intros z [Heq Hz]%list_elem_of_filter.
    apply Hy. rewrite <-Heq. by apply list_elem_of_fmap_2.
  - rewrite decide_False; [by apply IH|].
    intros Heq. apply Hy. rewrite Heq. by apply list_elem_of_fmap_2.
Qed.

(** Sorted lists: sublists stay sorted, and [seq] is sorted. *)
Lemma StronglySorted_sublist {A} (R : relation A) (l1 l2 : list A) :
  l1 `sublist_of` l2 → StronglySorted R l2 → StronglySorted R l1.
Proof.
  induction 1 as [|x l1 l2 Hsub IH|x l1 l2 Hsub IH];
    rewrite ?StronglySorted_cons; [done| |tauto].
  intros [Hx Hl2]. split; [|by apply IH].
  rewrite Forall_forall in *. eauto using elem_of_sublist.
Qed.

Lemma StronglySorted_seq (start len : nat) :
  StronglySorted lt (seq start len).
Proof.
  revert start. induction len as [|len IH]; intros start; simpl;
    constructor; [done|].
  apply Forall_forall. intros k Hk%elem_of_seq. lia.
Qed.

(** Two filters agree on a list when their tests agree on its members. *)
Lemma filter_ext_elem_of {A} (P Q : A → Prop) `{∀ x, Decision (P x)}
    `{∀ x, Decision (Q x)} (l : list A) :
  (∀ x, x ∈ l → P x ↔ Q x) → filter P l = filter Q l.
Proof.
  induction l as [|x l IH]; intros HPQ; [done|].
  rewrite !filter_cons, IH by (intros y Hy; apply HPQ; by right).
  destruct (HPQ x) as [? ?]; [by left|]. by repeat case_decide; try tauto.
Qed.

Lemma length_omap_le {A B} (f : A → option B) (l : list A) :
  length (omap f l) ≤ length l.
Proof.
  induction l as [|x l IH]; [done|]. csimpl. destruct (f x); simpl; lia.
Qed.

(** Dropping the [None]s of a mapped list. *)
Lemma omap_id_fmap {A B} (f : A → option B) (l : list A) :
  omap id (f <$> l) = omap f l.
Proof.
  induction l as [|x l IH]; [done|]. rewrite fmap_cons. csimpl.
  rewrite IH. by destruct (f x).
Qed.

(** On a list whose images under [f] are distinct, [f] is injective. *)
Lemma NoDup_fmap_inj_on {A B} (f : A → B) (l : list A) (x y : A) :
  NoDup (f <$> l) → x ∈ l → y ∈ l → f x = f y → x = y.
Proof.
  induction l as [|z l IH]; [by intros _ ?%elem_of_nil|].
  rewrite fmap_cons.
  intros [Hz Hl]%list.NoDup_cons [->|Hx]%elem_of_cons [->|Hy]%elem_of_cons Hf;
    try done.
  - destruct Hz. rewrite Hf. by apply list_elem_of_fmap_2.
  - destruct Hz. rewrite <-Hf. by apply list_elem_of_fmap_2.
  - by apply IH.
Qed.

Section js_find.
Context {A : Type} (P : A → Prop) `{∀ x, Decision (P x)}.
Implicit Types (l : list A) (x : A).

Lemma js_find_Some l x : js_find P l = Some x → x ∈ l ∧ P x.
Proof.
  unfold js_find. intros Hf.
  apply fmap_Some in Hf as [[i y] [Hf ->]].
  apply list_find_Some in Hf as (Hl & HP & _).
  split; [by eapply list_elem_of_lookup_2|done].
Qed.

Lemma js_find_None l : js_find P l = None ↔ Forall (λ x, ¬ P x) l.
Proof. unfold js_find. by rewrite fmap_None, list_find_None. Qed.

Lemma js_find_is_Some l x : x ∈ l → P x → is_Some (js_find P l).
Proof.
  intros Hx HP. unfold js_find. apply fmap_is_Some.
  by eapply list_find_elem_of.
Qed.

Lemma js_findIndex_Some l i :
  js_findIndex P l = Some i →
  ∃ x, l !! i = Some x ∧ P x ∧ ∀ j y, l !! j = Some y → j < i → ¬ P y.
Proof.
  unfold js_findIndex. intros Hf.
  apply fmap_Some in Hf as [[k y] [Hf ->]].
  apply list_find_Some in Hf as (Hl & HP & Hmin). eauto.
Qed.

Lemma js_findIndex_cons x l :
  js_findIndex P (x :: l) =
  if decide (P x) then Some 0 else S <$> js_findIndex P l.
Proof.
  unfold js_findIndex. simpl. case_decide; [done|].
  rewrite <-!option_fmap_compose. by apply option_fmap_ext; intros [].
Qed.

Lemma js_findIndex_find l :
  js_findIndex P l = None ↔ js_find P l = None.
Proof. unfold js_findIndex, js_find. by rewrite !fmap_None. Qed.

End js_find.

(** A list seen as the concatenation of its singletons. *)
Lemma list_bind_singleton_id {A} (l : list A) : l ≫= (λ x, [x]) = l.
Proof. induction l as [|x l IH]; [done|]. by rewrite bind_cons, IH. Qed.

(** In a list whose images under [f] are distinct, searching for the image
    of the element at index [i] finds index [i]. *)
Lemma js_findIndex_NoDup {A B} `{EqDecision B} (f : A → B) (l : list A)
    (i : nat) (x : A) :
  NoDup (f <$> l) → l !! i = Some x →
  js_findIndex (λ y, f y = f x) l = Some i.
Proof.
  intros Hnd Hi. unfold js_findIndex.
  assert (list_find (λ y, f y = f x) l = Some (i, x)) as ->; [|done].
  apply list_find_Some. split_and!; [done..|].
  intros j y Hj Hlt Heq.
  assert (j = i); [|lia].
  eapply NoDup_lookup; [done|..]; rewrite list_lookup_fmap.
  - by rewrite Hj.
  - rewrite Hi. simpl. by rewrite Heq.
Qed.


Section js_numbers.
Local Open Scope Z_scope.
Implicit Types a n : Z.

Lemma js_mod_nonneg a n : 0 ≤ a → 0 < n → js_mod a n = a `mod` n.
Proof. intros. unfold js_mod. apply Z.rem_mod_nonneg; lia. Qed.

Lemma js_mod_bound a n : 0 ≤ a → 0 < n → 0 ≤ js_mod a n < n.
Proof.
  intros. rewrite js_mod_nonneg by done. by apply Z.mod_pos_bound.
Qed.

Lemma js_mod_small a n : 0 ≤ a < n → js_mod a n = a.
Proof. intros. unfold js_mod. by apply Z.rem_small. Qed.

Lemma js_mod_same n : n ≠ 0 → js_mod n n = 0.
Proof. intros. unfold js_mod. by apply Z.rem_same. Qed.

Lemma js_mod_add_same a n : 0 ≤ a < n → js_mod (a + n) n = a.
Proof.
  intros. rewrite js_mod_nonneg by lia.
  rewrite <-(Z.mul_1_l n) at 1. rewrite Z.mod_add by lia.
  apply Z.mod_small; lia.
Qed.

Lemma js_mod_neg a n : a < 0 → 0 < n → -n < js_mod a n ≤ 0.
Proof.
  intros Ha Hn. unfold js_mod. Z.quot_rem_to_equations. lia.
Qed.

(** Two integers closer than [n] with the same residue are equal. *)
Lemma Z_mod_inj_near a b n :
  0 < n → a `mod` n = b `mod` n → - n < a - b < n → a = b.
Proof.
  intros Hn Hmod Hnear.
  pose proof (Z.div_mod a n ltac:(lia)) as Ha.
  pose proof (Z.div_mod b n ltac:(lia)) as Hb.
  rewrite Hmod in Ha.
  assert (a - b = n * (a `div` n - b `div` n)) as Hd
    by (rewrite Z.mul_sub_distr_l; lia).
  destruct (decide (a `div` n - b `div` n = 0)) as [Hq|Hq].
  - rewrite Hq in Hd. lia.
  - assert (a `div` n - b `div` n ≤ -1 ∨ 1 ≤ a `div` n - b `div` n) by lia.
    nia.
Qed.

Lemma js_index_Some {A} (l : list A) i :
  0 ≤ i < Z.of_nat (length l) → is_Some (js_index l i).
Proof.
  intros Hi. unfold js_index. rewrite bool_decide_eq_true_2 by lia.
  apply lookup_lt_is_Some. lia.
Qed.

Lemma js_index_None {A} (l : list A) i :
  i < 0 ∨ Z.of_nat (length l) ≤ i → js_index l i = None.
Proof.
  intros Hi. unfold js_index. case_bool_decide; [|done].
  apply lookup_ge_None_2. lia.
Qed.

Lemma js_index_nat {A} (l : list A) (k : nat) :
  js_index l (Z.of_nat k) = l !! k.
Proof.
  unfold js_index. rewrite bool_decide_eq_true_2 by lia.
  by rewrite Nat2Z.id.
Qed.

End js_numbers.

Section js_res.
Context {A B : Type}.
Implicit Types (f : A → res B) (l : list A).

Lemma res_bind_Ok (m : res A) f (y : B) :
  res_bind m f = Ok y ↔ ∃ x, m = Ok x ∧ f x = Ok y.
Proof.
  destruct m as [x|e]; simpl.
  - split; [eauto|by intros (? & [= <-] & ?)].
  - split; [done|by intros (? & ? & _)].
Qed.

Lemma js_map_res_Ok f l (ys : list B) :
  js_map_res f l = Ok ys ↔ Forall2 (λ x y, f x = Ok y) l ys.
Proof.
  revert ys. induction l as [|x l IH]; intros ys; simpl.
  - split; [intros [= <-]; constructor|by inversion 1].
  - split.
    + destruct (f x) as [y|] eqn:Hx; [|done].
      destruct (js_map_res f l) as [zs|]; [|done].
      intros [= <-]. constructor; [done|by apply IH].
    + inversion 1 as [|? y ? zs Hy Hzs]; subst.
      apply IH in Hzs. by rewrite Hy, Hzs.
Qed.

Lemma js_map_res_total (g : A → B) l :
  js_map_res (λ x, Ok (g x)) l = Ok (g <$> l).
Proof. induction l as [|x l IH]; simpl; [done|by rewrite IH]. Qed.

Lemma js_map_res_Throw f l e :
  js_map_res f l = Throw e → ∃ x, x ∈ l ∧ f x = Throw e.
Proof.
  induction l as [|x l IH]; simpl; [done|].
  destruct (f x) as [y|e'] eqn:Hx; simpl.
  - destruct (js_map_res f l) as [ys|e'']; simpl; [done|].
    intros [= ->]. destruct IH as (z & Hz & Hfz); [done|].
    exists z. split; [by right|done].
  - intros [= ->]. exists x. split; [by left|done].
Qed.

Lemma js_map_res_Forall_Ok f l :
  Forall (λ x, ∃ y, f x = Ok y) l →
  ∃ ys, js_map_res f l = Ok ys ∧ length ys = length l.
Proof.
  intros Hl. destruct (js_map_res f l) as [ys|e] eqn:Hm.
  - exists ys. split; [done|].
    apply js_map_res_Ok in Hm. symmetry. by eapply Forall2_length.
  - apply js_map_res_Throw in Hm as (x & Hx & Hfx).
    rewrite Forall_forall in Hl. destruct (Hl x Hx) as [y Hy]. congruence.
Qed.

Lemma js_map_res_elem_Throw f l x e :
  x ∈ l → f x = Throw e → ∃ e', js_map_res f l = Throw e'.
Proof.
  intros Hx Hfx. destruct (js_map_res f l) as [ys|e'] eqn:Hm; [|by eauto].
  apply js_map_res_Ok in Hm. apply list_elem_of_lookup_1 in Hx as [i Hi].
  destruct (Forall2_lookup_l _ _ _ i x Hm Hi) as (y & _ & Hy). congruence.
Qed.

(** When the elements that throw agree on the exception, the traversal
    throws it exactly when some element does. *)
Lemma js_map_res_Throw_iff f l e :
  (∀ x y e1 e2, x ∈ l → y ∈ l →
     f x = Throw e1 → f y = Throw e2 → e1 = e2) →
  js_map_res f l = Throw e ↔ ∃ x, x ∈ l ∧ f x = Throw e.
Proof.
  intros Hsame. split; [apply js_map_res_Throw|].
  intros (x & Hx & Hfx).
  destruct (js_map_res_elem_Throw f l x e Hx Hfx) as [e' He'].
  rewrite He'. f_equal.
  apply js_map_res_Throw in He' as (y & Hy & Hfy). eauto.
Qed.

(** A projection of the results that is determined by the arguments. *)
Lemma js_map_res_Ok_fmap {C} f l ys (g : B → C) (h : A → C) :
  (∀ x y, f x = Ok y → g y = h x) →
  js_map_res f l = Ok ys → g <$> ys = h <$> l.
Proof.
  intros Hgh Hm%js_map_res_Ok.
  induction Hm; csimpl; f_equal; eauto.
Qed.

Lemma res_map_Ok (g : A → B) (m : res A) y :
  res_map g m = Ok y ↔ ∃ x, m = Ok x ∧ y = g x.
Proof.
  unfold res_map. rewrite res_bind_Ok.
  split; intros (x & ? & ?); exists x; split; congruence.
Qed.

Lemma res_map_Throw (g : A → B) (m : res A) e :
  res_map g m = Throw e ↔ m = Throw e.
Proof. unfold res_map. destruct m; simpl; split; by intros [= ->]. Qed.

Lemma res_bind_Throw (m : res A) f e :
  res_bind m f = Throw e ↔
  m = Throw e ∨ ∃ x, m = Ok x ∧ f x = Throw e.
Proof.
  destruct m as [x|e']; simpl.
  - split; [by eauto|]. by intros [[=]|(? & [= <-] & ?)].
  - split; [intros [= ->]; by left|]. by intros [[= ->]|(? & [=] & _)].
Qed.

Lemma js_prop_Ok (g : A → B) (o : option A) y :
  js_prop g o = Ok y ↔ ∃ x, o = Some x ∧ y = g x.
Proof.
  destruct o as [x|]; simpl; split.
  - intros [= <-]. eauto.
  - by intros (? & [= <-] & ->).
  - done.
  - by intros (? & ? & _).
Qed.

Lemma js_map_res_prop_Some (g : A → B) (xs : list A) :
  js_map_res (js_prop g) (Some <$> xs) = Ok (g <$> xs).
Proof.
  induction xs as [|x xs IH]; [done|].
  rewrite !fmap_cons. cbn [js_map_res js_prop res_bind]. by rewrite IH.
Qed.

Lemma js_map_res_prop_None (g : A → B) (os : list (option A)) :
  None ∈ os → js_map_res (js_prop g) os = Throw TypeError.
Proof.
  induction os as [|[x|] os IH]; [by intros ?%elem_of_nil| |done].
  intros [?|Hin]%elem_of_cons; [done|]. simpl. by rewrite IH.
Qed.

End js_res.

Lemma js_truthy_string_true s : js_truthy_string s = true ↔ s ≠ "".
Proof.
  unfold js_truthy_string. rewrite negb_true_iff. split.
  - intros Hs ->. by rewrite String.eqb_refl in Hs.
  - intros Hs. by apply String.eqb_neq.
Qed.

Lemma js_truthy_string_false s : js_truthy_string s = false ↔ s = "".
Proof.
  rewrite <-not_true_iff_false, js_truthy_string_true.
  destruct (decide (s = "")); naive_solver.
Qed.

Lemma js_truthy_Some s : js_truthy (Some s) = true ↔ s ≠ "".
Proof. apply js_truthy_string_true. Qed.

Lemma js_truthy_None : js_truthy None = false.
Proof. done. Qed.

#[export] Hint Resolve NoDup_js_splice_insert NoDup_js_pop NoDup_filter_ne
  elem_of_js_pop : js.
#[export] Hint Rewrite @length_js_splice_insert @length_js_pop
  @js_splice_insert_0 @js_pop_snoc : jsrw.
