(* ===== verification/Fields.v ===== *)
(** * Field descriptors and book records

    Models [src/src/types.ts] and the data of
    [src/src/components/EditMode/constants.ts]: the record types
    [AudioBook] and [DraggableInfo], the fifteen field descriptors
    [initialDraggables], the five [defaultFields], and the lookup
    [book[id]] of a book property by its name.

    It also holds what the other components assume of these data: the
    declared type of every property with the predicate [descriptor_typed],
    and the class [Formatter], the prop [formatValue] of the components of
    the edit mode together with the two facts they rely on. *)

From S2P Require Import Prelude.
From Stdlib Require Import QArith.

Local Close Scope Q_scope.
Local Open Scope string_scope.
Local Open Scope list_scope.

(** ** types.ts *)

(** [{ x: number; y: number }] *)
Record Position := mkPosition { pos_x : Z; pos_y : Z }.

(** [interface DraggableInfo]: the projections carry the prefix [di_]. *)
Record DraggableInfo := mkDraggable {
  di_id : string;
  di_label : string;
  di_type : string;
  di_initialPosition : Position
}.

(** [interface InfoConfig] (declared by types.ts, used by no component). *)
Record InfoConfig := mkInfoConfig {
  ic_id : string;
  ic_label : string;
  ic_position : Position;
  ic_isVisible : bool
}.

(** [interface AudioBook]: the two [number] fields are rationals. *)
Record AudioBook := mkAudioBook {
  coverArt : string;
  bookTitle : string;
  bookSubtitle : string;
  ratingStar : Q;
  numberOfReviews : string;
  bookCashPrice : Q;
  discount : string;
  author : string;
  narrator : string;
  length_ : string;
  releaseDate : string;
  language : string;
  publisher : string;
  category : string;
  aiSummary : string;
  aiReview : string;
  topicTags : string
}.

(** A value read from a book: a string, a number, or [undefined]. *)
Inductive JsValue :=
| VStr (s : string)
| VNum (q : Q)
| VUndef.

(** [book[id as keyof AudioBook]]: the property named [id], [undefined] for a
    name that is no property of the record. *)
Definition book_get (book : AudioBook) (id : string) : JsValue :=
  if decide (id = "coverArt") then VStr (coverArt book)
  else if decide (id = "bookTitle") then VStr (bookTitle book)
  else if decide (id = "bookSubtitle") then VStr (bookSubtitle book)
  else if decide (id = "ratingStar") then VNum (ratingStar book)
  else if decide (id = "numberOfReviews") then VStr (numberOfReviews book)
  else if decide (id = "bookCashPrice") then VNum (bookCashPrice book)
  else if decide (id = "discount") then VStr (discount book)
  else if decide (id = "author") then VStr (author book)
  else if decide (id = "narrator") then VStr (narrator book)
  else if decide (id = "length") then VStr (length_ book)
  else if decide (id = "releaseDate") then VStr (releaseDate book)
  else if decide (id = "language") then VStr (language book)
  else if decide (id = "publisher") then VStr (publisher book)
  else if decide (id = "category") then VStr (category book)
  else if decide (id = "aiSummary") then VStr (aiSummary book)
  else if decide (id = "aiReview") then VStr (aiReview book)
  else if decide (id = "topicTags") then VStr (topicTags book)
  else VUndef.

(** The declared type of each property of [AudioBook]. *)
Definition property_type (id : string) : option string :=
  if bool_decide (id ∈ ["ratingStar"; "bookCashPrice"]) then Some "number"
  else if bool_decide
            (id ∈ ["coverArt"; "bookTitle"; "bookSubtitle"; "numberOfReviews";
                   "discount"; "author"; "narrator"; "length"; "releaseDate";
                   "language"; "publisher"; "category"; "aiSummary";
                   "aiReview"; "topicTags"])
  then Some "string"
  else None.

(** The type a descriptor's [type] tag stands for. *)
Definition tag_type (tag : string) : option string :=
  if decide (tag = "number") then Some "number"
  else if decide (tag = "text") then Some "string"
  else None.

(** A descriptor is well typed when it names a property of [AudioBook] and
    its tag stands for the declared type of that property. *)
Definition descriptor_typed (d : DraggableInfo) : Prop :=
  is_Some (property_type (di_id d)) ∧
  property_type (di_id d) = tag_type (di_type d).

(** The prop [formatValue: (id: string, value: unknown) => string] that the
    edit mode hands to the preview container, to its rows and to the
    bubbles, with what these components rely on: formatting fails on no
    field but the rating, and when it fails it throws a [RangeError]. *)
Class Formatter := {
  fmt : string → JsValue → res string;
  fmt_total id value :
    id ≠ "ratingStar" → ∃ text, fmt id value = Ok text;
  fmt_error id value e : fmt id value = Throw e → e = RangeError
}.

(** ** EditMode/constants.ts *)

Definition defaultFields : list string :=
  ["bookTitle"; "bookSubtitle"; "author"; "narrator"; "ratingStar"].

Definition initialDraggables : list DraggableInfo := [
  mkDraggable "bookTitle" "Title" "text" (mkPosition (-200) (-150));
  mkDraggable "bookSubtitle" "Subtitle" "text" (mkPosition 200 (-150));
  mkDraggable "ratingStar" "Rating Stars" "number" (mkPosition (-200) 0);
  mkDraggable "numberOfReviews" "Reviews" "text" (mkPosition 200 0);
  mkDraggable "bookCashPrice" "Price" "number" (mkPosition (-150) 150);
  mkDraggable "discount" "Discount" "text" (mkPosition 150 150);
  mkDraggable "length" "Length" "text" (mkPosition 0 (-200));
  mkDraggable "author" "Author" "text" (mkPosition (-180) (-120));
  mkDraggable "narrator" "Narrator" "text" (mkPosition 180 (-120));
  mkDraggable "releaseDate" "Release Date" "text" (mkPosition (-160) 80);
  mkDraggable "publisher" "Publisher" "text" (mkPosition 160 80);
  mkDraggable "category" "Category" "text" (mkPosition 0 200);
  mkDraggable "aiSummary" "AI Summary" "text" (mkPosition (-120) (-180));
  mkDraggable "aiReview" "AI Review" "text" (mkPosition 120 (-180));
  mkDraggable "topicTags" "Topics" "text" (mkPosition 0 180)
].

(** The identifiers of a descriptor list, in order. *)
Definition field_ids (ds : list DraggableInfo) : list string := di_id <$> ds.

(** [draggables.find(d => d.id === id)] *)
Definition find_draggable (ds : list DraggableInfo) (id : string)
    : option DraggableInfo :=
  js_find (λ d, di_id d = id) ds.

(** A sample book for worked examples. *)
Definition example_book (title : string) : AudioBook :=
  mkAudioBook "cover.jpg" title "A subtitle" (9 # 2)%Q "1,204"
    (1499 # 100)%Q "20% off" "An Author" "A Narrator" "10 hrs" "2020-01-01"
    "English" "A Publisher" "Fiction" "Summary" "Review" "one, two".

(** ** Decidable equality *)

#[export] Instance Position_eq_dec : EqDecision Position.
Proof. solve_decision. Defined.

#[export] Instance DraggableInfo_eq_dec : EqDecision DraggableInfo.
Proof. solve_decision. Defined.

(** ** Facts about the constants *)

Lemma initialDraggables_length : length initialDraggables = 15.
Proof. reflexivity. Qed.

Lemma initialDraggables_ids_NoDup : NoDup (field_ids initialDraggables).
Proof. by_compute. Qed.

Lemma defaultFields_NoDup : NoDup defaultFields.
Proof. by_compute. Qed.

Lemma defaultFields_known : defaultFields ⊆ field_ids initialDraggables.
Proof. by_compute. Qed.

Lemma defaultFields_length : length defaultFields = 5.
Proof. reflexivity. Qed.

(** ** Lookup of descriptors *)

Section find_draggable.
Implicit Types (ds : list DraggableInfo) (id : string) (d : DraggableInfo).

Lemma find_draggable_Some ds id d :
  find_draggable ds id = Some d → d ∈ ds ∧ di_id d = id.
Proof. intros Hf. by apply (js_find_Some (λ d', di_id d' = id)) in Hf. Qed.

Lemma find_draggable_is_Some ds id :
  id ∈ field_ids ds ↔ is_Some (find_draggable ds id).
Proof.
  unfold field_ids, find_draggable. split.
  - intros (d & -> & Hd)%list_elem_of_fmap.
    by apply (js_find_is_Some _ _ d).
  - intros [d (Hd & <-)%js_find_Some]. by apply list_elem_of_fmap_2.
Qed.

Lemma find_draggable_None ds id :
  id ∉ field_ids ds ↔ find_draggable ds id = None.
Proof.
  rewrite find_draggable_is_Some, <-eq_None_not_Some. done.
Qed.

(** With distinct identifiers, lookup by the identifier of a member returns
    that member. *)
Lemma find_draggable_elem_of ds d :
  NoDup (field_ids ds) → d ∈ ds → find_draggable ds (di_id d) = Some d.
Proof.
  intros Hnd Hd.
  destruct (find_draggable ds (di_id d)) as [d'|] eqn:Hf.
  - apply find_draggable_Some in Hf as [Hd' Hid].
    f_equal. by eapply (NoDup_fmap_inj_on di_id ds).
  - apply find_draggable_None in Hf. destruct Hf.
    by apply list_elem_of_fmap_2.
Qed.

End find_draggable.

Lemma book_get_unknown (book : AudioBook) (id : string) :
  id ∉ "coverArt" :: "language" :: field_ids initialDraggables →
  book_get book id = VUndef.
Proof.
  intros Hid. unfold book_get.
  repeat (case_decide as Hc;
          [exfalso; apply Hid; rewrite Hc; by_compute | clear Hc]).
  done.
Qed.

Lemma book_get_known (book : AudioBook) (id : string) :
  id ∈ field_ids initialDraggables → book_get book id ≠ VUndef.
Proof.
  unfold field_ids. simpl. rewrite !elem_of_cons, elem_of_nil.
  intros Hid. destruct_or!; subst; done.
Qed.

(** ** Types *)

#[export] Instance descriptor_typed_dec d : Decision (descriptor_typed d).
Proof. unfold descriptor_typed. apply _. Defined.

(** A value read from a book has the declared type of its property, and
    is [undefined] exactly for a name that is no property. *)
Lemma book_get_typed (book : AudioBook) (id : string) :
  match book_get book id with
  | VStr _ => property_type id = Some "string"
  | VNum _ => property_type id = Some "number"
  | VUndef => property_type id = None
  end.
Proof.
  unfold book_get. repeat case_decide; subst; try by_compute.
  unfold property_type.
  rewrite !bool_decide_eq_false_2; [done|..];
    rewrite !elem_of_cons, elem_of_nil; tauto.
Qed.

(** What a well-typed descriptor reads from a book is a number when its
    tag says so and a string when its tag is [text], never [undefined]. *)
Lemma descriptor_typed_value (book : AudioBook) (d : DraggableInfo) :
  descriptor_typed d →
  match book_get book (di_id d) with
  | VStr _ => di_type d = "text"
  | VNum _ => di_type d = "number"
  | VUndef => False
  end.
Proof.
  intros [[ty Hty] Htag]. pose proof (book_get_typed book (di_id d)) as Hv.
  unfold tag_type in Htag.
  destruct (book_get book (di_id d)); repeat case_decide; congruence.
Qed.

Lemma initialDraggables_typed : Forall descriptor_typed initialDraggables.
Proof. by_compute. Qed.

(** ** Clients of the formatter *)

Section formatter.
Context `{Formatter}.
Implicit Types (book : AudioBook) (id : string).

(** Formatting a property of a book fails exactly when the property is the
    rating and the formatter fails on the rating of the book. *)
Lemma fmt_book_Throw book id e :
  fmt id (book_get book id) = Throw e ↔
  id = "ratingStar" ∧ fmt "ratingStar" (VNum (ratingStar book)) = Throw e.
Proof.
  split; [|by intros [-> ?]].
  destruct (decide (id = "ratingStar")) as [->|Hid]; [done|].
  destruct (fmt_total id (book_get book id) Hid) as [text ->]. done.
Qed.

Lemma fmt_book_Ok book id :
  (∃ text, fmt "ratingStar" (VNum (ratingStar book)) = Ok text) →
  ∃ text, fmt id (book_get book id) = Ok text.
Proof.
  intros Hr. destruct (decide (id = "ratingStar")) as [->|Hid]; [done|].
  by apply fmt_total.
Qed.

End formatter.
