(* ===== verification/Assignment.v ===== *)
(** * The edit mode's state and handlers

    Models the component [EditMode] of
    [src/src/components/EditMode/index.tsx]: its [useState] cells as the
    record [EditState], and one function per handler.  A handler takes what
    the browser passes it (the drag payload, the slot index, pointer
    coordinates, the container's rectangle) and the state of the render in
    which it was created, and returns the state after its [set...] calls.

    The invariant of the active configuration is [config_ok]; the second
    half of the file proves each handler's behaviour on every branch and
    that every handler preserves the invariant. *)

From S2P Require Import Prelude Fields.

Local Open Scope list_scope.

(** ** State *)

(** Capacity of the preview list: the literal [5] of the source. *)
Definition max_fields : nat := 5.

(** The two entries the handlers store in [e.dataTransfer].  [getData]
    returns the empty string for an entry that was never set. *)
Record DataTransfer := mkDataTransfer {
  dt_itemId : string;
  dt_fromContainer : string
}.

Definition empty_transfer : DataTransfer := mkDataTransfer ""%string ""%string.

(** [getBoundingClientRect()] of the preview container. *)
Record Rect := mkRect {
  rect_left : Z;
  rect_right : Z;
  rect_top : Z;
  rect_bottom : Z
}.

(** The [useState] cells of [EditMode] that handlers write.  [draggables]
    has no setter and is the constant [initialDraggables]; [positions] is
    recomputed by an effect and lives in [Layout]. *)
Record EditState := mkEditState {
  activeContainer : list string;
  draggedItem : option string;
  draggedOverSlot : option nat;
  isDraggingFromContainer : bool;
  showPreview : bool;
  isSaving : bool;
  showSuccess : bool;
  touchDragPosition : option Position;
  isDraggingTouch : bool
}.

Definition set_activeContainer (v : list string) (s : EditState) :=
  mkEditState v (draggedItem s) (draggedOverSlot s)
    (isDraggingFromContainer s) (showPreview s) (isSaving s) (showSuccess s)
    (touchDragPosition s) (isDraggingTouch s).

Definition set_draggedItem (v : option string) (s : EditState) :=
  mkEditState (activeContainer s) v (draggedOverSlot s)
    (isDraggingFromContainer s) (showPreview s) (isSaving s) (showSuccess s)
    (touchDragPosition s) (isDraggingTouch s).

Definition set_draggedOverSlot (v : option nat) (s : EditState) :=
  mkEditState (activeContainer s) (draggedItem s) v
    (isDraggingFromContainer s) (showPreview s) (isSaving s) (showSuccess s)
    (touchDragPosition s) (isDraggingTouch s).

Definition set_isDraggingFromContainer (v : bool) (s : EditState) :=
  mkEditState (activeContainer s) (draggedItem s) (draggedOverSlot s)
    v (showPreview s) (isSaving s) (showSuccess s)
    (touchDragPosition s) (isDraggingTouch s).

Definition set_showPreview (v : bool) (s : EditState) :=
  mkEditState (activeContainer s) (draggedItem s) (draggedOverSlot s)
    (isDraggingFromContainer s) v (isSaving s) (showSuccess s)
    (touchDragPosition s) (isDraggingTouch s).

Definition set_isSaving (v : bool) (s : EditState) :=
  mkEditState (activeContainer s) (draggedItem s) (draggedOverSlot s)
    (isDraggingFromContainer s) (showPreview s) v (showSuccess s)
    (touchDragPosition s) (isDraggingTouch s).

Definition set_showSuccess (v : bool) (s : EditState) :=
  mkEditState (activeContainer s) (draggedItem s) (draggedOverSlot s)
    (isDraggingFromContainer s) (showPreview s) (isSaving s) v
    (touchDragPosition s) (isDraggingTouch s).

Definition set_touchDragPosition (v : option Position) (s : EditState) :=
  mkEditState (activeContainer s) (draggedItem s) (draggedOverSlot s)
    (isDraggingFromContainer s) (showPreview s) (isSaving s) (showSuccess s)
    v (isDraggingTouch s).

Definition set_isDraggingTouch (v : bool) (s : EditState) :=
  mkEditState (activeContainer s) (draggedItem s) (draggedOverSlot s)
    (isDraggingFromContainer s) (showPreview s) (isSaving s) (showSuccess s)
    (touchDragPosition s) v.

(** The initial values of the cells.  [currentConfig] is the optional prop:
    when present its identifiers seed the list ([field.id] throws on an
    [undefined] entry), otherwise the default five do. *)
Definition initEditState (currentConfig : option (list (option DraggableInfo)))
    : res EditState :=
  res_map
    (λ ids, mkEditState ids None None false false false false None false)
    match currentConfig with
    | Some config => js_map_res (js_prop di_id) config
    | None => Ok defaultFields
    end.

(** ** Handlers *)

(** [fromContainer.toString()] *)
Definition bool_toString (b : bool) : string :=
  if b then "true"%string else "false"%string.

(** [handleDragStart(e, itemId, fromContainer = false)]: returns the state
    and what it wrote to [e.dataTransfer]. *)
Definition handleDragStart (itemId : string) (fromContainer : bool)
    (s : EditState) : EditState * DataTransfer :=
  (set_showPreview true
     (set_isDraggingFromContainer fromContainer
        (set_draggedItem (Some itemId) s)),
   mkDataTransfer itemId (bool_toString fromContainer)).

(** [handleDragEnd()]: the four drag cells are reset. *)
Definition handleDragEnd (s : EditState) : EditState :=
  set_showPreview false
    (set_isDraggingFromContainer false
       (set_draggedOverSlot None
          (set_draggedItem None s))).

(** [handleDragOver(e, slotIndex)] *)
Definition handleDragOver (slotIndex : nat) (s : EditState) : EditState :=
  set_draggedOverSlot (Some slotIndex) s.

(** [handleDragLeave()] *)
Definition handleDragLeave (s : EditState) : EditState :=
  set_draggedOverSlot None s.

(** [getData('fromContainer') === 'true'] *)
Definition payload_fromContainer (dt : DataTransfer) : bool :=
  bool_decide (dt_fromContainer dt = "true"%string).

(** The array built by [handleDrop]: a copy with [itemId] spliced in at
    [slotIndex], and the last element popped when it has more than five. *)
Definition insert_bounded (slotIndex : nat) (itemId : string)
    (active : list string) : list string :=
  let newOrder := js_splice_insert slotIndex itemId active in
  if decide (max_fields < length newOrder) then js_pop newOrder else newOrder.

(** [handleDrop(e, slotIndex)]: a drop on a slot of the preview list. *)
Definition handleDrop (dt : DataTransfer) (slotIndex : nat)
    (s : EditState) : EditState :=
  let itemId := dt_itemId dt in
  let fromContainer := payload_fromContainer dt in
  if negb (js_truthy_string itemId) then s
  else if fromContainer then s
  else
    handleDragEnd
      (if negb (js_includes (activeContainer s) itemId)
       then set_activeContainer
              (insert_bounded slotIndex itemId (activeContainer s)) s
       else s).

(** The containment test of [handleBubbleDrop], bounds included. *)
Definition isInContainer (r : Rect) (clientX clientY : Z) : bool :=
  bool_decide (rect_left r ≤ clientX)%Z
  && bool_decide (clientX ≤ rect_right r)%Z
  && bool_decide (rect_top r ≤ clientY)%Z
  && bool_decide (clientY ≤ rect_bottom r)%Z.

(** [handleBubbleDrop(e)]: a drop on the preview container outside its
    slots.  [containerRect] is [None] when [containerRef.current] is null. *)
Definition handleBubbleDrop (dt : DataTransfer) (containerRect : option Rect)
    (clientX clientY : Z) (s : EditState) : EditState :=
  let itemId := dt_itemId dt in
  let fromContainer := payload_fromContainer dt in
  match containerRect with
  | None => s
  | Some r =>
      if negb (js_truthy_string itemId) || fromContainer then s
      else
        handleDragEnd
          (if isInContainer r clientX clientY
              && negb (js_includes (activeContainer s) itemId)
              && bool_decide (length (activeContainer s) < max_fields)
           then set_activeContainer (activeContainer s ++ [itemId]) s
           else s)
  end.

(** [handleRemoveFromContainer(id)] *)
Definition handleRemoveFromContainer (id : string) (s : EditState)
    : EditState :=
  set_activeContainer (filter (λ item, item ≠ id) (activeContainer s)) s.

(** [onReorder={setActiveContainer}]: the reorder callback stores the order
    it is given. *)
Definition onReorder (newOrder : list string) (s : EditState) : EditState :=
  set_activeContainer newOrder s.

(** [onTouchStart] of a bubble of the mobile list. *)
Definition onTouchStart (itemId : string) (touch : Position) (s : EditState)
    : EditState :=
  set_touchDragPosition (Some touch)
    (set_isDraggingTouch true
       (set_draggedItem (Some itemId) s)).

(** The guard [!isDraggingTouch || !draggedItem] of the two later touch
    handlers. *)
Definition touch_inactive (s : EditState) : bool :=
  negb (isDraggingTouch s) || negb (js_truthy (draggedItem s)).

(** [onTouchMove] *)
Definition onTouchMove (touch : Position) (s : EditState) : EditState :=
  if touch_inactive s then s
  else set_touchDragPosition (Some touch) s.

(** [onTouchEnd] of the bubble [itemId].  [isOverContainer] is the result of
    the hit test: both elements exist and the container contains (or is) the
    element under the finger. *)
Definition onTouchEnd (itemId : string) (isOverContainer : bool)
    (s : EditState) : EditState :=
  if touch_inactive s then s
  else
    set_touchDragPosition None
      (set_isDraggingTouch false
         (set_draggedItem None
            (if isOverContainer
                && negb (js_includes (activeContainer s) itemId)
                && bool_decide (length (activeContainer s) < max_fields)
             then set_activeContainer (activeContainer s ++ [itemId]) s
             else s))).

(** [handleSaveConfiguration], first part: what runs on the click. *)
Definition saveStart (s : EditState) : EditState :=
  set_isSaving true s.

(** [handleSaveConfiguration], the array [config]: each identifier of the
    list the handler closed over is looked up among the descriptors; an
    identifier that is not found yields [undefined]. *)
Definition saveConfig (draggables : list DraggableInfo)
    (captured : list string) : list (option DraggableInfo) :=
  find_draggable draggables <$> captured.

(** [handleSaveConfiguration], after the first delay. *)
Definition saveSuccess (s : EditState) : EditState :=
  set_showSuccess true s.

(** [draggables.filter(item => !activeContainer.includes(item.id))]: the
    descriptors shown as bubbles. *)
Definition visibleBubbles (draggables : list DraggableInfo)
    (active : list string) : list DraggableInfo :=
  filter (λ item, di_id item ∉ active) draggables.

(** ** The invariant of the active configuration *)

(** No identifier twice, at most five entries, every entry a descriptor. *)
Definition config_ok (draggables : list DraggableInfo)
    (active : list string) : Prop :=
  NoDup active ∧ length active ≤ max_fields ∧
  active ⊆ field_ids draggables.

#[export] Instance config_ok_dec ds active : Decision (config_ok ds active).
Proof. unfold config_ok. apply _. Defined.

(** The drag bookkeeping is idle. *)
Definition drag_idle (s : EditState) : Prop :=
  draggedItem s = None ∧ draggedOverSlot s = None ∧
  isDraggingFromContainer s = false ∧ showPreview s = false.

(** A payload is accepted when it names an item and does not come from the
    preview list: the negation of the two guards of [handleDrop]. *)
Definition payload_accepted (dt : DataTransfer) : Prop :=
  dt_itemId dt ≠ ""%string ∧ payload_fromContainer dt = false.

#[export] Instance payload_accepted_dec dt : Decision (payload_accepted dt).
Proof. unfold payload_accepted. apply _. Defined.

(** The guard shared by [handleBubbleDrop] and [onTouchEnd]: the pointer is
    over the container, the item is new and there is room. *)
Definition may_append (inside : bool) (x : string) (s : EditState) : bool :=
  inside && negb (js_includes (activeContainer s) x)
  && bool_decide (length (activeContainer s) < max_fields).

(** ** Automation *)

(** Unfolds the handlers and the setters down to record constructors. *)
Ltac unfold_handlers :=
  unfold handleDrop, handleBubbleDrop, handleRemoveFromContainer, onReorder,
    onTouchStart, onTouchMove, onTouchEnd, touch_inactive, handleDragStart,
    handleDragEnd, handleDragOver, handleDragLeave, saveStart, saveSuccess,
    set_activeContainer, set_draggedItem, set_draggedOverSlot,
    set_isDraggingFromContainer, set_showPreview, set_isSaving,
    set_showSuccess, set_touchDragPosition, set_isDraggingTouch in *.

(** Case analysis on the guards of a handler, after unfolding. *)
Ltac handler_cases :=
  unfold_handlers; simpl in *;
  repeat match goal with
  | |- context [if ?b then _ else _] => destruct b eqn:?; simpl in *
  | |- context [match ?o with Some _ => _ | None => _ end] =>
      destruct o eqn:?; simpl in *
  end.

(** ** The bounded insertion of [handleDrop] *)

Section insert_bounded.
Implicit Types (i j : nat) (x y : string) (l : list string).

Lemma insert_bounded_lt i x l :
  length l < max_fields → insert_bounded i x l = js_splice_insert i x l.
Proof.
  intros Hl. unfold insert_bounded. simpl.
  case_decide as Hc; [|done].
  rewrite length_js_splice_insert in Hc. lia.
Qed.

Lemma insert_bounded_ge i x l :
  max_fields ≤ length l →
  insert_bounded i x l = js_pop (js_splice_insert i x l).
Proof.
  intros Hl. unfold insert_bounded. simpl.
  case_decide as Hc; [done|].
  rewrite length_js_splice_insert in Hc. lia.
Qed.

Lemma length_insert_bounded i x l :
  length (insert_bounded i x l) =
  if decide (length l < max_fields) then S (length l) else length l.
Proof.
  case_decide.
  - by rewrite insert_bounded_lt, length_js_splice_insert.
  - rewrite insert_bounded_ge, length_js_pop, length_js_splice_insert by lia.
    done.
Qed.

Lemma insert_bounded_sublist i x l :
  insert_bounded i x l `sublist_of` js_splice_insert i x l.
Proof.
  unfold insert_bounded. simpl. case_decide; [apply js_pop_sublist|done].
Qed.

Lemma elem_of_insert_bounded i x y l :
  y ∈ insert_bounded i x l → y = x ∨ y ∈ l.
Proof.
  intros Hy. apply elem_of_js_splice_insert with (i := i).
  exact (elem_of_sublist _ _ _ Hy (insert_bounded_sublist i x l)).
Qed.

Lemma NoDup_insert_bounded i x l :
  x ∉ l → NoDup l → NoDup (insert_bounded i x l).
Proof.
  intros Hx Hl. eapply sublist_NoDup; [|apply insert_bounded_sublist].
  auto with js.
Qed.

(** The dropped identifier lands on the slot it was dropped on, provided
    the slot is one of the first five. *)
Lemma insert_bounded_lookup i x l :
  i ≤ length l → i < max_fields → insert_bounded i x l !! i = Some x.
Proof.
  intros Hi Hm. destruct (decide (length l < max_fields)).
  - rewrite insert_bounded_lt by done. by apply js_splice_insert_lookup.
  - rewrite insert_bounded_ge by lia.
    rewrite js_pop_lookup by (rewrite length_js_splice_insert; simpl; lia).
    by apply js_splice_insert_lookup.
Qed.

(** Entries before the slot keep their position. *)
Lemma insert_bounded_lookup_lt i j x l :
  j < i → j < length l → j < max_fields →
  insert_bounded i x l !! j = l !! j.
Proof.
  intros Hj Hl Hm. destruct (decide (length l < max_fields)).
  - rewrite insert_bounded_lt by done. by apply js_splice_insert_lookup_lt.
  - rewrite insert_bounded_ge by lia.
    rewrite js_pop_lookup by (rewrite length_js_splice_insert; simpl; lia).
    by apply js_splice_insert_lookup_lt.
Qed.

(** Entries from the slot on move one position down, as long as they stay
    among the first five. *)
Lemma insert_bounded_lookup_gt i j x l :
  i ≤ j → i ≤ length l → S j < max_fields →
  insert_bounded i x l !! S j = l !! j.
Proof.
  intros Hj Hi Hm. destruct (decide (length l < max_fields)).
  - rewrite insert_bounded_lt by done. by apply js_splice_insert_lookup_gt.
  - rewrite insert_bounded_ge by lia.
    rewrite js_pop_lookup by (rewrite length_js_splice_insert; simpl; lia).
    by apply js_splice_insert_lookup_gt.
Qed.

(** On a full list and a slot among the first five, the list that results
    is the old one without its last entry, with [x] inserted at the slot. *)
Lemma insert_bounded_full i x l :
  length l = max_fields → i < max_fields →
  insert_bounded i x l = js_splice_insert i x (js_pop l).
Proof.
  intros Hl Hi. unfold max_fields in *.
  destruct l as [|a [|b [|c [|d [|e [|]]]]]]; try done.
  by destruct i as [|[|[|[|[|]]]]]; [..|lia].
Qed.

End insert_bounded.

(** ** The invariant under list operations *)

Section config_ok.
Context (ds : list DraggableInfo).
Implicit Types (x : string) (l : list string) (s : EditState).

#[export] Instance config_ok_perm : Proper ((≡ₚ) ==> iff) (config_ok ds).
Proof.
  intros l1 l2 Hl. unfold config_ok.
  rewrite (NoDup_Permutation_proper _ _ Hl), (Permutation_length Hl).
  by setoid_rewrite Hl.
Qed.

Lemma config_ok_sublist l1 l2 :
  l1 `sublist_of` l2 → config_ok ds l2 → config_ok ds l1.
Proof.
  intros Hsub (Hnd & Hlen & Hin). split_and!.
  - by eapply sublist_NoDup.
  - apply sublist_length in Hsub. lia.
  - intros x Hx. apply Hin. by eapply elem_of_sublist.
Qed.

Lemma config_ok_cons x l :
  x ∈ field_ids ds → x ∉ l → length l < max_fields →
  config_ok ds l → config_ok ds (x :: l).
Proof.
  intros Hx Hnx Hlt (Hnd & Hlen & Hin). split_and!.
  - by constructor.
  - simpl. lia.
  - intros y [->|Hy]%elem_of_cons; [done|by apply Hin].
Qed.

Lemma config_ok_snoc x l :
  x ∈ field_ids ds → x ∉ l → length l < max_fields →
  config_ok ds l → config_ok ds (l ++ [x]).
Proof.
  intros. rewrite <-Permutation_cons_append. by apply config_ok_cons.
Qed.

Lemma config_ok_filter (P : string → Prop) `{∀ x, Decision (P x)} l :
  config_ok ds l → config_ok ds (filter P l).
Proof. apply config_ok_sublist, sublist_filter. Qed.

Lemma config_ok_insert_bounded i x l :
  x ∈ field_ids ds → x ∉ l →
  config_ok ds l → config_ok ds (insert_bounded i x l).
Proof.
  intros Hx Hnx Hok. destruct (decide (length l < max_fields)).
  - rewrite insert_bounded_lt, js_splice_insert_perm by done.
    by apply config_ok_cons.
  - destruct Hok as (Hnd & Hlen & Hin). split_and!.
    + by apply NoDup_insert_bounded.
    + rewrite length_insert_bounded. by case_decide.
    + intros y [->|Hy]%elem_of_insert_bounded; [done|by apply Hin].
Qed.

Lemma config_ok_defaultFields : config_ok initialDraggables defaultFields.
Proof. by_compute. Qed.

End config_ok.

(** ** Handlers that leave the active configuration alone *)

Section frame.
Implicit Types (s : EditState) (x : string).

Lemma activeContainer_handleDragEnd s :
  activeContainer (handleDragEnd s) = activeContainer s.
Proof. done. Qed.

Lemma activeContainer_handleDragStart x b s :
  activeContainer (handleDragStart x b s).1 = activeContainer s.
Proof. done. Qed.

Lemma activeContainer_handleDragOver i s :
  activeContainer (handleDragOver i s) = activeContainer s.
Proof. done. Qed.

Lemma activeContainer_handleDragLeave s :
  activeContainer (handleDragLeave s) = activeContainer s.
Proof. done. Qed.

Lemma activeContainer_onTouchStart x p s :
  activeContainer (onTouchStart x p s) = activeContainer s.
Proof. done. Qed.

Lemma activeContainer_onTouchMove p s :
  activeContainer (onTouchMove p s) = activeContainer s.
Proof. by handler_cases. Qed.

Lemma activeContainer_saveStart s :
  activeContainer (saveStart s) = activeContainer s.
Proof. done. Qed.

Lemma activeContainer_saveSuccess s :
  activeContainer (saveSuccess s) = activeContainer s.
Proof. done. Qed.

Lemma drag_idle_handleDragEnd s : drag_idle (handleDragEnd s).
Proof. done. Qed.

End frame.

#[export] Hint Rewrite activeContainer_handleDragEnd
  activeContainer_handleDragStart activeContainer_handleDragOver
  activeContainer_handleDragLeave activeContainer_onTouchStart
  activeContainer_onTouchMove activeContainer_saveStart
  activeContainer_saveSuccess : jsrw.

(** ** [handleDrop] *)

Section handleDrop.
Implicit Types (dt : DataTransfer) (i : nat) (s : EditState).

Lemma handleDrop_accepted dt i s :
  payload_accepted dt →
  handleDrop dt i s =
  handleDragEnd
    (if js_includes (activeContainer s) (dt_itemId dt) then s
     else set_activeContainer
            (insert_bounded i (dt_itemId dt) (activeContainer s)) s).
Proof.
  intros [Hid Hfc]. unfold handleDrop.
  apply js_truthy_string_true in Hid. rewrite Hid, Hfc. simpl.
  by destruct (js_includes _ _).
Qed.

Lemma handleDrop_rejected dt i s :
  ¬ payload_accepted dt → handleDrop dt i s = s.
Proof.
  intros Hna. unfold handleDrop.
  destruct (js_truthy_string (dt_itemId dt)) eqn:Hid; [|done].
  destruct (payload_fromContainer dt) eqn:Hfc; [done|].
  destruct Hna. split; [by apply js_truthy_string_true|done].
Qed.

(** A drop whose payload is empty, or marked as coming from the preview
    list, changes nothing: neither the configuration nor the drag cells. *)
Theorem handleDrop_ignored dt i s :
  dt_itemId dt = ""%string ∨ dt_fromContainer dt = "true"%string →
  handleDrop dt i s = s.
Proof.
  intros Hdt. apply handleDrop_rejected. intros [Hid Hfc].
  destruct Hdt as [?|Hfrom]; [done|].
  unfold payload_fromContainer in Hfc. by case_bool_decide.
Qed.

(** C26: a drop of an item that is not yet in a list of fewer than five
    entries inserts it at the slot, shifts the later entries down and ends
    the drag. *)
Theorem handleDrop_insert dt i s :
  payload_accepted dt →
  dt_itemId dt ∉ activeContainer s →
  length (activeContainer s) < max_fields →
  handleDrop dt i s =
  handleDragEnd
    (set_activeContainer
       (js_splice_insert i (dt_itemId dt) (activeContainer s)) s).
Proof.
  intros Hacc Hnin Hlen. rewrite handleDrop_accepted by done.
  apply js_includes_false in Hnin. rewrite Hnin.
  by rewrite insert_bounded_lt.
Qed.

(** C4: a drop of a new item on one of the five slots of a full list puts
    the item on that slot and evicts the last entry of the old list; no
    other entry is lost. *)
Theorem handleDrop_evicts_tail dt i s :
  payload_accepted dt →
  dt_itemId dt ∉ activeContainer s →
  length (activeContainer s) = max_fields → i < max_fields →
  activeContainer (handleDrop dt i s) =
  js_splice_insert i (dt_itemId dt) (js_pop (activeContainer s)).
Proof.
  intros Hacc Hnin Hlen Hi. rewrite handleDrop_accepted by done.
  apply js_includes_false in Hnin. rewrite Hnin. simpl.
  by apply insert_bounded_full.
Qed.

(** A drop of an item that is already in the list leaves the list as
    it is and ends the drag. *)
Lemma handleDrop_present dt i s :
  payload_accepted dt →
  dt_itemId dt ∈ activeContainer s →
  handleDrop dt i s = handleDragEnd s.
Proof.
  intros Hacc Hin. rewrite handleDrop_accepted by done.
  apply js_includes_true in Hin. by rewrite Hin.
Qed.

(** [handleDrop] preserves the invariant of the configuration when the
    payload is empty or names a field descriptor. *)
Lemma handleDrop_preserves_config ds dt i s :
  dt_itemId dt = ""%string ∨ dt_itemId dt ∈ field_ids ds →
  config_ok ds (activeContainer s) →
  config_ok ds (activeContainer (handleDrop dt i s)).
Proof.
  intros Hdt Hok. destruct (decide (payload_accepted dt)) as [Hacc|Hna].
  - rewrite handleDrop_accepted by done.
    destruct Hdt as [Hid|Hid]; [by destruct Hacc|].
    destruct (js_includes _ _) eqn:Hin; simpl; [done|].
    apply config_ok_insert_bounded; [done|by apply js_includes_false|done].
  - by rewrite handleDrop_rejected.
Qed.

(** C14: whatever the payload and the slot index, [handleDrop] never makes
    the list longer than five entries and never introduces a duplicate. *)
Theorem handleDrop_nodup_bounded dt i s :
  NoDup (activeContainer s) → length (activeContainer s) ≤ max_fields →
  NoDup (activeContainer (handleDrop dt i s)) ∧
  length (activeContainer (handleDrop dt i s)) ≤ max_fields.
Proof.
  intros Hnd Hlen. destruct (decide (payload_accepted dt)) as [Hacc|Hna].
  - rewrite handleDrop_accepted by done.
    destruct (js_includes _ _) eqn:Hin; simpl; [done|].
    apply js_includes_false in Hin. split.
    + by apply NoDup_insert_bounded.
    + rewrite length_insert_bounded. case_decide; lia.
  - by rewrite handleDrop_rejected.
Qed.

(** C31: a payload that names no field descriptor is not rejected: dropped
    on one of the five slots it enters the configuration, which then fails
    its invariant. *)
Theorem handleDrop_unknown_payload ds dt i s :
  payload_accepted dt →
  dt_itemId dt ∉ field_ids ds →
  dt_itemId dt ∉ activeContainer s →
  i ≤ length (activeContainer s) → i < max_fields →
  activeContainer (handleDrop dt i s) !! i = Some (dt_itemId dt) ∧
  ¬ config_ok ds (activeContainer (handleDrop dt i s)).
Proof.
  intros Hacc Hunk Hnin Hi Hm. rewrite handleDrop_accepted by done.
  apply js_includes_false in Hnin. rewrite Hnin. simpl.
  pose proof (insert_bounded_lookup i (dt_itemId dt) _ Hi Hm) as Hlk.
  split; [done|]. intros (_ & _ & Hsub).
  apply Hunk, Hsub. by eapply list_elem_of_lookup_2.
Qed.

(** An accepted drop always leaves the drag bookkeeping idle. *)
Lemma handleDrop_drag_idle dt i s :
  payload_accepted dt → drag_idle (handleDrop dt i s).
Proof.
  intros Hacc. rewrite handleDrop_accepted by done.
  apply drag_idle_handleDragEnd.
Qed.

End handleDrop.

(** ** [handleBubbleDrop] and the touch path *)

Section append.
Implicit Types (dt : DataTransfer) (s : EditState) (x : string).

Lemma may_append_true inside x s :
  may_append inside x s = true ↔
  inside = true ∧ (x ∉ activeContainer s) ∧
  length (activeContainer s) < max_fields.
Proof.
  unfold may_append.
  rewrite !andb_true_iff, negb_true_iff, js_includes_false,
    bool_decide_eq_true. tauto.
Qed.

Lemma config_ok_may_append ds inside x s :
  x ∈ field_ids ds → config_ok ds (activeContainer s) →
  config_ok ds (activeContainer
    (if may_append inside x s
     then set_activeContainer (activeContainer s ++ [x]) s else s)).
Proof.
  intros Hx Hok. destruct (may_append inside x s) eqn:Hm; [|done].
  apply may_append_true in Hm as (_ & Hnin & Hlen). simpl.
  by apply config_ok_snoc.
Qed.

(** A drop on the container outside the slots appends the item when
    the pointer is inside the container's rectangle, the item is new and
    fewer than five fields are active; in every accepted case the drag
    ends.  Without a container or with a rejected payload nothing changes. *)
Lemma handleBubbleDrop_spec dt rect cx cy s :
  handleBubbleDrop dt rect cx cy s =
  match rect with
  | Some r =>
      if decide (payload_accepted dt) then
        handleDragEnd
          (if may_append (isInContainer r cx cy) (dt_itemId dt) s
           then set_activeContainer (activeContainer s ++ [dt_itemId dt]) s
           else s)
      else s
  | None => s
  end.
Proof.
  unfold handleBubbleDrop, may_append. destruct rect as [r|]; [|done].
  case_decide as Hacc.
  - destruct Hacc as [Hid%js_truthy_string_true ->]. by rewrite Hid.
  - destruct (js_truthy_string (dt_itemId dt)) eqn:Hid; [|done].
    destruct (payload_fromContainer dt) eqn:Hfc; [done|].
    destruct Hacc. split; [by apply js_truthy_string_true|done].
Qed.

(** [handleBubbleDrop] never grows the list beyond five entries and
    preserves the invariant for payloads that name a descriptor. *)
Lemma handleBubbleDrop_preserves_config ds dt rect cx cy s :
  dt_itemId dt = ""%string ∨ dt_itemId dt ∈ field_ids ds →
  config_ok ds (activeContainer s) →
  config_ok ds (activeContainer (handleBubbleDrop dt rect cx cy s)).
Proof.
  intros Hdt Hok. rewrite handleBubbleDrop_spec.
  destruct rect as [r|]; [|done]. case_decide as Hacc; [|done].
  destruct Hdt as [Hid|Hid]; [by destruct Hacc|].
  rewrite activeContainer_handleDragEnd. by apply config_ok_may_append.
Qed.

(** The end of a touch drag appends the touched item under the same
    guard as a container drop, and resets the three touch cells; when no
    touch drag is active the handler returns without any change. *)
Lemma onTouchEnd_spec x over s :
  onTouchEnd x over s =
  if touch_inactive s then s
  else
    set_touchDragPosition None
      (set_isDraggingTouch false
         (set_draggedItem None
            (if may_append over x s
             then set_activeContainer (activeContainer s ++ [x]) s
             else s))).
Proof. done. Qed.

Lemma onTouchEnd_config_ok ds x over s :
  x ∈ field_ids ds → config_ok ds (activeContainer s) →
  config_ok ds (activeContainer (onTouchEnd x over s)).
Proof.
  intros Hx Hok. rewrite onTouchEnd_spec.
  destruct (touch_inactive s); [done|].
  by apply (config_ok_may_append ds over x s).
Qed.

End append.

(** ** [handleRemoveFromContainer] and the reorder callback *)

Section remove.
Implicit Types (s : EditState) (x y : string).

(** C27: removal succeeds in every state: afterwards the identifier is not
    in the list, every other entry is still there in the same order, and no
    cell other than the list has changed, whatever the drag state was. *)
Theorem handleRemoveFromContainer_spec x s :
  (x ∉ activeContainer (handleRemoveFromContainer x s)) ∧
  (∀ y, y ≠ x →
     y ∈ activeContainer (handleRemoveFromContainer x s) ↔
     y ∈ activeContainer s) ∧
  activeContainer (handleRemoveFromContainer x s)
    `sublist_of` activeContainer s ∧
  handleRemoveFromContainer x s =
    set_activeContainer (activeContainer (handleRemoveFromContainer x s)) s.
Proof.
  simpl. split_and!.
  - rewrite list_elem_of_filter. tauto.
  - intros y Hy. rewrite list_elem_of_filter. tauto.
  - apply sublist_filter.
  - done.
Qed.

Lemma handleRemoveFromContainer_config_ok ds x s :
  config_ok ds (activeContainer s) →
  config_ok ds (activeContainer (handleRemoveFromContainer x s)).
Proof. apply config_ok_filter. Qed.

(** Removing an entry of a duplicate-free list shortens it by exactly
    one, so a slot becomes free. *)
Lemma handleRemoveFromContainer_length x s :
  NoDup (activeContainer s) → x ∈ activeContainer s →
  S (length (activeContainer (handleRemoveFromContainer x s))) =
  length (activeContainer s).
Proof.
  apply length_filter_ne_NoDup.
Qed.

Lemma onReorder_config_ok ds newOrder s :
  newOrder ≡ₚ activeContainer s →
  config_ok ds (activeContainer s) →
  config_ok ds (activeContainer (onReorder newOrder s)).
Proof. intros Hp Hok. simpl. by rewrite Hp. Qed.

End remove.

(** ** Saving and reopening *)

Section save.
Context (ds : list DraggableInfo).
Implicit Types (l : list string) (s : EditState).

Lemma saveConfig_known l :
  l ⊆ field_ids ds →
  ∃ config, saveConfig ds l = Some <$> config ∧ di_id <$> config = l.
Proof.
  unfold saveConfig. induction l as [|x l IH]; intros Hl.
  - by exists [].
  - destruct IH as (config & Hc & Hids).
    { intros y Hy. apply Hl. by right. }
    destruct (proj1 (find_draggable_is_Some ds x)) as [d Hd].
    { apply Hl. by left. }
    exists (d :: config). rewrite !fmap_cons, Hc, Hd, Hids.
    by apply find_draggable_Some in Hd as [_ ->].
Qed.

(** For a configuration that satisfies the invariant, the saved array
    has no [undefined] entry, and its identifiers are the configuration in
    the same order. *)
Lemma saveConfig_defined l :
  config_ok ds l →
  Forall is_Some (saveConfig ds l) ∧
  (λ o, di_id <$> o) <$> saveConfig ds l = Some <$> l.
Proof.
  intros (_ & _ & Hsub).
  destruct (saveConfig_known l Hsub) as (config & -> & <-). split.
  - apply Forall_fmap, Forall_true. by eexists.
  - by rewrite <-!list_fmap_compose.
Qed.

(** C19: reopening the edit mode on a saved configuration restores the list
    that was saved, with idle drag and save cells. *)
Theorem save_reopen_roundtrip l :
  config_ok ds l →
  initEditState (Some (saveConfig ds l)) =
  Ok (mkEditState l None None false false false false None false).
Proof.
  intros (_ & _ & Hsub).
  destruct (saveConfig_known l Hsub) as (config & Hc & <-).
  unfold initEditState. by rewrite Hc, js_map_res_prop_Some.
Qed.

(** C32: an identifier without descriptor becomes an [undefined] entry of
    the saved array, and mounting the edit mode on that array throws. *)
Theorem save_unknown_throws l x :
  x ∈ l → x ∉ field_ids ds →
  None ∈ saveConfig ds l ∧
  initEditState (Some (saveConfig ds l)) = Throw TypeError.
Proof.
  intros Hx Hunk.
  assert (None ∈ saveConfig ds l) as Hnone.
  { apply find_draggable_None in Hunk. rewrite <-Hunk.
    by apply list_elem_of_fmap_2. }
  split; [done|]. unfold initEditState.
  by rewrite js_map_res_prop_None.
Qed.

End save.

Lemma initEditState_default :
  initEditState None =
  Ok (mkEditState defaultFields None None false false false false None false).
Proof. done. Qed.

(** ** Appending through the container and the touch path *)

Section append_cases.
Implicit Types (dt : DataTransfer) (s : EditState) (x : string).

(** A bubble dropped inside the container's rectangle, outside the
    slots, is appended at the end of a list that has room for it. *)
Lemma handleBubbleDrop_append dt r cx cy s :
  payload_accepted dt → isInContainer r cx cy = true →
  dt_itemId dt ∉ activeContainer s →
  length (activeContainer s) < max_fields →
  handleBubbleDrop dt (Some r) cx cy s =
  handleDragEnd (set_activeContainer (activeContainer s ++ [dt_itemId dt]) s).
Proof.
  intros Hacc Hin Hnin Hlen. rewrite handleBubbleDrop_spec.
  rewrite decide_True by done.
  by rewrite (proj2 (may_append_true _ _ _)).
Qed.

(** A drop on the container never changes a list of five entries:
    unlike a drop on a slot it evicts nothing. *)
Theorem handleBubbleDrop_full dt rect cx cy s :
  length (activeContainer s) = max_fields →
  activeContainer (handleBubbleDrop dt rect cx cy s) = activeContainer s.
Proof.
  intros Hlen. rewrite handleBubbleDrop_spec.
  destruct rect as [r|]; [|done]. case_decide; [|done].
  destruct (may_append _ _ _) eqn:Hm; [|done].
  apply may_append_true in Hm as (_ & _ & ?). lia.
Qed.

(** The end of an active touch drag over the container appends the
    touched item when it is new and there is room, and clears the dragged
    item, the touch flag and the touch position. *)
Theorem onTouchEnd_append x s :
  touch_inactive s = false →
  x ∉ activeContainer s → length (activeContainer s) < max_fields →
  activeContainer (onTouchEnd x true s) = activeContainer s ++ [x] ∧
  draggedItem (onTouchEnd x true s) = None ∧
  isDraggingTouch (onTouchEnd x true s) = false ∧
  touchDragPosition (onTouchEnd x true s) = None.
Proof.
  intros Hact Hnin Hlen. rewrite onTouchEnd_spec, Hact.
  by rewrite (proj2 (may_append_true true x s)).
Qed.

End append_cases.

(** ** Worked examples *)

(** The state of a freshly opened edit mode without a prior configuration. *)
Definition default_state : EditState :=
  mkEditState defaultFields None None false false false false None false.

(** The payload written by dragging the bubble [x]. *)
Definition bubble_payload (x : string) : DataTransfer :=
  (handleDragStart x false default_state).2.

(** A state with three active fields and a drag of ["discount"] under way. *)
Definition dragging_state : EditState :=
  (handleDragStart "discount" false
     (set_activeContainer ["bookTitle"; "ratingStar"; "numberOfReviews"]%string
        default_state)).1.

Lemma handleDrop_ignored_witness :
  handleDrop empty_transfer 2 dragging_state = dragging_state.
Proof. apply handleDrop_ignored. by left. Defined.

Lemma handleDrop_insert_witness :
  activeContainer (handleDrop (bubble_payload "discount") 1 dragging_state) =
    ["bookTitle"; "discount"; "ratingStar"; "numberOfReviews"]%string ∧
  drag_idle (handleDrop (bubble_payload "discount") 1 dragging_state).
Proof.
  rewrite (handleDrop_insert (bubble_payload "discount") 1 dragging_state);
    [done|by_compute..].
Defined.

Lemma handleDrop_evicts_tail_witness :
  activeContainer (handleDrop (bubble_payload "discount") 0 default_state) =
  ["discount"; "bookTitle"; "bookSubtitle"; "author"; "narrator"]%string.
Proof.
  apply (handleDrop_evicts_tail (bubble_payload "discount") 0 default_state);
    by_compute.
Defined.

Lemma handleDrop_present_witness :
  handleDrop (bubble_payload "author") 0 default_state = default_state.
Proof.
  apply (handleDrop_present (bubble_payload "author") 0 default_state);
    by_compute.
Defined.

Lemma handleDrop_nodup_bounded_witness :
  NoDup (activeContainer
           (handleDrop (mkDataTransfer "isbn" "false") 9 default_state)) ∧
  length (activeContainer
            (handleDrop (mkDataTransfer "isbn" "false") 9 default_state)) ≤ 5.
Proof. apply handleDrop_nodup_bounded; by_compute. Defined.

Lemma handleDrop_unknown_payload_witness :
  activeContainer
    (handleDrop (mkDataTransfer "isbn" "false") 0 default_state) !! 0 =
    Some "isbn"%string ∧
  ¬ config_ok initialDraggables
      (activeContainer
         (handleDrop (mkDataTransfer "isbn" "false") 0 default_state)).
Proof.
  apply (handleDrop_unknown_payload initialDraggables
           (mkDataTransfer "isbn" "false") 0 default_state); by_compute.
Defined.

Lemma handleDrop_drag_idle_witness :
  drag_idle (handleDrop (bubble_payload "discount") 1 dragging_state).
Proof. apply handleDrop_drag_idle. by_compute. Defined.

Lemma handleBubbleDrop_append_witness :
  activeContainer
    (handleBubbleDrop (bubble_payload "discount")
       (Some (mkRect 100 600 50 550)) 100 550 dragging_state) =
  ["bookTitle"; "ratingStar"; "numberOfReviews"; "discount"]%string.
Proof.
  rewrite (handleBubbleDrop_append (bubble_payload "discount")
             (mkRect 100 600 50 550) 100 550 dragging_state);
    [done|by_compute..].
Defined.

Lemma handleBubbleDrop_full_witness :
  activeContainer
    (handleBubbleDrop (bubble_payload "discount")
       (Some (mkRect 100 600 50 550)) 300 300 default_state) = defaultFields.
Proof. by apply handleBubbleDrop_full. Defined.

Lemma onTouchEnd_append_witness :
  activeContainer
    (onTouchEnd "length" true
       (onTouchStart "length" (mkPosition 10 700) dragging_state)) =
  ["bookTitle"; "ratingStar"; "numberOfReviews"; "length"]%string.
Proof.
  apply (onTouchEnd_append "length"
           (onTouchStart "length" (mkPosition 10 700) dragging_state));
    by_compute.
Defined.

Lemma handleRemoveFromContainer_length_witness :
  S (length (activeContainer
               (handleRemoveFromContainer "ratingStar" dragging_state))) = 3.
Proof.
  apply (handleRemoveFromContainer_length "ratingStar" dragging_state);
    by_compute.
Defined.

Lemma saveConfig_defined_witness :
  Forall is_Some (saveConfig initialDraggables defaultFields) ∧
  (λ o, di_id <$> o) <$> saveConfig initialDraggables defaultFields =
    Some <$> defaultFields.
Proof. apply saveConfig_defined. by_compute. Defined.

Lemma save_reopen_roundtrip_witness :
  initEditState
    (Some (saveConfig initialDraggables
             ["discount"; "bookCashPrice"]%string)) =
  Ok (mkEditState ["discount"; "bookCashPrice"]%string
        None None false false false false None false).
Proof. apply save_reopen_roundtrip. by_compute. Defined.

Lemma save_unknown_throws_witness :
  None ∈ saveConfig initialDraggables ["bookTitle"; "isbn"]%string ∧
  initEditState
    (Some (saveConfig initialDraggables ["bookTitle"; "isbn"]%string)) =
  Throw TypeError.
Proof. apply (save_unknown_throws _ _ "isbn"%string); by_compute. Defined.

(** ** Visible bubbles *)

Lemma elem_of_visibleBubbles ds active (d : DraggableInfo) :
  d ∈ visibleBubbles ds active ↔ d ∈ ds ∧ di_id d ∉ active.
Proof. unfold visibleBubbles. rewrite list_elem_of_filter. tauto. Qed.

Lemma elem_of_visible_ids ds active (x : string) :
  x ∈ field_ids (visibleBubbles ds active) ↔ x ∈ field_ids ds ∧ x ∉ active.
Proof.
  unfold field_ids. rewrite !list_elem_of_fmap. split.
  - intros (d & -> & [Hd Hn]%elem_of_visibleBubbles). eauto.
  - intros [(d & -> & Hd) Hn]. exists d.
    by rewrite elem_of_visibleBubbles.
Qed.

Lemma NoDup_visible_ids ds active :
  NoDup (field_ids ds) → NoDup (field_ids (visibleBubbles ds active)).
Proof.
  intros Hnd. eapply sublist_NoDup; [exact Hnd|].
  apply fmap_sublist, sublist_filter.
Qed.

(** The active fields and the bubbles divide the descriptors between
    them. *)
Lemma visible_partition ds active :
  NoDup (field_ids ds) → NoDup active → active ⊆ field_ids ds →
  active ++ field_ids (visibleBubbles ds active) ≡ₚ field_ids ds.
Proof.
  intros Hnd Hna Hsub. apply NoDup_Permutation; [|done|].
  - apply NoDup_app. split_and!; [done| |by apply NoDup_visible_ids].
    by intros x Hx [_ Hn]%elem_of_visible_ids.
  - intros x. rewrite elem_of_app, elem_of_visible_ids.
    destruct (decide (x ∈ active)) as [Hx|Hx]; [|tauto].
    apply Hsub in Hx as Hx'. tauto.
Qed.

(** ** Hints for the clients of this file

    Preservation of the invariant by each handler that writes the list, for
    [eauto with js]. *)

#[export] Hint Resolve config_ok_snoc config_ok_filter
  config_ok_insert_bounded config_ok_defaultFields
  handleDrop_preserves_config handleBubbleDrop_preserves_config
  handleRemoveFromContainer_config_ok onTouchEnd_config_ok
  onReorder_config_ok : js.
