(* ===== verification/Preview.v ===== *)
(** * The preview list as rendered

    Models what [PreviewContainer]
    ([src/src/components/EditMode/PreviewContainer.tsx]) renders from the
    edit state: one row per active identifier that has a descriptor, each
    row a drop slot with its index in the active list and a remove button,
    and a placeholder slot after the rows while fewer than five fields are
    active.  The rows also form the [Reorder.Group]; the order it reports is
    the current one with one row moved ([moveItem], framer-motion's array
    helper, modelled from its documentation).  The placeholder is rendered
    with its class, its text and the targets of its animation
    ([renderPlaceholder]). *)

From Stdlib Require Import QArith.
From S2P Require Import Prelude Fields Assignment.

Local Close Scope Q_scope.
Local Open Scope list_scope.

(** ** Rows and slots *)

(** One [ReorderableItem] as [PreviewContainer] instantiates it. *)
Record RowView := mkRowView {
  row_index : nat;
  row_id : string;
  row_item : DraggableInfo;
  row_isDraggedOver : bool
}.

(** The callback of [activeContainer.map((id, index) => ...)]: [None] is the
    [return null] for an identifier without descriptor. *)
Definition previewRow (draggables : list DraggableInfo) (s : EditState)
    (index : nat) (id : string) : option RowView :=
  match find_draggable draggables id with
  | None => None
  | Some item =>
      Some (mkRowView index id item
              (bool_decide (draggedOverSlot s = Some index)
               && negb (isDraggingFromContainer s)))
  end.

(** The rows in display order. *)
Definition previewRows (draggables : list DraggableInfo) (s : EditState)
    : list RowView :=
  omap id (imap (previewRow draggables s) (activeContainer s)).

(** The placeholder ("Drag element here"): rendered while fewer than five
    fields are active; its slot index is the length of the list. *)
Definition placeholderSlot (s : EditState) : option nat :=
  if decide (length (activeContainer s) < max_fields)
  then Some (length (activeContainer s)) else None.

(** [draggedOverSlot === activeContainer.length]: the placeholder is
    highlighted. *)
Definition placeholderActive (s : EditState) : bool :=
  bool_decide (draggedOverSlot s = Some (length (activeContainer s))).

(** Every slot index a [dragover] or [drop] on the list can carry. *)
Definition dropSlots (draggables : list DraggableInfo) (s : EditState)
    : list nat :=
  (row_index <$> previewRows draggables s) ++ option_list (placeholderSlot s).

(** The identifiers that have a remove button. *)
Definition removable (draggables : list DraggableInfo) (s : EditState)
    : list string :=
  row_id <$> previewRows draggables s.

(** ** The placeholder and the frame *)

(** The placeholder as rendered: the slot index its handlers pass on, its
    [className], the targets of its animation, whether the pulse of its
    text repeats, and its text. *)
Record PlaceholderView := mkPlaceholderView {
  ph_slot : nat;
  ph_className : string;
  ph_scale : Q;
  ph_backgroundColor : string;
  ph_pulse : bool;
  ph_text : string
}.

(** The [className] of the placeholder. *)
Definition placeholderClassName (active : bool) : string :=
  ("border-2 border-dashed rounded-lg p-4 text-center transition-all mt-2 " +:+
   (if active then "border-blue-400 bg-blue-500/20 text-blue-300"
    else "border-gray-600 text-gray-500"))%string.

(** [activeContainer.length < 5 && <motion.div ...>] *)
Definition renderPlaceholder (s : EditState) : option PlaceholderView :=
  (λ slot,
     let active := placeholderActive s in
     mkPlaceholderView slot (placeholderClassName active)
       (if active then 51 # 50 else 1)%Q
       (if active then "rgba(59, 130, 246, 0.2)" else "rgba(0, 0, 0, 0)")
       active
       (if active then "✓ Drop here" else "⊕ Drag element here")) <$>
  placeholderSlot s.

(** The [borderColor] the frame of the preview animates to. *)
Definition containerBorderColor (s : EditState) : string :=
  if decide (length (activeContainer s) = 0)
  then "rgba(75, 85, 99, 0.5)" else "rgba(75, 85, 99, 0.3)".

(** ** Reordering *)

(** framer-motion's [moveItem(arr, fromIndex, toIndex)] for indices that are
    not negative: the element at [fromIndex] is taken out and spliced in at
    [toIndex]; an index past the end leaves the array as it is. *)
Definition moveItem {A} (arr : list A) (fromIndex toIndex : nat) : list A :=
  match arr !! fromIndex with
  | Some item => js_splice_insert toIndex item (delete fromIndex arr)
  | None => arr
  end.

(** ** Lemmas *)

Section rows.
Context (ds : list DraggableInfo).
Implicit Types (s : EditState) (i : nat) (x : string) (r : RowView).

Lemma previewRow_Some s i x r :
  previewRow ds s i x = Some r →
  row_index r = i ∧ row_id r = x ∧ find_draggable ds x = Some (row_item r).
Proof.
  unfold previewRow. destruct (find_draggable ds x); [|done].
  by intros [= <-].
Qed.

Lemma elem_of_previewRows s r :
  r ∈ previewRows ds s ↔
  ∃ i x, activeContainer s !! i = Some x ∧ previewRow ds s i x = Some r.
Proof.
  unfold previewRows. rewrite list_elem_of_omap. split.
  - intros (o & (i & x & -> & Hx)%elem_of_lookup_imap & Ho). eauto.
  - intros (i & x & Hx & Hr). exists (Some r). split; [|done].
    rewrite <-Hr. by apply elem_of_lookup_imap_2.
Qed.

(** A row's index is the position of its identifier in the active list. *)
Lemma previewRows_lookup s r :
  r ∈ previewRows ds s →
  activeContainer s !! row_index r = Some (row_id r) ∧
  row_id r ∈ field_ids ds.
Proof.
  intros (i & x & Hx & (<- & <- & Hf)%previewRow_Some)%elem_of_previewRows.
  split; [done|]. apply find_draggable_is_Some. by eexists.
Qed.

Lemma elem_of_removable s x :
  x ∈ removable ds s ↔ x ∈ activeContainer s ∧ x ∈ field_ids ds.
Proof.
  unfold removable. rewrite list_elem_of_fmap. split.
  - intros (r & -> & [Hl Hk]%previewRows_lookup).
    split; [by eapply list_elem_of_lookup_2|done].
  - intros [(i & Hi)%list_elem_of_lookup [d Hd]%find_draggable_is_Some].
    exists (mkRowView i x d
      (bool_decide (draggedOverSlot s = Some i)
       && negb (isDraggingFromContainer s))).
    split; [done|]. apply elem_of_previewRows. exists i, x.
    split; [done|]. unfold previewRow. by rewrite Hd.
Qed.

(** When every active identifier has a descriptor, each has its row, in
    the order of the list and with its position as slot index. *)
Lemma previewRow_known s i x d :
  find_draggable ds x = Some d →
  previewRow ds s i x =
  Some (mkRowView i x d
          (bool_decide (draggedOverSlot s = Some i)
           && negb (isDraggingFromContainer s))).
Proof. intros Hd. unfold previewRow. by rewrite Hd. Qed.

(** When every active identifier has a descriptor, each has its row, in
    the order of the list and with its position as slot index. *)
Lemma previewRows_known_aux s (g : nat → nat) (l : list string) :
  l ⊆ field_ids ds →
  row_id <$> omap id (imap (λ i, previewRow ds s (g i)) l) = l ∧
  row_index <$> omap id (imap (λ i, previewRow ds s (g i)) l) =
    g <$> seq 0 (length l).
Proof.
  revert g. induction l as [|x l IH]; intros g Hl; [done|].
  destruct (proj1 (find_draggable_is_Some ds x)) as [d Hd].
  { apply Hl. by left. }
  destruct (IH (g ∘ S)) as [IH1 IH2]; [intros y Hy; apply Hl; by right|].
  rewrite imap_cons. csimpl. rewrite (previewRow_known _ _ _ _ Hd). csimpl.
  rewrite <-seq_shift, <-list_fmap_compose.
  split; f_equal; [exact IH1|exact IH2].
Qed.

Lemma previewRows_known s :
  activeContainer s ⊆ field_ids ds →
  row_id <$> previewRows ds s = activeContainer s ∧
  row_index <$> previewRows ds s = seq 0 (length (activeContainer s)).
Proof.
  intros Hl. destruct (previewRows_known_aux s id _ Hl) as [H1 H2].
  split; [done|]. by rewrite list_fmap_id in H2.
Qed.

Lemma elem_of_dropSlots s i :
  i ∈ dropSlots ds s →
  i ≤ length (activeContainer s) ∧ i < max_fields ∨
  i < length (activeContainer s).
Proof.
  unfold dropSlots, placeholderSlot. rewrite elem_of_app, list_elem_of_fmap.
  intros [(r & -> & [Hl _]%previewRows_lookup)|Hp].
  - right. by eapply lookup_lt_Some.
  - case_decide; [|by apply elem_of_nil in Hp].
    apply list_elem_of_singleton in Hp as ->. left. lia.
Qed.

Lemma placeholder_dropSlot s :
  length (activeContainer s) < max_fields →
  length (activeContainer s) ∈ dropSlots ds s.
Proof.
  intros Hlen. unfold dropSlots, placeholderSlot.
  rewrite decide_True by done. apply elem_of_app. right. by left.
Qed.

End rows.

Section moveItem.
Context {A : Type}.
Implicit Types (arr : list A) (i j : nat).

Lemma moveItem_perm arr i j : moveItem arr i j ≡ₚ arr.
Proof.
  unfold moveItem. destruct (arr !! i) as [x|] eqn:Hi; [|done].
  rewrite js_splice_insert_perm. symmetry. by apply delete_Permutation.
Qed.

Lemma length_moveItem arr i j : length (moveItem arr i j) = length arr.
Proof. by rewrite moveItem_perm. Qed.

Lemma moveItem_same arr i : moveItem arr i i = arr.
Proof.
  unfold moveItem. destruct (arr !! i) as [x|] eqn:Hi; [|done].
  assert (length (take i arr) = i) as Hlen.
  { rewrite length_take. apply lookup_lt_Some in Hi. lia. }
  unfold js_splice_insert. rewrite delete_take_drop.
  rewrite take_app_length', drop_app_length' by done.
  by apply take_drop_middle.
Qed.

(** The moved element arrives at the target position. *)
Lemma moveItem_lookup arr i j x :
  arr !! i = Some x → j < length arr → moveItem arr i j !! j = Some x.
Proof.
  intros Hi Hj. unfold moveItem. rewrite Hi.
  apply js_splice_insert_lookup. rewrite length_delete by eauto. lia.
Qed.

End moveItem.
