(* ===== verification/EditMachine.v ===== *)
(** * The edit mode as a transition system

    Composes the handlers of [Assignment] with the view of [Preview] into
    the machine a user drives: the events the rendered interface can
    deliver ([EditEvent]), when each is offered ([edit_valid]: the bubble,
    row, slot or button that carries the handler is on screen), and the
    handler it runs ([edit_transition]).  The browser's drag session, which
    carries the [DataTransfer] payload from [dragstart] to [drop], is the
    second component of a [Session].

    The theorems are invariants of the reachable sessions, proved by
    induction over [edit_step]; that every run of the executable form
    [run_events] is a run of the step relation; and the runs that produce
    a wanted configuration. *)

From S2P Require Import Prelude Fields Assignment Preview.

Local Open Scope list_scope.

(** ** Sessions and events *)

(** The edit state and the payload of the drag under way, if any. *)
Record Session := mkSession {
  sess_state : EditState;
  sess_payload : option DataTransfer
}.

Inductive EditEvent :=
| EvDragStart (itemId : string)
| EvDragEnd
| EvDragOver (slot : nat)
| EvDragLeave
| EvSlotDrop (slot : nat)
| EvContainerDrop (rect : option Rect) (clientX clientY : Z)
| EvRemove (id : string)
| EvReorder (fromIndex toIndex : nat)
| EvTouchStart (itemId : string) (touch : Position)
| EvTouchMove (touch : Position)
| EvTouchEnd (itemId : string) (isOverContainer : bool)
| EvSaveClick
| EvSaveDelay.

(** What [getData] reads at a drop: the payload of the session's drag, or
    empty strings when the drag did not start on a bubble. *)
Definition current_payload (sess : Session) : DataTransfer :=
  default empty_transfer (sess_payload sess).

(** The handler each event runs.  A bubble calls [handleDragStart] with two
    arguments, so [fromContainer] takes its default [false]. *)
Definition edit_transition (ev : EditEvent) (sess : Session) : Session :=
  let s := sess_state sess in
  match ev with
  | EvDragStart itemId =>
      mkSession (handleDragStart itemId false s).1
        (Some (handleDragStart itemId false s).2)
  | EvDragEnd => mkSession (handleDragEnd s) None
  | EvDragOver slot => mkSession (handleDragOver slot s) (sess_payload sess)
  | EvDragLeave => mkSession (handleDragLeave s) (sess_payload sess)
  | EvSlotDrop slot =>
      mkSession (handleDrop (current_payload sess) slot s) None
  | EvContainerDrop rect clientX clientY =>
      mkSession (handleBubbleDrop (current_payload sess) rect clientX clientY s)
        None
  | EvRemove id =>
      mkSession (handleRemoveFromContainer id s) (sess_payload sess)
  | EvReorder fromIndex toIndex =>
      mkSession (onReorder (moveItem (activeContainer s) fromIndex toIndex) s)
        (sess_payload sess)
  | EvTouchStart itemId touch =>
      mkSession (onTouchStart itemId touch s) (sess_payload sess)
  | EvTouchMove touch => mkSession (onTouchMove touch s) (sess_payload sess)
  | EvTouchEnd itemId isOverContainer =>
      mkSession (onTouchEnd itemId isOverContainer s) (sess_payload sess)
  | EvSaveClick => mkSession (saveStart s) (sess_payload sess)
  | EvSaveDelay => mkSession (saveSuccess s) (sess_payload sess)
  end.

(** When the interface offers an event.  [isMobile] selects the layout: the
    touch handlers exist only on the chips of the mobile list. *)
Definition edit_valid (isMobile : bool) (draggables : list DraggableInfo)
    (sess : Session) (ev : EditEvent) : Prop :=
  let s := sess_state sess in
  match ev with
  | EvDragStart itemId =>
      sess_payload sess = None ∧
      itemId ∈ field_ids (visibleBubbles draggables (activeContainer s))
  | EvDragOver slot | EvSlotDrop slot => slot ∈ dropSlots draggables s
  | EvRemove id => id ∈ removable draggables s
  | EvReorder fromIndex toIndex =>
      fromIndex < length (activeContainer s) ∧
      toIndex < length (activeContainer s)
  | EvTouchStart itemId _ =>
      isMobile = true ∧
      itemId ∈ field_ids (visibleBubbles draggables (activeContainer s))
  | EvTouchMove _ => isMobile = true
  | EvTouchEnd itemId _ => isMobile = true ∧ itemId ∈ field_ids draggables
  | EvSaveClick => isSaving s = false
  | EvSaveDelay => isSaving s = true
  | EvDragEnd | EvDragLeave | EvContainerDrop _ _ _ => True
  end.

#[export] Instance edit_valid_dec m ds sess ev :
  Decision (edit_valid m ds sess ev).
Proof. destruct ev; simpl; apply _. Defined.

(** One step of the machine. *)
Inductive edit_step (isMobile : bool) (draggables : list DraggableInfo)
    : Session → Session → Prop :=
| EditStep sess ev :
    edit_valid isMobile draggables sess ev →
    edit_step isMobile draggables sess (edit_transition ev sess).

(** Running a sequence of events; [None] when one of them is not offered in
    the session it meets. *)
Fixpoint run_events (isMobile : bool) (draggables : list DraggableInfo)
    (evs : list EditEvent) (sess : Session) : option Session :=
  match evs with
  | [] => Some sess
  | ev :: evs' =>
      if decide (edit_valid isMobile draggables sess ev)
      then run_events isMobile draggables evs' (edit_transition ev sess)
      else None
  end.

(** The session in which the edit mode opens. *)
Definition open_session (currentConfig : option (list (option DraggableInfo)))
    : res Session :=
  res_map (λ s, mkSession s None) (initEditState currentConfig).

(** ** The session invariant *)

(** A payload written by a bubble: it names a descriptor and is marked as
    not coming from the preview list. *)
Definition payload_ok (draggables : list DraggableInfo)
    (o : option DataTransfer) : Prop :=
  ∀ dt, o = Some dt →
    dt_itemId dt ∈ field_ids draggables ∧ payload_fromContainer dt = false.

Definition sess_ok (draggables : list DraggableInfo) (sess : Session) : Prop :=
  config_ok draggables (activeContainer (sess_state sess)) ∧
  payload_ok draggables (sess_payload sess) ∧
  isDraggingFromContainer (sess_state sess) = false.

(** The from-container marks of the state and of the payload. *)
Definition flags_clear (sess : Session) : Prop :=
  isDraggingFromContainer (sess_state sess) = false ∧
  ∀ dt, sess_payload sess = Some dt → payload_fromContainer dt = false.

(** ** Runs that build a configuration *)

(** The events that drag each field of [l] onto the placeholder slot, the
    first of them onto slot [k]. *)
Fixpoint add_events (k : nat) (l : list string) : list EditEvent :=
  match l with
  | [] => []
  | x :: l' => EvDragStart x :: EvSlotDrop k :: add_events (S k) l'
  end.

(** The events that produce [l] from a session whose active list is
    [current]: every row is removed, then the fields of [l] are dragged in
    one after the other. *)
Definition rebuild_events (current l : list string) : list EditEvent :=
  (EvRemove <$> current) ++ add_events 0 l.

(** ** Preservation *)

Section preservation.
Context (isMobile : bool) (ds : list DraggableInfo).
Implicit Types (sess : Session) (ev : EditEvent).

Lemma payload_ok_None : payload_ok ds None.
Proof. by intros dt. Qed.

Lemma payload_ok_current sess :
  payload_ok ds (sess_payload sess) →
  dt_itemId (current_payload sess) = ""%string ∨
  dt_itemId (current_payload sess) ∈ field_ids ds.
Proof.
  unfold current_payload. destruct (sess_payload sess) as [dt|]; simpl.
  - intros Hok. right. by apply Hok.
  - by left.
Qed.

(** Only [handleDragStart] writes [true] to the from-container flag, and
    the interface never calls it with that argument. *)
Lemma edit_transition_fromContainer sess ev :
  isDraggingFromContainer (sess_state sess) = false →
  isDraggingFromContainer (sess_state (edit_transition ev sess)) = false.
Proof. intros Hf. destruct ev; simpl; by handler_cases. Qed.

Lemma edit_transition_payload_ok sess ev :
  edit_valid isMobile ds sess ev →
  payload_ok ds (sess_payload sess) →
  payload_ok ds (sess_payload (edit_transition ev sess)).
Proof.
  intros Hv Hok. destruct ev; simpl; try done; try apply payload_ok_None.
  destruct Hv as [_ Hx%elem_of_visible_ids].
  intros dt [= <-]. simpl. by destruct Hx.
Qed.

Lemma edit_transition_config_ok sess ev :
  edit_valid isMobile ds sess ev →
  payload_ok ds (sess_payload sess) →
  config_ok ds (activeContainer (sess_state sess)) →
  config_ok ds (activeContainer (sess_state (edit_transition ev sess))).
Proof.
  intros Hv Hp Hok. destruct ev; simpl in *; autorewrite with jsrw; try done.
  - eauto using payload_ok_current with js.
  - eauto using payload_ok_current with js.
  - eauto with js.
  - by rewrite moveItem_perm.
  - destruct Hv. eauto with js.
Qed.

Lemma edit_step_sess_ok sess sess' :
  edit_step isMobile ds sess sess' → sess_ok ds sess → sess_ok ds sess'.
Proof.
  intros [? ev Hv] (Hc & Hp & Hf). split_and!.
  - by apply edit_transition_config_ok.
  - by apply edit_transition_payload_ok.
  - by apply edit_transition_fromContainer.
Qed.

Lemma rtc_edit_step_sess_ok sess sess' :
  rtc (edit_step isMobile ds) sess sess' → sess_ok ds sess → sess_ok ds sess'.
Proof.
  intros Hrtc Hok. revert Hrtc. apply rtc_preserve; [|done].
  intros a b Ha Hab. by eapply edit_step_sess_ok.
Qed.

Lemma edit_step_flags_clear sess sess' :
  edit_step isMobile ds sess sess' → flags_clear sess → flags_clear sess'.
Proof.
  intros [? ev Hv] [Hf Hp]. split.
  - by apply edit_transition_fromContainer.
  - destruct ev; simpl; try done. by intros dt [= <-].
Qed.

Lemma run_events_rtc evs sess sess' :
  run_events isMobile ds evs sess = Some sess' →
  rtc (edit_step isMobile ds) sess sess'.
Proof.
  revert sess. induction evs as [|ev evs IH]; intros sess; simpl.
  - by intros [= <-].
  - case_decide as Hv; [|done]. intros Hrun.
    eapply rtc_l; [by constructor|by apply IH].
Qed.

Lemma run_events_cons ev evs sess :
  edit_valid isMobile ds sess ev →
  run_events isMobile ds (ev :: evs) sess =
  run_events isMobile ds evs (edit_transition ev sess).
Proof. intros Hv. simpl. by rewrite decide_True. Qed.

Lemma run_events_app evs1 evs2 sess :
  run_events isMobile ds (evs1 ++ evs2) sess =
  run_events isMobile ds evs1 sess ≫= run_events isMobile ds evs2.
Proof.
  revert sess. induction evs1 as [|ev evs1 IH]; intros sess; simpl; [done|].
  by case_decide.
Qed.

End preservation.

(** ** Reachable sessions *)

Section reachable.
Context (isMobile : bool) (ds : list DraggableInfo).
Implicit Types (sess : Session) (s : EditState).

Lemma open_session_Ok cfg sess :
  open_session cfg = Ok sess →
  ∃ s, initEditState cfg = Ok s ∧ sess = mkSession s None ∧
       drag_idle s ∧ isDraggingFromContainer s = false.
Proof.
  unfold open_session, res_map. intros (s & Hs & [= <-])%res_bind_Ok.
  exists s. split_and!; try done.
  all: unfold initEditState, res_map in Hs;
    apply res_bind_Ok in Hs as (ids & _ & [= <-]); done.
Qed.

(** The session invariant holds in every session reachable from an edit
    mode opened on a valid configuration. *)
Lemma reachable_sess_ok cfg sess0 sess :
  open_session cfg = Ok sess0 →
  config_ok ds (activeContainer (sess_state sess0)) →
  rtc (edit_step isMobile ds) sess0 sess →
  sess_ok ds sess.
Proof.
  intros (s & _ & -> & _ & Hf)%open_session_Ok Hok Hrtc.
  eapply (rtc_edit_step_sess_ok isMobile ds); [done|].
  split_and!; [done|apply payload_ok_None|done].
Qed.

(** C1: in every session reachable from an edit mode opened on a valid
    configuration, the active configuration has no duplicate, at most five
    entries and only identifiers of field descriptors. *)
Theorem reachable_config_ok cfg sess0 sess :
  open_session cfg = Ok sess0 →
  config_ok ds (activeContainer (sess_state sess0)) →
  rtc (edit_step isMobile ds) sess0 sess →
  config_ok ds (activeContainer (sess_state sess)).
Proof.
  intros Hopen Hok Hrtc.
  by destruct (reachable_sess_ok cfg sess0 sess Hopen Hok Hrtc) as (? & _).
Qed.

(** C35: no reachable session has the from-container flag set, and no
    payload is marked as coming from the list: the drag state "dragging
    from the list" of the edit mode is never entered. *)
Theorem reachable_not_from_container cfg sess0 sess :
  open_session cfg = Ok sess0 →
  rtc (edit_step isMobile ds) sess0 sess →
  isDraggingFromContainer (sess_state sess) = false ∧
  ∀ dt, sess_payload sess = Some dt → payload_fromContainer dt = false.
Proof.
  intros (s & _ & -> & _ & Hf)%open_session_Ok.
  apply (rtc_preserve _ (flags_clear)); [|by split].
  intros a b Ha Hab. by eapply edit_step_flags_clear.
Qed.

End reachable.

(** ** Every valid configuration can be produced *)

Section completeness.
Context (isMobile : bool) (ds : list DraggableInfo).
Context (ids_nonempty : ""%string ∉ field_ids ds).
Implicit Types (sess : Session) (l pre rs : list string) (x : string).

Lemma run_removes rs sess :
  NoDup rs → rs ⊆ activeContainer (sess_state sess) → rs ⊆ field_ids ds →
  ∃ sess', run_events isMobile ds (EvRemove <$> rs) sess = Some sess' ∧
    sess_payload sess' = sess_payload sess ∧
    ∀ y, y ∈ activeContainer (sess_state sess') ↔
         y ∈ activeContainer (sess_state sess) ∧ y ∉ rs.
Proof.
  revert sess. induction rs as [|x rs IH]; intros sess Hnd Hin Hk.
  { exists sess. split_and!; [done..|]. intros y. rewrite elem_of_nil. tauto. }
  apply list.NoDup_cons in Hnd as [Hx Hnd].
  rewrite fmap_cons, run_events_cons.
  2:{ apply elem_of_removable. split; [apply Hin|apply Hk]; by left. }
  destruct (IH (edit_transition (EvRemove x) sess)) as (sess' & -> & Hp & Ha).
  - done.
  - intros y Hy. simpl. apply list_elem_of_filter. split.
    + by intros ->.
    + apply Hin. by right.
  - intros y Hy. apply Hk. by right.
  - exists sess'. split_and!; [done..|]. intros y. rewrite Ha. simpl.
    rewrite list_elem_of_filter, not_elem_of_cons. tauto.
Qed.

Lemma run_add x sess :
  sess_payload sess = None → x ∈ field_ids ds →
  x ∉ activeContainer (sess_state sess) →
  length (activeContainer (sess_state sess)) < max_fields →
  ∃ sess',
    run_events isMobile ds
      [EvDragStart x; EvSlotDrop (length (activeContainer (sess_state sess)))]
      sess = Some sess' ∧
    sess_payload sess' = None ∧
    activeContainer (sess_state sess') =
      activeContainer (sess_state sess) ++ [x].
Proof.
  intros Hp Hx Hnin Hlen.
  rewrite run_events_cons by (split; [done|by apply elem_of_visible_ids]).
  rewrite run_events_cons
    by exact (placeholder_dropSlot ds
                (sess_state (edit_transition (EvDragStart x) sess)) Hlen).
  eexists. split_and!; [done..|].
  change (activeContainer
            (handleDrop (mkDataTransfer x "false")
               (length (activeContainer (sess_state sess)))
               (handleDragStart x false (sess_state sess)).1) =
          activeContainer (sess_state sess) ++ [x]).
  rewrite handleDrop_accepted by (split; [simpl; by intros ->|done]).
  apply js_includes_false in Hnin. simpl. rewrite Hnin. simpl.
  rewrite insert_bounded_lt by done. by apply js_splice_insert_ge.
Qed.

Lemma run_adds l sess :
  sess_payload sess = None → l ⊆ field_ids ds →
  NoDup (activeContainer (sess_state sess) ++ l) →
  length (activeContainer (sess_state sess) ++ l) ≤ max_fields →
  ∃ sess',
    run_events isMobile ds
      (add_events (length (activeContainer (sess_state sess))) l) sess =
      Some sess' ∧
    sess_payload sess' = None ∧
    activeContainer (sess_state sess') = activeContainer (sess_state sess) ++ l.
Proof.
  revert sess. induction l as [|x l IH]; intros sess Hp Hk Hnd Hlen.
  { exists sess. by rewrite app_nil_r. }
  rewrite cons_middle, app_assoc in Hnd, Hlen.
  destruct (run_add x sess) as (sess1 & Hrun & Hp1 & Ha1).
  - done.
  - apply Hk. by left.
  - apply NoDup_app in Hnd as [(_ & Hd & _)%NoDup_app _].
    intros Hin. apply (Hd x Hin). by left.
  - rewrite !length_app in Hlen. simpl in Hlen. lia.
  - destruct (IH sess1) as (sess' & Hrun' & Hp' & Ha'); rewrite ?Ha1; try done.
    { intros y Hy. apply Hk. by right. }
    exists sess'. split_and!; [|done|by rewrite Ha', Ha1, <-app_assoc].
    change (add_events _ (x :: l)) with
      ([EvDragStart x; EvSlotDrop (length (activeContainer (sess_state sess)))]
       ++ add_events (S (length (activeContainer (sess_state sess)))) l).
    rewrite run_events_app, Hrun. simpl. rewrite <-Hrun', Ha1, length_app.
    simpl. by rewrite Nat.add_1_r.
Qed.

(** The events of [rebuild_events] are a run of the machine that ends with
    the wanted list and no drag under way. *)
Lemma rebuild_events_run sess l :
  sess_payload sess = None →
  config_ok ds (activeContainer (sess_state sess)) → config_ok ds l →
  ∃ sess',
    run_events isMobile ds
      (rebuild_events (activeContainer (sess_state sess)) l) sess =
      Some sess' ∧
    activeContainer (sess_state sess') = l ∧ sess_payload sess' = None.
Proof.
  intros Hp (Hnd & _ & Hk) (Hnd' & Hlen' & Hk').
  destruct (run_removes _ sess Hnd) as (sess1 & Hrun1 & Hp1 & Ha1); [done..|].
  assert (activeContainer (sess_state sess1) = []) as Hnil.
  { apply elem_of_nil_inv. intros y Hy%Ha1. tauto. }
  destruct (run_adds l sess1) as (sess' & Hrun' & Hp'' & Ha').
  - congruence.
  - done.
  - by rewrite Hnil.
  - by rewrite Hnil.
  - exists sess'. rewrite Hnil in Hrun', Ha'. unfold rebuild_events.
    rewrite run_events_app, Hrun1. split; [exact Hrun'|done].
Qed.

(** C11: from any session with a valid configuration and no drag under way,
    the interface can produce every valid configuration: removing the rows
    and dragging the wanted fields in, in order, is a run of the machine
    that ends with exactly that list.  Descriptors have non-empty
    identifiers: the drop handlers ignore an empty one. *)
Theorem every_config_reachable sess l :
  sess_payload sess = None →
  config_ok ds (activeContainer (sess_state sess)) → config_ok ds l →
  ∃ sess',
    run_events isMobile ds
      (rebuild_events (activeContainer (sess_state sess)) l) sess =
      Some sess' ∧
    activeContainer (sess_state sess') = l ∧ sess_payload sess' = None.
Proof. apply rebuild_events_run. Qed.

End completeness.

(** ** What the reachable sessions show and save *)

Section reachable_view.
Context (isMobile : bool) (ds : list DraggableInfo).
Implicit Types (sess : Session).

(** C36: in every reachable session each active field has its row: the
    remove buttons are exactly the active list, the row slots are numbered
    from zero in list order, and no offered drop slot lies beyond the end
    of the list or beyond the fifth position. *)
Theorem reachable_rows_complete cfg sess0 sess :
  open_session cfg = Ok sess0 →
  config_ok ds (activeContainer (sess_state sess0)) →
  rtc (edit_step isMobile ds) sess0 sess →
  removable ds (sess_state sess) = activeContainer (sess_state sess) ∧
  row_index <$> previewRows ds (sess_state sess) =
    seq 0 (length (activeContainer (sess_state sess))) ∧
  ∀ i, i ∈ dropSlots ds (sess_state sess) →
       i ≤ length (activeContainer (sess_state sess)) ∧ i < max_fields.
Proof.
  intros Hopen Hok Hrtc.
  destruct (reachable_sess_ok isMobile ds cfg sess0 sess Hopen Hok Hrtc)
    as ((_ & Hlen & Hk) & _).
  destruct (previewRows_known ds _ Hk) as [Hids Hidx]. split_and!; [done..|].
  intros i [?|Hi]%elem_of_dropSlots; lia.
Qed.

(** C34: saving from any reachable session yields an array without
    [undefined] entries whose identifiers are the active list, so the
    carousel never receives a hole. *)
Theorem reachable_save_defined cfg sess0 sess :
  open_session cfg = Ok sess0 →
  config_ok ds (activeContainer (sess_state sess0)) →
  rtc (edit_step isMobile ds) sess0 sess →
  ∃ config,
    saveConfig ds (activeContainer (sess_state sess)) = Some <$> config ∧
    di_id <$> config = activeContainer (sess_state sess).
Proof.
  intros Hopen Hok Hrtc.
  destruct (reachable_sess_ok isMobile ds cfg sess0 sess Hopen Hok Hrtc)
    as ((_ & _ & Hk) & _).
  by apply saveConfig_known.
Qed.

End reachable_view.

(** ** Worked examples *)

(** The session of an edit mode opened without a prior configuration. *)
Definition default_session : Session := mkSession default_state None.

(** The scenario "five fields active, a sixth dragged onto slot 0": the
    drag, two hovers and the drop. *)
Definition sixth_onto_first : list EditEvent :=
  [EvDragStart "discount"; EvDragOver 2; EvDragOver 0; EvSlotDrop 0].

Lemma sixth_onto_first_run :
  run_events false initialDraggables sixth_onto_first default_session =
  Some (mkSession
          (set_activeContainer
             ["discount"; "bookTitle"; "bookSubtitle"; "author"; "narrator"]%string
             default_state) None).
Proof. by_compute. Qed.

(** A removal in the middle of a drag, then the drop on the freed slot. *)
Definition remove_during_drag : list EditEvent :=
  [EvDragStart "length"; EvRemove "author"; EvDragOver 4; EvSlotDrop 4;
   EvDragEnd].

Lemma remove_during_drag_run :
  activeContainer ∘ sess_state <$>
    run_events false initialDraggables remove_during_drag default_session =
  Some ["bookTitle"; "bookSubtitle"; "narrator"; "ratingStar"; "length"]%string.
Proof. by_compute. Qed.

(** An event the interface does not offer: no placeholder slot on a full
    list. *)
Lemma drop_beyond_full_refused :
  run_events false initialDraggables [EvDragStart "length"; EvSlotDrop 5]
    default_session = None.
Proof. by_compute. Qed.

Lemma reachable_config_ok_witness :
  config_ok initialDraggables
    ["discount"; "bookTitle"; "bookSubtitle"; "author"; "narrator"]%string.
Proof.
  apply (reachable_config_ok false initialDraggables None default_session
           (mkSession
              (set_activeContainer
                 ["discount"; "bookTitle"; "bookSubtitle"; "author";
                  "narrator"]%string default_state) None)).
  - reflexivity.
  - by_compute.
  - apply run_events_rtc with sixth_onto_first. by_compute.
Defined.

Lemma reachable_not_from_container_witness :
  isDraggingFromContainer
    (sess_state (edit_transition (EvDragStart "length") default_session)) =
    false ∧
  ∀ dt, sess_payload (edit_transition (EvDragStart "length") default_session)
        = Some dt → payload_fromContainer dt = false.
Proof.
  apply (reachable_not_from_container false initialDraggables None
           default_session).
  - reflexivity.
  - apply rtc_once. constructor. by_compute.
Defined.

Lemma reachable_rows_complete_witness :
  removable initialDraggables default_state = defaultFields ∧
  row_index <$> previewRows initialDraggables default_state = seq 0 5 ∧
  ∀ i, i ∈ dropSlots initialDraggables default_state → i ≤ 5 ∧ i < max_fields.
Proof.
  apply (reachable_rows_complete false initialDraggables None default_session
           default_session); [reflexivity|by_compute|reflexivity].
Defined.

Lemma reachable_save_defined_witness :
  ∃ config,
    saveConfig initialDraggables defaultFields = Some <$> config ∧
    di_id <$> config = defaultFields.
Proof.
  apply (reachable_save_defined false initialDraggables None default_session
           default_session); [reflexivity|by_compute|reflexivity].
Defined.

Lemma every_config_reachable_witness :
  ∃ sess',
    run_events true initialDraggables
      (rebuild_events defaultFields ["discount"; "bookCashPrice"]%string)
      default_session = Some sess' ∧
    activeContainer (sess_state sess') = ["discount"; "bookCashPrice"]%string ∧
    sess_payload sess' = None.
Proof.
  apply (every_config_reachable true initialDraggables ltac:(by_compute)
           default_session ["discount"; "bookCashPrice"]%string); by_compute.
Defined.
