(* ===== verification/Spec.v ===== *)
(** * The assignment state machine of the specification

    The abstract machine of the design document (section 4.1): three drag
    states, the ordered active configuration and the hovered slot, with one
    transition per rule of the document.  It is written from the document,
    not from the source; what the source adds to the document (the drop on
    the container outside the slots) is a transition of its own.

    The abstract machine has an executable run ([abs_run]), and a list of
    concrete actions has an abstract run ([abs_follow]): the run of the
    images of the actions, each accepted in the state it meets.  The
    theorems show that the edit mode of the source refines this machine
    in the desktop layout: a run of [EditMachine] by events that the
    desktop interface offers ends in a session whose abstraction [abs] is
    the result of the abstract run of the same events.  The abstract run
    is a function of the events, so this fixes what every handler does to
    the configuration, the drag state and the hovered slot.  The document
    has no touch path; on a touch device a whole gesture on a chip of the
    mobile layout stands for a drag start followed by a drop on the
    container, and with gestures as actions the mobile layout refines the
    machine too. *)

From S2P Require Import Prelude Fields Assignment Preview EditMachine.

Local Open Scope list_scope.

(** ** The abstract machine *)

Inductive DragState :=
| Idle
| FromCircle (id : string)
| FromList (id : string).

Record AbsState := mkAbs {
  abs_config : list string;
  abs_drag : DragState;
  abs_hover : option nat
}.

Inductive AbsEvent :=
| ADragStartCircle (id : string)
| ADragStartList (id : string)
| AHover (slot : nat)
| AUnhover
| ADropSlot (slot : nat)
| ADropContainer (inside : bool)
| ARemove (id : string)
| AReorder (order : list string)
| ADragEnd.

(** "Insert identifier at that slot index, shifting subsequent entries; if
    the configuration would exceed 5, drop the last entry before
    inserting." *)
Definition spec_insert (slot : nat) (id : string) (config : list string)
    : list string :=
  let kept :=
    if decide (max_fields ≤ length config)
    then take (length config - 1) config else config in
  take slot kept ++ id :: drop slot kept.

(** "Return to idle and clear hover-slot and drag-source bookkeeping." *)
Definition end_drag (a : AbsState) : AbsState := mkAbs (abs_config a) Idle None.

Definition abs_transition (ev : AbsEvent) (a : AbsState) : AbsState :=
  match ev with
  | ADragStartCircle id => mkAbs (abs_config a) (FromCircle id) (abs_hover a)
  | ADragStartList id => mkAbs (abs_config a) (FromList id) (abs_hover a)
  | AHover slot => mkAbs (abs_config a) (abs_drag a) (Some slot)
  | AUnhover => mkAbs (abs_config a) (abs_drag a) None
  | ADropSlot slot =>
      match abs_drag a with
      | FromCircle id =>
          end_drag
            (if decide (id ∈ abs_config a) then a
             else mkAbs (spec_insert slot id (abs_config a)) (abs_drag a)
                    (abs_hover a))
      | FromList _ => end_drag a
      | Idle => a
      end
  | ADropContainer inside =>
      match abs_drag a with
      | FromCircle id =>
          end_drag
            (if decide (inside = true ∧ (id ∉ abs_config a) ∧
                        (length (abs_config a) < max_fields))
             then mkAbs (abs_config a ++ [id]) (abs_drag a) (abs_hover a)
             else a)
      | FromList _ => end_drag a
      | Idle => a
      end
  | ARemove id =>
      mkAbs (filter (λ x, x ≠ id) (abs_config a)) (abs_drag a) (abs_hover a)
  | AReorder order => mkAbs order (abs_drag a) (abs_hover a)
  | ADragEnd => end_drag a
  end.

(** When the abstract machine accepts an event. *)
Definition abs_valid (draggables : list DraggableInfo) (a : AbsState)
    (ev : AbsEvent) : Prop :=
  match ev with
  | ADragStartCircle id =>
      abs_drag a = Idle ∧ id ∈ field_ids draggables ∧ id ∉ abs_config a
  | ADragStartList id => abs_drag a = Idle ∧ id ∈ abs_config a
  | AHover slot | ADropSlot slot =>
      slot ≤ length (abs_config a) ∧ slot < max_fields
  | ARemove id => id ∈ abs_config a
  | AReorder order => order ≡ₚ abs_config a
  | AUnhover | ADropContainer _ | ADragEnd => True
  end.

Inductive abs_step (draggables : list DraggableInfo)
    : AbsState → AbsState → Prop :=
| AbsStep a ev :
    abs_valid draggables a ev →
    abs_step draggables a (abs_transition ev a).

#[global] Instance DragState_eq_dec : EqDecision DragState.
Proof. solve_decision. Defined.

#[global] Instance abs_valid_dec draggables a ev :
  Decision (abs_valid draggables a ev).
Proof. destruct ev; simpl; apply _. Defined.

(** The abstract machine run on a list of its events: every event must be
    accepted in the state it meets, and the run is [None] as soon as one is
    refused. *)
Fixpoint abs_run (draggables : list DraggableInfo) (evs : list AbsEvent)
    (a : AbsState) : option AbsState :=
  match evs with
  | [] => Some a
  | ev :: evs =>
      if decide (abs_valid draggables a ev)
      then abs_run draggables evs (abs_transition ev a)
      else None
  end.

(** The abstract run that a list of concrete actions stands for, where
    [image] gives the abstract events of one action in the abstract state
    it meets.  The run is determined by the actions: it is the one run the
    abstract machine makes of their images, or [None] when the abstract
    machine refuses one of them. *)
Fixpoint abs_follow {X : Type} (image : AbsState → X → list AbsEvent)
    (draggables : list DraggableInfo) (xs : list X) (a : AbsState)
    : option AbsState :=
  match xs with
  | [] => Some a
  | x :: xs =>
      abs_run draggables (image a x) a ≫= abs_follow image draggables xs
  end.

(** The drag source of the abstract state names a descriptor. *)
Definition drag_known (draggables : list DraggableInfo) (a : AbsState)
    : Prop :=
  match abs_drag a with
  | Idle => True
  | FromCircle id | FromList id => id ∈ field_ids draggables
  end.

(** ** The abstraction *)

(** The drag state the cells [draggedItem] and [isDraggingFromContainer]
    stand for. *)
Definition drag_of (s : EditState) : DragState :=
  match draggedItem s with
  | Some id => if isDraggingFromContainer s then FromList id else FromCircle id
  | None => Idle
  end.

(** The abstract state of a session. *)
Definition abs (sess : Session) : AbsState :=
  mkAbs (activeContainer (sess_state sess)) (drag_of (sess_state sess))
    (draggedOverSlot (sess_state sess)).

(** The abstract event a concrete event stands for in the abstract state
    [a]; [None] for an event the abstract machine does not see (saving,
    and the single events of a touch).  The reorder callback receives the
    new order from the list primitive, which is a rearrangement of the
    current configuration. *)
Definition abs_event (a : AbsState) (ev : EditEvent) : option AbsEvent :=
  match ev with
  | EvDragStart id => Some (ADragStartCircle id)
  | EvDragEnd => Some ADragEnd
  | EvDragOver slot => Some (AHover slot)
  | EvDragLeave => Some AUnhover
  | EvSlotDrop slot => Some (ADropSlot slot)
  | EvContainerDrop (Some rect) clientX clientY =>
      Some (ADropContainer (isInContainer rect clientX clientY))
  | EvRemove id => Some (ARemove id)
  | EvReorder fromIndex toIndex =>
      Some (AReorder (moveItem (abs_config a) fromIndex toIndex))
  | _ => None
  end.

(** What the abstract machine sees of one event of the desktop layout. *)
Definition desktop_image (a : AbsState) (ev : EditEvent) : list AbsEvent :=
  option_list (abs_event a ev).

(** The events of the desktop layout: a drop on the container finds the
    container mounted, and there are no touch events. *)
Definition desktop_event (ev : EditEvent) : bool :=
  match ev with
  | EvContainerDrop None _ _ => false
  | EvTouchStart _ _ | EvTouchMove _ | EvTouchEnd _ _ => false
  | _ => true
  end.

Inductive desktop_step (draggables : list DraggableInfo)
    : Session → Session → Prop :=
| DesktopStep sess ev :
    edit_valid false draggables sess ev → desktop_event ev = true →
    desktop_step draggables sess (edit_transition ev sess).

(** What relates a session to its abstract state beyond [abs]: the
    invariant of the sessions, and the dragged field of the state is the
    one named by the payload of the drag. *)
Definition spec_inv (draggables : list DraggableInfo) (sess : Session)
    : Prop :=
  sess_ok draggables sess ∧
  draggedItem (sess_state sess) = dt_itemId <$> sess_payload sess.

(** ** The touch path *)

(** One drag with a finger on the chip [x] of the mobile list: the touch
    starts on the chip, moves, and ends; [over] says whether it ends over
    the preview container. *)
Definition touch_gesture (x : string) (start : Position)
    (moves : list Position) (over : bool) : list EditEvent :=
  EvTouchStart x start :: (EvTouchMove <$> moves) ++ [EvTouchEnd x over].

(** The events of a touch device besides the gestures: it raises no HTML
    drag events. *)
Definition touch_event (ev : EditEvent) : bool :=
  match ev with
  | EvRemove _ | EvReorder _ _ | EvSaveClick | EvSaveDelay => true
  | _ => false
  end.

(** What the user of a touch device does: a whole gesture on a chip, or
    one of the other events. *)
Inductive TouchAction :=
| TGesture (x : string) (start : Position) (moves : list Position)
    (over : bool)
| TOther (ev : EditEvent).

Definition action_events (act : TouchAction) : list EditEvent :=
  match act with
  | TGesture x start moves over => touch_gesture x start moves over
  | TOther ev => [ev]
  end.

Definition touch_action (act : TouchAction) : bool :=
  match act with
  | TGesture _ _ _ _ => true
  | TOther ev => touch_event ev
  end.

(** What the abstract machine sees of an action: of a gesture, a drag that
    starts on the chip's field and a drop on the container, inside it when
    the finger is lifted over the preview. *)
Definition touch_image (a : AbsState) (act : TouchAction) : list AbsEvent :=
  match act with
  | TGesture x _ _ over => [ADragStartCircle x; ADropContainer over]
  | TOther ev => option_list (abs_event a ev)
  end.

(** The steps of the mobile layout on a touch device: a whole gesture, or
    one of the other events. *)
Inductive touch_step (draggables : list DraggableInfo)
    : Session → Session → Prop :=
| TouchGesture sess x start moves over sess' :
    run_events true draggables (touch_gesture x start moves over) sess =
      Some sess' →
    touch_step draggables sess sess'
| TouchOther sess ev :
    edit_valid true draggables sess ev → touch_event ev = true →
    touch_step draggables sess (edit_transition ev sess).

(** Between gestures nothing is dragged and no slot is hovered. *)
Definition touch_inv (draggables : list DraggableInfo) (sess : Session)
    : Prop :=
  sess_ok draggables sess ∧
  draggedItem (sess_state sess) = None ∧
  draggedOverSlot (sess_state sess) = None.

(** ** The bounded insertion *)

Section insertion.
Implicit Types (i : nat) (x : string) (l : list string).

(** The insertion of the source, which splices the identifier in and
    then pops the last entry when the list has grown beyond five, is the
    insertion of the document, which drops the last entry of a full list
    before it inserts, on every list of at most five entries and every
    slot but the one behind a full list. *)
Lemma insert_bounded_spec i x l :
  length l ≤ max_fields → i < max_fields →
  insert_bounded i x l = spec_insert i x l.
Proof.
  intros Hl Hi. unfold spec_insert.
  destruct (decide (length l < max_fields)) as [Hlt|Hge].
  - rewrite insert_bounded_lt, decide_False by lia. done.
  - rewrite insert_bounded_ge, decide_True by lia.
    unfold max_fields in *.
    do 6 (destruct l as [|? l]; simpl in *; try lia).
    do 5 (destruct i as [|i]; [done|]). lia.
Qed.

(** Behind a full list the two differ: the source inserts the identifier
    and pops it again, the document replaces the last entry by it. *)
Lemma insert_bounded_behind_full :
  insert_bounded 5 "f" ["a"; "b"; "c"; "d"; "e"]%string =
    ["a"; "b"; "c"; "d"; "e"]%string ∧
  spec_insert 5 "f" ["a"; "b"; "c"; "d"; "e"]%string =
    ["a"; "b"; "c"; "d"; "f"]%string.
Proof. by_compute. Qed.

End insertion.

(** ** The abstract machine keeps its invariant *)

Section abstract.
Context (ds : list DraggableInfo).
Implicit Types (a : AbsState) (ev : AbsEvent).

Lemma config_ok_spec_insert i x l :
  x ∈ field_ids ds → x ∉ l → config_ok ds l →
  config_ok ds (spec_insert i x l).
Proof.
  intros Hx Hn Hok. unfold spec_insert.
  set (kept := if decide _ then _ else _).
  assert (kept `sublist_of` l ∧ length kept < max_fields) as [Hsub Hlen].
  { subst kept. destruct Hok as (_ & Hl & _). unfold max_fields in *.
    case_decide.
    - split; [apply sublist_take|rewrite length_take; lia].
    - split; [done|lia]. }
  change (config_ok ds (js_splice_insert i x kept)).
  rewrite js_splice_insert_perm. apply config_ok_cons; [done| |done|].
  - intros Hin. apply Hn. by eapply elem_of_sublist.
  - by eapply config_ok_sublist.
Qed.

Lemma abs_transition_config_ok a ev :
  abs_valid ds a ev →
  config_ok ds (abs_config a) ∧ drag_known ds a →
  config_ok ds (abs_config (abs_transition ev a)) ∧
  drag_known ds (abs_transition ev a).
Proof.
  intros Hv [Hok Hk]. unfold drag_known in *.
  destruct ev; simpl in *; try done.
  - by destruct Hv as (_ & ? & _).
  - destruct Hv as [_ Hin]. split; [done|]. by apply Hok.
  - destruct (abs_drag a) as [|id|id] eqn:Hd; simpl; rewrite ?Hd; try done.
    case_decide; simpl; [done|]. split; [|done].
    by apply config_ok_spec_insert.
  - destruct (abs_drag a) as [|id|id] eqn:Hd; simpl; rewrite ?Hd; try done.
    case_decide as Hc; simpl; [|done]. split; [|done].
    destruct Hc as (_ & ? & ?). by apply config_ok_snoc.
  - split; [|done]. by apply config_ok_filter.
  - split; [|done]. by rewrite Hv.
Qed.

(** A run of the abstract machine is a sequence of its steps, and a run
    followed along a list of actions is one too. *)
Lemma abs_run_rtc evs a a' :
  abs_run ds evs a = Some a' → rtc (abs_step ds) a a'.
Proof.
  revert a. induction evs as [|ev evs IH]; intros a; simpl.
  - by intros [= <-].
  - case_decide as Hv; [|done]. intros Hrun.
    eapply rtc_l; [by constructor|by apply IH].
Qed.

Lemma abs_follow_rtc {X} (image : AbsState → X → list AbsEvent) xs a a' :
  abs_follow image ds xs a = Some a' → rtc (abs_step ds) a a'.
Proof.
  revert a. induction xs as [|x xs IH]; intros a; simpl.
  - by intros [= <-].
  - destruct (abs_run ds (image a x) a) as [a1|] eqn:Hrun; [|done]. simpl.
    intros Hfollow. etrans; [by eapply abs_run_rtc|by apply IH].
Qed.

Lemma abs_run_config_ok evs a a' :
  abs_run ds evs a = Some a' →
  config_ok ds (abs_config a) ∧ drag_known ds a →
  config_ok ds (abs_config a') ∧ drag_known ds a'.
Proof.
  revert a. induction evs as [|ev evs IH]; intros a; simpl.
  - by intros [= <-].
  - case_decide as Hv; [|done]. intros Hrun Hok.
    by eapply IH, abs_transition_config_ok.
Qed.

End abstract.

(** ** Following a concrete run *)

(** The scheme of both refinement proofs.  The concrete machine performs a
    list of actions, each a list of events; when every action, started in
    a session of the invariant, keeps the invariant and makes the abstract
    machine run the image of the action from the abstract state of the
    session to that of the result, then so does the whole list. *)
Section follow.
Context {X : Type} (ds : list DraggableInfo) (isMobile : bool).
Context (events : X → list EditEvent).
Context (image : AbsState → X → list AbsEvent).
Context (inv : Session → Prop) (offered : X → bool).
Context (action_simulation : ∀ sess x sess',
  inv sess → offered x = true →
  run_events isMobile ds (events x) sess = Some sess' →
  inv sess' ∧ abs_run ds (image (abs sess) x) (abs sess) = Some (abs sess')).

Lemma follow_simulation xs sess sess' :
  inv sess → forallb offered xs = true →
  run_events isMobile ds (xs ≫= events) sess = Some sess' →
  inv sess' ∧ abs_follow image ds xs (abs sess) = Some (abs sess').
Proof using action_simulation.
  revert sess. induction xs as [|x xs IH]; intros sess Hinv; simpl.
  - by intros _ [= <-].
  - intros [Hx Hxs]%andb_prop. rewrite run_events_app.
    destruct (run_events _ _ (events x) sess) as [sess1|] eqn:Hrun; [|done].
    destruct (action_simulation sess x sess1) as [Hinv1 ->]; [done..|].
    simpl. by apply IH.
Qed.

End follow.

(** ** The edit machine refines the abstract machine *)

Section simulation.
Context (ds : list DraggableInfo).
Context (ids_nonempty : ""%string ∉ field_ids ds).
Implicit Types (sess : Session) (ev : EditEvent) (s : EditState).

(** A known identifier is a truthy string. *)
Lemma known_truthy (x : string) :
  x ∈ field_ids ds → js_truthy_string x = true.
Proof.
  intros Hx. unfold js_truthy_string.
  apply negb_true_iff, String.eqb_neq. by intros ->.
Qed.

Lemma desktop_step_edit_step sess sess' :
  desktop_step ds sess sess' → edit_step false ds sess sess'.
Proof. intros [? ev Hv _]. by constructor. Qed.

(** A run of the executable machine by desktop events is a run of the
    desktop steps. *)
Lemma run_events_desktop evs sess sess' :
  forallb desktop_event evs = true →
  run_events false ds evs sess = Some sess' →
  rtc (desktop_step ds) sess sess'.
Proof.
  revert sess. induction evs as [|ev evs IH]; intros sess; simpl.
  - by intros _ [= <-].
  - intros [Hev Hevs]%andb_prop. case_decide as Hv; [|done]. intros Hrun.
    eapply rtc_l; [by constructor|by apply IH].
Qed.

(** What a drop reads under the invariant: nothing when no drag is under
    way, and otherwise a payload that passes the two guards of the drop
    handlers and names the dragged field. *)
Lemma spec_inv_payload sess :
  spec_inv ds sess →
  match draggedItem (sess_state sess) with
  | Some id =>
      dt_itemId (current_payload sess) = id ∧
      js_truthy_string id = true ∧
      payload_fromContainer (current_payload sess) = false
  | None => dt_itemId (current_payload sess) = ""%string
  end.
Proof.
  intros [(_ & Hp & _) ->]. unfold current_payload.
  destruct (sess_payload sess) as [dt|]; simpl; [|done].
  destruct (Hp dt eq_refl) as [Hid ?].
  split_and!; [done|by apply known_truthy|done].
Qed.

Lemma spec_inv_drag_of sess :
  spec_inv ds sess →
  drag_of (sess_state sess) =
  from_option FromCircle Idle (draggedItem (sess_state sess)).
Proof. intros [(_ & _ & Hf) _]. unfold drag_of. by rewrite Hf. Qed.

Lemma spec_inv_slot sess slot :
  spec_inv ds sess → slot ∈ dropSlots ds (sess_state sess) →
  slot ≤ length (activeContainer (sess_state sess)) ∧ slot < max_fields.
Proof.
  intros [((_ & Hlen & _) & _) _] [?|?]%elem_of_dropSlots; [done|lia].
Qed.

(** The invariant is kept by the steps of the desktop layout. *)
Lemma desktop_step_spec_inv sess sess' :
  desktop_step ds sess sess' → spec_inv ds sess → spec_inv ds sess'.
Proof.
  intros Hstep Hinv. split.
  { eapply edit_step_sess_ok; [by apply desktop_step_edit_step|apply Hinv]. }
  pose proof (spec_inv_payload sess Hinv) as Hp.
  destruct Hinv as [_ Hd], Hstep as [sess ev _ Hev].
  destruct ev as [| | | | |[r|]| | | | | | |]; try done; simpl;
    unfold handleDrop, handleBubbleDrop;
    (destruct (draggedItem (sess_state sess)) as [id|] eqn:Hid;
     [destruct Hp as (-> & -> & ->)|rewrite Hp]); done.
Qed.

(** One step: an event of the desktop layout is an accepted event of the
    abstract machine with the same effect, or it is one the abstract
    machine does not see and the abstract state stays as it is. *)
Lemma desktop_event_simulation sess ev :
  spec_inv ds sess → edit_valid false ds sess ev → desktop_event ev = true →
  match abs_event (abs sess) ev with
  | Some a =>
      abs_valid ds (abs sess) a ∧
      abs (edit_transition ev sess) = abs_transition a (abs sess)
  | None => abs (edit_transition ev sess) = abs sess
  end.
Proof.
  intros Hinv Hv Hev.
  pose proof (spec_inv_payload sess Hinv) as Hp.
  pose proof (spec_inv_drag_of sess Hinv) as Hdrag.
  destruct ev as [x| |slot| |slot|[r|] cx cy|x|i j| | | | |]; try done;
    unfold abs; simpl in *.
  - destruct Hinv as [(_ & _ & Hf) Hd], Hv as [Hnone [? ?]%elem_of_visible_ids].
    rewrite Hdrag, Hd, Hnone. by split_and!.
  - split; [by apply spec_inv_slot|done].
  - split; [by apply spec_inv_slot|]. rewrite Hdrag. unfold handleDrop.
    destruct (draggedItem (sess_state sess)) as [id|]; simpl.
    + destruct Hp as (-> & -> & ->); simpl. unfold js_includes.
      pose proof Hinv as Hinv0. destruct Hinv as [((_ & Hlen & _) & _) _].
      case_bool_decide; simpl; [by rewrite decide_True|].
      rewrite decide_False, insert_bounded_spec;
        [done|done|by apply (spec_inv_slot sess slot)|done].
    + rewrite Hp. simpl. by rewrite Hdrag.
  - split; [done|]. rewrite Hdrag. unfold handleBubbleDrop.
    destruct (draggedItem (sess_state sess)) as [id|]; simpl.
    + destruct Hp as (-> & -> & ->); simpl. unfold js_includes.
      destruct (isInContainer r cx cy); repeat case_bool_decide;
        first [rewrite decide_True by done
              |rewrite decide_False by naive_solver]; done.
    + rewrite Hp. simpl. by rewrite Hdrag.
  - split; [by apply elem_of_removable in Hv as [? _]|done].
  - split; [apply moveItem_perm|done].
Qed.

(** The same for the executable machines: the event runs, and the
    abstract machine runs its image. *)
Lemma desktop_event_run sess ev sess' :
  spec_inv ds sess → desktop_event ev = true →
  run_events false ds [ev] sess = Some sess' →
  spec_inv ds sess' ∧
  abs_run ds (desktop_image (abs sess) ev) (abs sess) = Some (abs sess').
Proof.
  intros Hinv Hev Hrun. simpl in Hrun.
  case_decide as Hv; [|done]. injection Hrun as <-.
  split; [by eapply desktop_step_spec_inv; [constructor|]|].
  pose proof (desktop_event_simulation sess ev Hinv Hv Hev) as Hsim.
  unfold desktop_image.
  destruct (abs_event (abs sess) ev) as [a|]; simpl; [|by rewrite Hsim].
  destruct Hsim as [Ha ->]. by rewrite decide_True.
Qed.

(** The run of a list of desktop events from any session of the
    invariant, a drag under way included. *)
Lemma desktop_run_simulation evs sess sess' :
  spec_inv ds sess → forallb desktop_event evs = true →
  run_events false ds evs sess = Some sess' →
  spec_inv ds sess' ∧
  abs_follow desktop_image ds evs (abs sess) = Some (abs sess').
Proof.
  intros Hinv Hevs Hrun.
  apply (follow_simulation ds false (λ ev, [ev]) desktop_image (spec_inv ds)
           desktop_event); [exact desktop_event_run|done..|].
  by rewrite list_bind_singleton_id.
Qed.

(** C3: the edit mode of the desktop layout refines the assignment state
    machine of the design document, event by event.  From a session in
    which no drag is under way, a run of the edit machine by a list of
    events of the desktop layout ends in a session whose abstract state
    (the active configuration, the drag state that the two cells
    [draggedItem] and [isDraggingFromContainer] stand for, the hovered
    slot) is the result of the one run the abstract machine makes of the
    same events: each event is accepted by the abstract machine in the
    state it meets and has the effect written in the document, so a drop
    on a slot of a full list keeps the first entries and evicts the last,
    and saving is invisible.  Descriptors have non-empty identifiers. *)
Theorem edit_machine_refines_spec evs sess0 sess :
  sess_ok ds sess0 → sess_payload sess0 = None →
  draggedItem (sess_state sess0) = None →
  forallb desktop_event evs = true →
  run_events false ds evs sess0 = Some sess →
  abs_follow desktop_image ds evs (abs sess0) = Some (abs sess).
Proof.
  intros Hok Hp Hd Hevs Hrun.
  eapply desktop_run_simulation; [|done..].
  split; [done|by rewrite Hp, Hd].
Qed.

End simulation.

(** ** The touch path refines the abstract machine *)

Section touch.
Context (ds : list DraggableInfo).
Context (ids_nonempty : ""%string ∉ field_ids ds).
Implicit Types (sess : Session) (s : EditState) (x : string).

(** While a touch drag is active a move only records the position, and
    the end of the touch does not read it. *)
Lemma run_touch_moves moves sess :
  touch_inactive (sess_state sess) = false →
  ∃ sess',
    run_events true ds (EvTouchMove <$> moves) sess = Some sess' ∧
    touch_inactive (sess_state sess') = false ∧
    sess_payload sess' = sess_payload sess ∧
    ∀ x over,
      onTouchEnd x over (sess_state sess') =
      onTouchEnd x over (sess_state sess).
Proof.
  revert sess. induction moves as [|q moves IH]; intros sess Hact.
  { by exists sess. }
  destruct (IH (edit_transition (EvTouchMove q) sess))
    as (sess' & Hrun & Hact' & Hp & Hend).
  { simpl. unfold onTouchMove. by rewrite Hact. }
  exists sess'. rewrite fmap_cons, run_events_cons by done.
  split_and!; [done..|]. intros x over. rewrite Hend. simpl.
  unfold onTouchMove, onTouchEnd. rewrite Hact.
  change (touch_inactive (set_touchDragPosition (Some q) (sess_state sess)))
    with (touch_inactive (sess_state sess)).
  rewrite Hact. simpl. by destruct (_ && _).
Qed.

(** The end of a touch on the chip it started on. *)
Lemma onTouchEnd_onTouchStart x start over s :
  x ∈ field_ids ds →
  onTouchEnd x over (onTouchStart x start s) =
  set_touchDragPosition None
    (set_isDraggingTouch false
       (set_draggedItem None
          (if may_append over x s
           then set_activeContainer (activeContainer s ++ [x]) s else s))).
Proof.
  intros Hx%(known_truthy ds ids_nonempty).
  rewrite onTouchEnd_spec. unfold touch_inactive, may_append. simpl.
  rewrite Hx. simpl. by destruct (_ && _).
Qed.

(** A gesture on a chip that is shown runs, whatever the moves in between,
    and its effect is that of the end of the touch on the state in which
    the touch started. *)
Lemma touch_gesture_run sess x start moves over :
  x ∈ field_ids (visibleBubbles ds (activeContainer (sess_state sess))) →
  run_events true ds (touch_gesture x start moves over) sess =
  Some (mkSession
          (onTouchEnd x over (onTouchStart x start (sess_state sess)))
          (sess_payload sess)).
Proof.
  intros Hx. unfold touch_gesture.
  rewrite run_events_cons by done.
  pose proof Hx as [Hne%(known_truthy ds ids_nonempty) _]%elem_of_visible_ids.
  destruct (run_touch_moves moves (edit_transition (EvTouchStart x start) sess))
    as (sess' & Hrun & _ & Hp & Hend).
  { simpl. unfold touch_inactive. simpl. by rewrite Hne. }
  rewrite run_events_app, Hrun. csimpl.
  rewrite decide_True.
  - by rewrite Hend, Hp.
  - split; [done|]. by apply elem_of_visible_ids in Hx as [? _].
Qed.

(** What a gesture does to the abstract state: the drag starts on the
    chip and ends with a drop on the container. *)
Lemma touch_gesture_abs sess x start over :
  touch_inv ds sess →
  x ∈ field_ids (visibleBubbles ds (activeContainer (sess_state sess))) →
  abs (mkSession
         (onTouchEnd x over (onTouchStart x start (sess_state sess)))
         (sess_payload sess)) =
  abs_transition (ADropContainer over)
    (abs_transition (ADragStartCircle x) (abs sess)).
Proof.
  intros (_ & _ & Hh) [Hx Hnin]%elem_of_visible_ids.
  rewrite onTouchEnd_onTouchStart by done. unfold abs. simpl.
  destruct (may_append over x (sess_state sess)) eqn:Hm.
  - rewrite decide_True by (by apply may_append_true).
    unfold end_drag. simpl. by rewrite Hh.
  - rewrite decide_False by (by rewrite <-may_append_true, Hm).
    unfold end_drag. simpl. by rewrite Hh.
Qed.

Lemma touch_step_edit_steps sess sess' :
  touch_step ds sess sess' → rtc (edit_step true ds) sess sess'.
Proof.
  intros [? x start moves over ? Hrun|? ev Hv _].
  - by eapply run_events_rtc.
  - by apply rtc_once.
Qed.

Lemma touch_step_inv sess sess' :
  touch_step ds sess sess' → touch_inv ds sess → touch_inv ds sess'.
Proof.
  intros Hstep (Hok & Hd & Hh). split.
  { eapply rtc_edit_step_sess_ok; [by apply touch_step_edit_steps|done]. }
  destruct Hstep as [sess x start moves over sess' Hrun|sess ev Hv Hev].
  - assert (edit_valid true ds sess (EvTouchStart x start)) as [_ Hx].
    { unfold touch_gesture in Hrun. simpl in Hrun. by case_decide. }
    rewrite touch_gesture_run in Hrun by done. injection Hrun as <-.
    apply elem_of_visible_ids in Hx as [Hx _]. simpl.
    rewrite onTouchEnd_onTouchStart by done. by destruct (may_append _ _ _).
  - by destruct ev.
Qed.

Lemma touch_action_step sess act sess' :
  touch_action act = true →
  run_events true ds (action_events act) sess = Some sess' →
  touch_step ds sess sess'.
Proof.
  destruct act as [x start moves over|ev]; intros Hact Hrun.
  - by econstructor.
  - simpl in Hrun. case_decide as Hv; [|done]. injection Hrun as <-.
    by constructor.
Qed.

(** One action: it runs, keeps the invariant, and the abstract machine
    runs its image. *)
Lemma touch_action_run sess act sess' :
  touch_inv ds sess → touch_action act = true →
  run_events true ds (action_events act) sess = Some sess' →
  touch_inv ds sess' ∧
  abs_run ds (touch_image (abs sess) act) (abs sess) = Some (abs sess').
Proof.
  intros Hinv Hact Hrun. split.
  { eapply touch_step_inv; [by eapply touch_action_step|done]. }
  pose proof Hinv as (Hok & Hd & Hh).
  destruct act as [x start moves over|ev].
  - assert (edit_valid true ds sess (EvTouchStart x start)) as [_ Hx].
    { unfold action_events, touch_gesture in Hrun. simpl in Hrun.
      by case_decide. }
    unfold action_events in Hrun.
    rewrite touch_gesture_run in Hrun by done. injection Hrun as <-.
    rewrite touch_gesture_abs by done.
    apply elem_of_visible_ids in Hx as [Hx Hnin].
    unfold touch_image, abs_run. rewrite !decide_True; [done..|].
    unfold abs, drag_of. simpl. by rewrite Hd.
  - simpl in Hrun. case_decide as Hv; [|done]. injection Hrun as <-.
    destruct ev as [| | | | | |x|i j| | | | |]; try done.
    + unfold touch_image, abs_run. simpl. rewrite decide_True; [done|].
      by apply elem_of_removable in Hv as [? _].
    + unfold touch_image, abs_run. simpl. rewrite decide_True; [done|].
      apply moveItem_perm.
Qed.

(** C12: on a touch device the mobile layout refines the assignment state
    machine of the design document, action by action.  From a session in
    which nothing is dragged, a run of a list of actions (whole gestures
    on chips, removals, reorderings, saving) ends in a session whose
    abstract state is the result of the one run the abstract machine makes
    of their images, where a gesture on a chip is a drag start on that
    field followed by a drop on the container: the field is appended
    behind the last entry when the finger is lifted over the container,
    the field is not active and there is room, and nothing changes
    otherwise; where the touch started and how it moved is invisible.
    Between the actions nothing is dragged and no slot is hovered.
    Descriptors have non-empty identifiers. *)
Theorem touch_refines_spec acts sess0 sess :
  touch_inv ds sess0 → forallb touch_action acts = true →
  run_events true ds (acts ≫= action_events) sess0 = Some sess →
  abs_follow touch_image ds acts (abs sess0) = Some (abs sess) ∧
  touch_inv ds sess.
Proof.
  intros Hinv Hacts Hrun.
  by destruct (follow_simulation ds true action_events touch_image
                 (touch_inv ds) touch_action touch_action_run
                 acts sess0 sess).
Qed.

End touch.

(** ** Worked examples *)

(** The run "a removal in the middle of a drag, then the drop on the freed
    slot" seen by the abstract machine. *)
Lemma remove_during_drag_abs :
  abs <$> run_events false initialDraggables remove_during_drag
            default_session =
  Some (mkAbs ["bookTitle"; "bookSubtitle"; "narrator"; "ratingStar";
               "length"]%string Idle None).
Proof. by_compute. Qed.

Lemma edit_machine_refines_spec_witness :
  abs_follow desktop_image initialDraggables sixth_onto_first
    (abs default_session) =
  Some (abs (mkSession
               (set_activeContainer
                  ["discount"; "bookTitle"; "bookSubtitle"; "author";
                   "narrator"]%string default_state) None)).
Proof.
  apply (edit_machine_refines_spec initialDraggables);
    [by_compute| |done|done|by_compute..].
  split_and!; [by_compute|apply payload_ok_None|done].
Defined.

(** The abstract run of that example, computed: the sixth field dropped on
    the first slot of the full default list takes the first place, the
    former first four entries follow, and the last one is gone. *)
Lemma sixth_onto_first_abs :
  abs_follow desktop_image initialDraggables sixth_onto_first
    (mkAbs defaultFields Idle None) =
  Some (mkAbs ["discount"; "bookTitle"; "bookSubtitle"; "author";
               "narrator"]%string Idle None).
Proof. by_compute. Qed.

(** A row removed, then the chip "Length" dragged with a finger onto the
    preview. *)
Lemma touch_refines_spec_witness :
  abs_follow touch_image initialDraggables
    [TOther (EvRemove "author");
     TGesture "length" (mkPosition 10 700)
       [mkPosition 20 600; mkPosition 30 400] true]
    (abs default_session) =
  Some (abs (mkSession
               (set_activeContainer
                  ["bookTitle"; "bookSubtitle"; "narrator"; "ratingStar";
                   "length"]%string default_state) None)) ∧
  touch_inv initialDraggables
    (mkSession
       (set_activeContainer
          ["bookTitle"; "bookSubtitle"; "narrator"; "ratingStar";
           "length"]%string default_state) None).
Proof.
  apply (touch_refines_spec initialDraggables); [by_compute| |by_compute..].
  split_and!; [split_and!; [by_compute|apply payload_ok_None|done]|done..].
Defined.

(** The abstract run of that example, computed, and the same gesture
    lifted outside the preview, which changes nothing. *)
Lemma touch_gesture_abs_example :
  abs_follow touch_image initialDraggables
    [TOther (EvRemove "author");
     TGesture "length" (mkPosition 10 700) [mkPosition 20 600] true]
    (mkAbs defaultFields Idle None) =
  Some (mkAbs ["bookTitle"; "bookSubtitle"; "narrator"; "ratingStar";
               "length"]%string Idle None) ∧
  abs_follow touch_image initialDraggables
    [TOther (EvRemove "author");
     TGesture "length" (mkPosition 10 700) [mkPosition 20 600] false]
    (mkAbs defaultFields Idle None) =
  Some (mkAbs ["bookTitle"; "bookSubtitle"; "narrator"; "ratingStar"]%string
          Idle None).
Proof. split; by_compute. Qed.
