(* ===== verification/Swipe.v ===== *)
(** * The swipe gesture detector

    Models the hook [useSwipeGesture] of [src/src/hooks/useSwipeGesture.ts]:
    its state [SwipeState], the three touch handlers as functions on that
    state, and the classification of a completed gesture.  Calling one of
    the four optional callbacks of [SwipeHandlers] is modelled by returning
    the direction whose callback is invoked; what the callback does belongs
    to the component that installs it.  Coordinates are integers. *)

From S2P Require Import Prelude.

Local Open Scope Z_scope.

(** ** State *)

(** [{ x: number; y: number }] of a touch. *)
Record TouchPoint := mkTouch { touch_x : Z; touch_y : Z }.

(** [interface SwipeState] *)
Record SwipeState := mkSwipeState {
  touchStart : option TouchPoint;
  touchEnd : option TouchPoint;
  swiping : bool
}.

(** The four callbacks of [interface SwipeHandlers], by name. *)
Inductive SwipeDirection := SwipeLeft | SwipeRight | SwipeUp | SwipeDown.

#[export] Instance SwipeDirection_eq_dec : EqDecision SwipeDirection.
Proof. solve_decision. Defined.

#[export] Instance TouchPoint_eq_dec : EqDecision TouchPoint.
Proof. solve_decision. Defined.

(** The initial value of the state cell, which is also the value every
    [touchend] resets it to. *)
Definition swipe_idle : SwipeState := mkSwipeState None None false.

(** The default of the parameter [minSwipeDistance]. *)
Definition defaultMinSwipeDistance : Z := 50.

(** ** Handlers *)

(** [handleTouchStart]: the previous state is overwritten. *)
Definition handleTouchStart (touch : TouchPoint) (prev : SwipeState)
    : SwipeState :=
  mkSwipeState (Some touch) None true.

(** [handleTouchMove]: records the latest point while a gesture is active. *)
Definition handleTouchMove (touch : TouchPoint) (prev : SwipeState)
    : SwipeState :=
  if negb (swiping prev) then prev
  else mkSwipeState (touchStart prev) (Some touch) (swiping prev).

(** The decision of [handleTouchEnd] between its start and end point: the
    axis with the strictly larger displacement counts, and only when that
    displacement strictly exceeds the minimum distance. *)
Definition classifySwipe (minSwipeDistance : Z) (a b : TouchPoint)
    : option SwipeDirection :=
  let deltaX := touch_x b - touch_x a in
  let deltaY := touch_y b - touch_y a in
  let absX := Z.abs deltaX in
  let absY := Z.abs deltaY in
  if bool_decide (absX > absY) && bool_decide (absX > minSwipeDistance) then
    if bool_decide (deltaX > 0) then Some SwipeRight else Some SwipeLeft
  else if bool_decide (absY > absX) && bool_decide (absY > minSwipeDistance)
  then
    if bool_decide (deltaY > 0) then Some SwipeDown else Some SwipeUp
  else None.

(** [handleTouchEnd]: the state after the event and the callback invoked,
    if any.  Without a start or without a move nothing is invoked. *)
Definition handleTouchEnd (minSwipeDistance : Z) (prev : SwipeState)
    : SwipeState * option SwipeDirection :=
  match touchStart prev, touchEnd prev with
  | Some a, Some b => (swipe_idle, classifySwipe minSwipeDistance a b)
  | _, _ => (swipe_idle, None)
  end.

(** The hook's return value: [isSwiping] and [swipeDirection] (the current
    displacement, or [null]). *)
Definition swipeResult (s : SwipeState) : bool * option (Z * Z) :=
  (swiping s,
   match touchEnd s, touchStart s with
   | Some b, Some a => Some (touch_x b - touch_x a, touch_y b - touch_y a)
   | _, _ => None
   end).

(** The same decision as a function of the two displacements. *)
Definition classifyDelta (minSwipeDistance deltaX deltaY : Z)
    : option SwipeDirection :=
  classifySwipe minSwipeDistance (mkTouch 0 0) (mkTouch deltaX deltaY).

(** A whole gesture: a touch at [a], moves through [moves], release. *)
Definition swipeGesture (minSwipeDistance : Z) (a : TouchPoint)
    (moves : list TouchPoint) (s : SwipeState)
    : SwipeState * option SwipeDirection :=
  handleTouchEnd minSwipeDistance
    (foldl (λ st p, handleTouchMove p st) (handleTouchStart a s) moves).

(** ** Classification *)

Section classify.
Context (m : Z).
Implicit Types (a b : TouchPoint) (d : SwipeDirection).

(** Displacements of a gesture. *)
Definition swipe_dx a b : Z := touch_x b - touch_x a.
Definition swipe_dy a b : Z := touch_y b - touch_y a.

(** Unfolds the classification and decides every comparison. *)
Ltac classify_cases :=
  unfold classifySwipe, swipe_dx, swipe_dy in *; simpl;
  repeat case_bool_decide; simpl; try done; try lia.

(** The classification with its guards as propositions. *)
Lemma classifySwipe_decide a b :
  classifySwipe m a b =
  if decide (Z.abs (swipe_dx a b) > Z.abs (swipe_dy a b) ∧
             Z.abs (swipe_dx a b) > m) then
    Some (if decide (swipe_dx a b > 0) then SwipeRight else SwipeLeft)
  else if decide (Z.abs (swipe_dy a b) > Z.abs (swipe_dx a b) ∧
                  Z.abs (swipe_dy a b) > m) then
    Some (if decide (swipe_dy a b > 0) then SwipeDown else SwipeUp)
  else None.
Proof.
  unfold classifySwipe, swipe_dx, swipe_dy.
  rewrite <-!bool_decide_and, !bool_decide_decide.
  by repeat case_decide.
Qed.

(** The classification depends on the two points only through their
    displacements. *)
Lemma classifySwipe_delta a b :
  classifySwipe m a b = classifyDelta m (swipe_dx a b) (swipe_dy a b).
Proof.
  unfold classifyDelta, classifySwipe, swipe_dx, swipe_dy. simpl.
  by rewrite !Z.sub_0_r.
Qed.

Lemma classifyDelta_opp dx dy :
  classifyDelta m (- dx) (- dy) =
  match classifyDelta m dx dy with
  | Some SwipeLeft => Some SwipeRight
  | Some SwipeRight => Some SwipeLeft
  | Some SwipeUp => Some SwipeDown
  | Some SwipeDown => Some SwipeUp
  | None => None
  end.
Proof.
  unfold classifyDelta, classifySwipe. simpl.
  rewrite !Z.sub_0_r, !Z.abs_opp.
  repeat case_bool_decide; simpl; try done; lia.
Qed.

(** C8: the callback invoked for a gesture is characterised by its two
    displacements: right (left) exactly when the horizontal displacement is
    positive (negative), strictly larger in magnitude than the vertical one
    and strictly larger than the minimum distance; down (up) in the
    mirrored case. *)
Theorem classifySwipe_directions a b :
  (classifySwipe m a b = Some SwipeRight ↔
     swipe_dx a b > Z.abs (swipe_dy a b) ∧ swipe_dx a b > m) ∧
  (classifySwipe m a b = Some SwipeLeft ↔
     - swipe_dx a b > Z.abs (swipe_dy a b) ∧ - swipe_dx a b > m) ∧
  (classifySwipe m a b = Some SwipeDown ↔
     swipe_dy a b > Z.abs (swipe_dx a b) ∧ swipe_dy a b > m) ∧
  (classifySwipe m a b = Some SwipeUp ↔
     - swipe_dy a b > Z.abs (swipe_dx a b) ∧ - swipe_dy a b > m).
Proof.
  rewrite classifySwipe_decide.
  generalize (swipe_dx a b) (swipe_dy a b). intros dx dy.
  repeat case_decide; split_and!; split; try done; lia.
Qed.

(** C28: a gesture whose larger displacement is exactly the minimum distance
    invokes no callback: the threshold is exclusive. *)
Theorem classifySwipe_threshold_exclusive a b :
  Z.max (Z.abs (swipe_dx a b)) (Z.abs (swipe_dy a b)) ≤ m →
  classifySwipe m a b = None.
Proof. intros Hmax. classify_cases. Qed.

(** A diagonal gesture with equal horizontal and vertical magnitude
    invokes no callback, however long it is. *)
Lemma classifySwipe_tie a b :
  Z.abs (swipe_dx a b) = Z.abs (swipe_dy a b) → classifySwipe m a b = None.
Proof. intros Htie. classify_cases. Qed.

(** Reversing a gesture reverses the direction: the same stroke from
    [b] to [a] reports left for right and up for down. *)
Lemma classifySwipe_reverse a b :
  classifySwipe m b a =
  match classifySwipe m a b with
  | Some SwipeLeft => Some SwipeRight
  | Some SwipeRight => Some SwipeLeft
  | Some SwipeUp => Some SwipeDown
  | Some SwipeDown => Some SwipeUp
  | None => None
  end.
Proof.
  rewrite !classifySwipe_delta, <-classifyDelta_opp.
  unfold swipe_dx, swipe_dy. f_equal; lia.
Qed.

End classify.

(** ** The handlers as a state machine *)

Section gesture.
Context (m : Z).
Implicit Types (a p : TouchPoint) (s : SwipeState) (moves : list TouchPoint).

Lemma handleTouchEnd_idle s : (handleTouchEnd m s).1 = swipe_idle.
Proof. unfold handleTouchEnd. by repeat case_match. Qed.

Lemma handleTouchMove_idle p : handleTouchMove p swipe_idle = swipe_idle.
Proof. done. Qed.

(** While a gesture is active, the moves only replace the end point. *)
Lemma foldl_handleTouchMove a (e : option TouchPoint) moves :
  foldl (λ st p, handleTouchMove p st) (mkSwipeState (Some a) e true) moves =
  mkSwipeState (Some a)
    (match last moves with Some p => Some p | None => e end) true.
Proof.
  revert e. induction moves as [|p moves IH]; intros e; [done|].
  simpl foldl. unfold handleTouchMove at 2. simpl.
  rewrite IH, last_cons. by destruct (last moves).
Qed.

Lemma swipeGesture_last a moves s :
  swipeGesture m a moves s =
  (swipe_idle, last moves ≫= classifySwipe m a).
Proof.
  unfold swipeGesture, handleTouchStart.
  rewrite foldl_handleTouchMove. unfold handleTouchEnd. simpl.
  by destruct (last moves).
Qed.

(** A gesture reports the classification of its first and its last
    point and leaves the detector idle; the points in between and the state
    before the touch do not matter, and a touch that never moved reports
    nothing. *)
Theorem swipeGesture_spec a moves s :
  swipeGesture m a moves s =
  (swipe_idle,
   match last moves with
   | Some b => classifySwipe m a b
   | None => None
   end).
Proof. rewrite swipeGesture_last. by destruct (last moves). Qed.

(** A move or a release that was not preceded by a touch start is
    ignored: the state stays idle and no callback is invoked. *)
Lemma swipe_without_start p :
  handleTouchMove p swipe_idle = swipe_idle ∧
  handleTouchEnd m swipe_idle = (swipe_idle, None) ∧
  handleTouchEnd m (handleTouchMove p swipe_idle) = (swipe_idle, None).
Proof. done. Qed.

End gesture.

(** ** Worked examples *)

Lemma classifySwipe_threshold_exclusive_witness :
  classifySwipe defaultMinSwipeDistance (mkTouch 100 200) (mkTouch 150 200) =
  None.
Proof. apply classifySwipe_threshold_exclusive. by_compute. Defined.

Lemma classifySwipe_just_over_threshold :
  classifySwipe defaultMinSwipeDistance (mkTouch 100 200) (mkTouch 151 200) =
    Some SwipeRight ∧
  classifySwipe defaultMinSwipeDistance (mkTouch 100 200) (mkTouch 49 200) =
    Some SwipeLeft.
Proof. by_compute. Qed.

Lemma classifySwipe_tie_witness :
  classifySwipe defaultMinSwipeDistance (mkTouch 0 0) (mkTouch 300 (-300)) =
  None.
Proof. apply classifySwipe_tie. by_compute. Defined.
