(* ===== verification/Carousel.v ===== *)
(** * The carousel controller

    Models the state and the operations of the component [Carousel]
    ([src/src/components/Carousel.tsx]): the index of the centre book and
    its navigation ([nextSlide], [prevSlide], the arrow keys, swipes), the
    window of visible books, the set of loaded cover images, and the stored
    field configuration.  The list of books comes from [data/books], which
    is not part of the sources: the model takes it through the class
    [BookData], which promises only that it is not empty.

    The index arithmetic is the source's: [%] is [js_mod], the truncated
    remainder. *)

From stdpp Require Import gmap.
From S2P Require Import Prelude Fields Swipe.

Local Open Scope Z_scope.

(** ** Book data *)

(** What the carousel needs from [data/books]. *)
Class BookData := {
  books : list AudioBook;
  books_nonempty : books ≠ []
}.

(** [books.length] *)
Definition books_length `{BookData} : Z := Z.of_nat (length books).

(** ** State *)

(** The [useState] cells of [Carousel]. *)
Record CarouselState := mkCarousel {
  currentIndex : Z;
  isEditMode : bool;
  direction : Z;
  loadedImages : gset string;
  activeInfoFields : list (option DraggableInfo)
}.

(** The literal initial value of [activeInfoFields]. *)
Definition initialInfoFields : list DraggableInfo := [
  mkDraggable "bookTitle" "Title" "text" (mkPosition 0 0);
  mkDraggable "bookSubtitle" "Subtitle" "text" (mkPosition 0 0);
  mkDraggable "author" "Author" "text" (mkPosition 0 0);
  mkDraggable "narrator" "Narrator" "text" (mkPosition 0 0);
  mkDraggable "ratingStar" "Rating Stars" "number" (mkPosition 0 0)
].

Definition initialCarousel : CarouselState :=
  mkCarousel 0 false 0 ∅ (Some <$> initialInfoFields).

(** ** Operations *)

(** [nextSlide]: direction [1], index advanced modulo [n = books.length]. *)
Definition nextSlide (n : Z) (s : CarouselState) : CarouselState :=
  mkCarousel (js_mod (currentIndex s + 1) n) (isEditMode s) 1
    (loadedImages s) (activeInfoFields s).

(** [prevSlide]: direction [-1], index retreated modulo [n]. *)
Definition prevSlide (n : Z) (s : CarouselState) : CarouselState :=
  mkCarousel (js_mod (currentIndex s - 1 + n) n) (isEditMode s) (-1)
    (loadedImages s) (activeInfoFields s).

(** [handleImageLoad(bookTitle)] *)
Definition handleImageLoad (title : string) (s : CarouselState)
    : CarouselState :=
  mkCarousel (currentIndex s) (isEditMode s) (direction s)
    ({[ title ]} ∪ loadedImages s) (activeInfoFields s).

(** [handleKeyPress(e)], by [e.key]. *)
Definition handleKeyPress (n : Z) (key : string) (s : CarouselState)
    : CarouselState :=
  let s1 := if decide (key = "ArrowLeft"%string) then prevSlide n s else s in
  if decide (key = "ArrowRight"%string) then nextSlide n s1 else s1.

(** [handleSaveConfig(config)] *)
Definition handleSaveConfig (config : list (option DraggableInfo))
    (s : CarouselState) : CarouselState :=
  mkCarousel (currentIndex s) (isEditMode s) (direction s)
    (loadedImages s) config.

(** [setIsEditMode(v)]: the Edit button passes [true], [onClose] [false]. *)
Definition setIsEditMode (v : bool) (s : CarouselState) : CarouselState :=
  mkCarousel (currentIndex s) v (direction s)
    (loadedImages s) (activeInfoFields s).

(** The callbacks the carousel installs in [useSwipeGesture]: a swipe to
    the left shows the next book, a swipe to the right the previous one;
    the vertical callbacks are not installed. *)
Definition onSwipe (n : Z) (d : SwipeDirection) (s : CarouselState)
    : CarouselState :=
  match d with
  | SwipeLeft => nextSlide n s
  | SwipeRight => prevSlide n s
  | SwipeUp | SwipeDown => s
  end.

(** The offsets of the rendered window. *)
Definition visibleOffsets (isMobile : bool) : list Z :=
  if isMobile then [-1; 0; 1] else [-2; -1; 0; 1; 2].

(** [(currentIndex + offset + books.length) % books.length] *)
Definition visibleIndex (n : Z) (current offset : Z) : Z :=
  js_mod (current + offset + n) n.

(** [visibleBooks]: the book at each offset (absent when the index misses
    the array) with its offset. *)
Definition visibleBooks `{BookData} (isMobile : bool) (s : CarouselState)
    : list (option AudioBook * Z) :=
  (λ offset,
     (js_index books (visibleIndex books_length (currentIndex s) offset),
      offset)) <$> visibleOffsets isMobile.

(** The indices of the window, in display order. *)
Definition windowIndices (n : Z) (isMobile : bool) (current : Z) : list Z :=
  visibleIndex n current <$> visibleOffsets isMobile.

(** The props handed to [EditMode] while it is open. *)
Definition editModeProps `{BookData} (s : CarouselState)
    : option (option AudioBook * list (option DraggableInfo)) :=
  if isEditMode s
  then Some (js_index books (currentIndex s), activeInfoFields s)
  else None.

(** ** Events *)

Inductive CarouselEvent :=
| CeNext
| CePrev
| CeKey (key : string)
| CeSwipe (d : SwipeDirection)
| CeImageLoad (title : string)
| CeEdit
| CeClose
| CeSave (config : list (option DraggableInfo)).

Definition carousel_handle (n : Z) (ev : CarouselEvent) (s : CarouselState)
    : CarouselState :=
  match ev with
  | CeNext => nextSlide n s
  | CePrev => prevSlide n s
  | CeKey key => handleKeyPress n key s
  | CeSwipe d => onSwipe n d s
  | CeImageLoad title => handleImageLoad title s
  | CeEdit => setIsEditMode true s
  | CeClose => setIsEditMode false s
  | CeSave config => handleSaveConfig config s
  end.

(** The state after a sequence of events, oldest first. *)
Definition carousel_run (n : Z) (evs : list CarouselEvent)
    (s : CarouselState) : CarouselState :=
  foldl (λ st ev, carousel_handle n ev st) s evs.

(** What a completed touch gesture does to the carousel: the callback the
    detector invokes, if any, is run. *)
Definition carousel_gesture (n : Z) (minSwipeDistance : Z) (a : TouchPoint)
    (moves : list TouchPoint) (s : CarouselState) : CarouselState :=
  match (swipeGesture minSwipeDistance a moves swipe_idle).2 with
  | Some d => onSwipe n d s
  | None => s
  end.

(** The index designates a book. *)
Definition index_ok (n : Z) (s : CarouselState) : Prop :=
  0 ≤ currentIndex s < n.

(** ** Navigation *)

Section navigation.
Context (n : Z) (Hn : 0 < n).
Implicit Types (s : CarouselState) (i k : Z).

Lemma visibleIndex_mod i k :
  0 ≤ i < n → - n ≤ k → visibleIndex n i k = (i + k) `mod` n.
Proof.
  intros Hi Hk. unfold visibleIndex. rewrite js_mod_nonneg by lia.
  rewrite <-(Z.mul_1_l n) at 1. by rewrite Z.mod_add by lia.
Qed.

Lemma nextSlide_index s :
  index_ok n s →
  currentIndex (nextSlide n s) =
  if decide (currentIndex s = n - 1) then 0 else currentIndex s + 1.
Proof.
  intros Hi. simpl. case_decide as Hc.
  - rewrite Hc, Z.sub_add. apply js_mod_same. lia.
  - apply js_mod_small. unfold index_ok in Hi. lia.
Qed.

Lemma prevSlide_index s :
  index_ok n s →
  currentIndex (prevSlide n s) =
  if decide (currentIndex s = 0) then n - 1 else currentIndex s - 1.
Proof.
  intros Hi. simpl. unfold index_ok in Hi. case_decide as Hc.
  - rewrite Hc. replace (0 - 1 + n) with (n - 1) by lia.
    apply js_mod_small. lia.
  - apply js_mod_add_same. lia.
Qed.

Lemma nextSlide_index_ok s : index_ok n s → index_ok n (nextSlide n s).
Proof.
  intros Hi. unfold index_ok. rewrite nextSlide_index by done.
  unfold index_ok in Hi. case_decide; lia.
Qed.

Lemma prevSlide_index_ok s : index_ok n s → index_ok n (prevSlide n s).
Proof.
  intros Hi. unfold index_ok. rewrite prevSlide_index by done.
  unfold index_ok in Hi. case_decide; lia.
Qed.

Lemma carousel_handle_index_ok ev s :
  index_ok n s → index_ok n (carousel_handle n ev s).
Proof.
  intros Hi. destruct ev as [| |key|[]| | | |]; simpl;
    auto using nextSlide_index_ok, prevSlide_index_ok.
  unfold handleKeyPress. repeat case_decide;
    auto using nextSlide_index_ok, prevSlide_index_ok.
Qed.

(** From the last index [nextSlide] returns to index 0, and from
    index 0 [prevSlide] goes to the last index; everywhere else they move by
    one. *)
Theorem slide_wraps s :
  index_ok n s →
  currentIndex (nextSlide n s) =
    (if decide (currentIndex s = n - 1) then 0 else currentIndex s + 1) ∧
  currentIndex (prevSlide n s) =
    (if decide (currentIndex s = 0) then n - 1 else currentIndex s - 1).
Proof. intros Hi. by rewrite nextSlide_index, prevSlide_index. Qed.

(** C6: whatever sequence of clicks, keys, swipes, image loads, openings,
    closings and saves the carousel handles, its index keeps designating a
    book. *)
Theorem carousel_index_invariant evs s :
  index_ok n s → index_ok n (carousel_run n evs s).
Proof.
  revert s. induction evs as [|ev evs IH]; intros s Hi; [done|].
  apply IH. by apply carousel_handle_index_ok.
Qed.

(** [prevSlide] undoes [nextSlide] and [nextSlide] undoes [prevSlide]
    on the index. *)
Lemma slide_inverse s :
  index_ok n s →
  currentIndex (prevSlide n (nextSlide n s)) = currentIndex s ∧
  currentIndex (nextSlide n (prevSlide n s)) = currentIndex s.
Proof.
  intros Hi.
  rewrite prevSlide_index, nextSlide_index by auto using nextSlide_index_ok.
  rewrite (nextSlide_index (prevSlide n s)), prevSlide_index
    by auto using prevSlide_index_ok.
  unfold index_ok in Hi. repeat case_decide; lia.
Qed.

Lemma iter_nextSlide_index (k : nat) s :
  index_ok n s →
  currentIndex (Nat.iter k (nextSlide n) s) =
  (currentIndex s + Z.of_nat k) `mod` n.
Proof.
  intros Hi. unfold index_ok in Hi. induction k as [|k IH].
  - simpl. rewrite Z.add_0_r. symmetry. by apply Z.mod_small.
  - rewrite Nat.iter_succ. cbn [nextSlide currentIndex]. rewrite IH.
    rewrite js_mod_nonneg by (pose proof (Z.mod_pos_bound
      (currentIndex s + Z.of_nat k) n Hn); lia).
    rewrite Zplus_mod_idemp_l. f_equal. lia.
Qed.

(** Pressing next once per book returns to the book the round started
    from. *)
Lemma nextSlide_full_round s :
  index_ok n s →
  currentIndex (Nat.iter (Z.to_nat n) (nextSlide n) s) = currentIndex s.
Proof.
  intros Hi. rewrite iter_nextSlide_index by done.
  rewrite Z2Nat.id by lia. rewrite <-(Z.mul_1_l n) at 1.
  rewrite Z.mod_add by lia. by apply Z.mod_small.
Qed.

End navigation.

(** ** The visible window *)

Lemma visibleOffsets_range m k : k ∈ visibleOffsets m → -2 ≤ k ≤ 2.
Proof. destruct m; simpl; enum_elem_of. Qed.

Lemma visibleOffsets_spread m k1 k2 :
  k1 ∈ visibleOffsets m → k2 ∈ visibleOffsets m →
  Z.abs (k1 - k2) < Z.of_nat (length (visibleOffsets m)).
Proof. destruct m; simpl; enum_elem_of. Qed.

Lemma visibleOffsets_NoDup m : NoDup (visibleOffsets m).
Proof. destruct m; by_compute. Qed.

(** With fewer books than window positions some index occurs twice. *)
Lemma windowIndices_dup m n i :
  0 ≤ i < n → n < Z.of_nat (length (visibleOffsets m)) →
  ¬ NoDup (windowIndices n m i).
Proof.
  intros Hi Hlt.
  assert (n = 1 ∨ n = 2 ∨ n = 3 ∨ n = 4) as Hn
    by (destruct m; simpl in Hlt; lia).
  assert (i = 0 ∨ i = 1 ∨ i = 2 ∨ i = 3) as Hi' by lia.
  destruct m; simpl in Hlt; destruct_or!; subst; try lia;
    by apply (bool_decide_unpack _).
Qed.

Section window.
Context (n : Z) (Hn : 0 < n).
Implicit Types (i k : Z) (m : bool).

Lemma visibleIndex_range i k :
  0 ≤ i < n → -2 ≤ k ≤ 2 → 0 ≤ visibleIndex n i k < n.
Proof.
  intros Hi Hk. unfold visibleIndex.
  destruct (decide (0 ≤ i + k + n)) as [Hpos|Hneg].
  - by apply js_mod_bound.
  - replace n with 1 by lia. unfold js_mod. rewrite Z.rem_1_r. lia.
Qed.

Lemma visibleIndex_centre i : 0 ≤ i < n → visibleIndex n i 0 = i.
Proof.
  intros Hi. unfold visibleIndex. rewrite Z.add_0_r.
  by apply js_mod_add_same.
Qed.

Lemma visibleIndex_inj i k1 k2 :
  0 ≤ i < n → - n ≤ k1 → - n ≤ k2 → Z.abs (k1 - k2) < n →
  visibleIndex n i k1 = visibleIndex n i k2 → k1 = k2.
Proof.
  intros Hi H1 H2 Hnear. rewrite !visibleIndex_mod by done.
  intros Heq%Z_mod_inj_near; lia.
Qed.

(** C30: the window shows no book twice exactly when there are at least as
    many books as window positions (five on wide viewports, three on
    narrow ones); with fewer books two positions show the same book. *)
Theorem windowIndices_NoDup m i :
  0 ≤ i < n →
  NoDup (windowIndices n m i) ↔ Z.of_nat (length (visibleOffsets m)) ≤ n.
Proof.
  intros Hi. split.
  - intros Hnd. apply dec_stable. intros Hlt.
    apply (windowIndices_dup m n i); [done|lia|done].
  - intros Hlen. apply NoDup_fmap_2_strong; [|apply visibleOffsets_NoDup].
    intros k1 k2 H1 H2.
    pose proof (visibleOffsets_spread m k1 k2 H1 H2).
    apply visibleOffsets_range in H1, H2.
    assert (3 ≤ n) by (destruct m; simpl in Hlen; lia).
    apply visibleIndex_inj; lia.
Qed.

(** Every position of the window designates a book of the list, the
    middle position the current one. *)
Lemma windowIndices_valid m i :
  0 ≤ i < n →
  Forall (λ j, 0 ≤ j < n) (windowIndices n m i) ∧
  windowIndices n m i !! (length (visibleOffsets m) `div` 2)%nat = Some i.
Proof.
  intros Hi. split.
  - apply Forall_fmap, Forall_forall. intros k Hk%visibleOffsets_range.
    by apply visibleIndex_range.
  - unfold windowIndices. rewrite list_lookup_fmap.
    destruct m; simpl; by rewrite visibleIndex_centre.
Qed.

End window.

Section books.
Context `{BookData}.
Implicit Types (s : CarouselState) (m : bool).

Lemma books_length_pos : 0 < books_length.
Proof.
  unfold books_length. pose proof books_nonempty.
  destruct books; [done|]. simpl. lia.
Qed.

Lemma visibleBooks_indices m s :
  fst <$> visibleBooks m s =
  js_index books <$> windowIndices books_length m (currentIndex s).
Proof.
  unfold visibleBooks, windowIndices. by rewrite <-!list_fmap_compose.
Qed.

(** While the index designates a book, so does every index of the
    window. *)
Lemma visibleBook_Some m s k :
  index_ok books_length s → k ∈ visibleOffsets m →
  is_Some (js_index books (visibleIndex books_length (currentIndex s) k)).
Proof.
  intros Hi Hk%visibleOffsets_range. pose proof books_length_pos as Hn.
  apply js_index_Some. by apply visibleIndex_range.
Qed.

Lemma centre_visible m : 0 ∈ visibleOffsets m.
Proof. destruct m; simpl; rewrite !elem_of_cons; auto. Qed.

(** C18: while the index designates a book, every entry of [visibleBooks]
    carries a book (none is [undefined]), the window has one entry per
    offset, and the entry at offset 0 is the current book. *)
Theorem visibleBooks_defined m s :
  index_ok books_length s →
  Forall (λ p, is_Some p.1) (visibleBooks m s) ∧
  snd <$> visibleBooks m s = visibleOffsets m ∧
  (js_index books (currentIndex s), 0) ∈ visibleBooks m s.
Proof.
  intros Hi. pose proof books_length_pos as Hn. unfold visibleBooks.
  split_and!.
  - apply Forall_fmap, Forall_forall. intros k Hk.
    by apply visibleBook_Some with m.
  - rewrite <-list_fmap_compose. apply list_fmap_id.
  - apply list_elem_of_fmap. exists 0. split; [|apply centre_visible].
    by rewrite visibleIndex_centre.
Qed.

End books.

(** ** Keys and swipes *)

Section inputs.
Context (n : Z).
Implicit Types (s : CarouselState) (key : string).

(** The left arrow key acts as the previous button, the right arrow
    key as the next button, and every other key leaves the state alone. *)
Lemma handleKeyPress_spec key s :
  handleKeyPress n key s =
  if decide (key = "ArrowLeft"%string) then prevSlide n s
  else if decide (key = "ArrowRight"%string) then nextSlide n s
  else s.
Proof.
  unfold handleKeyPress. repeat case_decide; subst; done.
Qed.

(** C38: a touch gesture moves the carousel only when it is horizontal
    beyond the threshold: it then shows the next book for a leftward stroke
    and the previous one for a rightward stroke; vertical strokes, short
    strokes and taps change nothing. *)
Theorem carousel_gesture_spec min a b moves s :
  last moves = Some b →
  carousel_gesture n min a moves s =
  if decide (Z.abs (swipe_dx a b) > Z.abs (swipe_dy a b) ∧
             Z.abs (swipe_dx a b) > min)
  then (if decide (swipe_dx a b > 0) then prevSlide n s else nextSlide n s)
  else s.
Proof.
  intros Hlast. unfold carousel_gesture.
  rewrite swipeGesture_last, Hlast.
  change ((swipe_idle, Some b ≫= classifySwipe min a).2)
    with (classifySwipe min a b).
  rewrite classifySwipe_decide. repeat case_decide; try done.
  all: unfold swipe_dx, swipe_dy in *; lia.
Qed.

End inputs.

(** ** Worked examples *)

(** A list of six books. *)
Definition example_books : BookData :=
  Build_BookData (example_book <$> ["A"; "B"; "C"; "D"; "E"; "F"]%string)
    ltac:(intros Hnil; by apply fmap_nil_inv in Hnil).

Lemma slide_wraps_witness :
  currentIndex (nextSlide 6 (carousel_run 6 [CeNext; CeNext; CeNext; CeNext;
                                              CeNext] initialCarousel)) = 0 ∧
  currentIndex (prevSlide 6 initialCarousel) = 5.
Proof.
  split.
  - apply (slide_wraps 6 ltac:(lia)
             (carousel_run 6 [CeNext; CeNext; CeNext; CeNext; CeNext]
                initialCarousel)). by_compute.
  - apply (slide_wraps 6 ltac:(lia) initialCarousel). by_compute.
Defined.

Lemma carousel_index_invariant_witness :
  index_ok 6
    (carousel_run 6
       [CePrev; CeKey "ArrowLeft"; CeSwipe SwipeLeft; CeEdit; CeClose;
        CeKey "ArrowRight"; CeKey "Enter"; CeNext] initialCarousel).
Proof. apply carousel_index_invariant; by_compute. Defined.

Lemma slide_inverse_witness :
  currentIndex (prevSlide 6 (nextSlide 6 initialCarousel)) = 0 ∧
  currentIndex (nextSlide 6 (prevSlide 6 initialCarousel)) = 0.
Proof. apply (slide_inverse 6 ltac:(lia) initialCarousel). by_compute. Defined.

Lemma nextSlide_full_round_witness :
  currentIndex (Nat.iter 6 (nextSlide 6) (prevSlide 6 initialCarousel)) = 5.
Proof.
  apply (nextSlide_full_round 6 ltac:(lia) (prevSlide 6 initialCarousel)).
  by_compute.
Defined.

Lemma windowIndices_NoDup_witness :
  (NoDup (windowIndices 6 false 0) ↔ (5 ≤ 6)) ∧
  (NoDup (windowIndices 3 false 0) ↔ (5 ≤ 3)) ∧
  windowIndices 3 false 0 = [1; 2; 0; 1; 2].
Proof.
  split_and!.
  - apply (windowIndices_NoDup 6 ltac:(lia) false 0). lia.
  - apply (windowIndices_NoDup 3 ltac:(lia) false 0). lia.
  - reflexivity.
Defined.

Lemma windowIndices_valid_witness :
  Forall (λ j, 0 ≤ j < 1) (windowIndices 1 false 0) ∧
  windowIndices 1 false 0 !! 2%nat = Some 0.
Proof. apply (windowIndices_valid 1 ltac:(lia) false 0). lia. Defined.

Lemma visibleBooks_defined_witness :
  Forall (λ p, is_Some p.1) (@visibleBooks example_books true initialCarousel) ∧
  snd <$> @visibleBooks example_books true initialCarousel = [-1; 0; 1] ∧
  (js_index (@books example_books) 0, 0) ∈
    @visibleBooks example_books true initialCarousel.
Proof.
  apply (@visibleBooks_defined example_books true initialCarousel).
  by_compute.
Defined.

Lemma carousel_gesture_spec_witness :
  currentIndex
    (carousel_gesture 6 defaultMinSwipeDistance (mkTouch 300 400)
       [mkTouch 280 402; mkTouch 200 410; mkTouch 120 395] initialCarousel) = 1.
Proof.
  rewrite (carousel_gesture_spec 6 defaultMinSwipeDistance (mkTouch 300 400)
             (mkTouch 120 395)); [by_compute|reflexivity].
Defined.
