(* ===== verification/CenterCard.v ===== *)
(** * The rows of the centre card

    Models the part of [Carousel]'s render function
    ([src/src/components/Carousel.tsx], the callback of
    [activeInfoFields.map]) that turns the stored field configuration into
    the rows shown under the cover of the centre book.  A row is kept as
    data ([CenterRow]): its React key, what distinguishes its layout, and
    the nodes [formatValue] returned for it.  The formatter is a parameter
    of the section, of an arbitrary node type.

    An [undefined] entry of the configuration makes the render throw
    ([field.id]); the result type is [res]. *)

From S2P Require Import Prelude Fields.

Local Open Scope list_scope.

(** ** Rows *)

Section render.
Context {Node : Type}.
Context (formatValue : string → JsValue → AudioBook → Node).

(** One element returned by the callback.  [RowDiscount] is the line with
    the discount and, beside it, the price; [RowRating] the stars and,
    beside them, the review count; [RowPlain] any other field with its
    [className]. *)
Inductive CenterRow :=
| RowDiscount (key : string) (discountNode : Node) (priceNode : option Node)
| RowRating (key : string) (starsNode : Node) (reviewsNode : option Node)
| RowPlain (key : string) (className : string) (node : Node).

#[export] Instance CenterRow_eq_dec `{EqDecision Node} : EqDecision CenterRow.
Proof. solve_decision. Defined.

(** The React key of a row. *)
Definition row_key (r : CenterRow) : string :=
  match r with
  | RowDiscount key _ _ | RowRating key _ _ | RowPlain key _ _ => key
  end.

(** [activeInfoFields.findIndex(f => f.id === id)], with [-1] for no match. *)
Definition fieldIndex (fields : list DraggableInfo) (id : string) : Z :=
  default (-1)%Z (Z.of_nat <$> js_findIndex (λ f, di_id f = id) fields).

(** [formatValue(f.id, book[f.id as keyof AudioBook], book)] *)
Definition formatField (book : AudioBook) (f : DraggableInfo) : Node :=
  formatValue (di_id f) (book_get book (di_id f)) book.

(** The [className] of a plain row. *)
Definition plainClassName (id : string) : string :=
  "mb-2 " +:+
  (if decide (id = "bookTitle") then "text-2xl font-bold"
   else if decide (id = "bookSubtitle") then "text-gray-300"
   else if decide (id = "releaseDate") then "whitespace-nowrap"
   else "flex items-center justify-center gap-2")%string.

(** The callback of [activeInfoFields.map] for a defined entry: the row, or
    [None] where the callback returns [null]. *)
Definition renderField (fields : list DraggableInfo) (book : AudioBook)
    (field : DraggableInfo) : option CenterRow :=
  if decide (di_id field = "discount"%string) then
    let priceField :=
      js_find (λ f, di_id f = "bookCashPrice"%string) fields in
    let isDiscountProcessed :=
      bool_decide (fieldIndex fields "discount" <
                   fieldIndex fields (di_id field))%Z in
    if negb isDiscountProcessed then
      Some (RowDiscount (di_id field) (formatField book field)
              (formatField book <$> priceField))
    else None
  else if decide (di_id field = "bookCashPrice"%string) then None
  else if decide (di_id field = "ratingStar"%string) then
    let reviewsField :=
      js_find (λ f, di_id f = "numberOfReviews"%string) fields in
    Some (RowRating (di_id field) (formatField book field)
            (formatField book <$> reviewsField))
  else if decide (di_id field = "numberOfReviews"%string) then None
  else
    Some (RowPlain (di_id field) (plainClassName (di_id field))
            (formatField book field)).

(** The configuration with every entry defined, or the [TypeError] of
    reading [.id] of an [undefined] entry. *)
Definition definedFields (config : list (option DraggableInfo))
    : res (list DraggableInfo) :=
  js_map_res (js_prop (λ f, f)) config.

(** [activeInfoFields.map(field => ...)]: one element per entry, [None]
    for [null]. *)
Definition renderCenterFields (config : list (option DraggableInfo))
    (book : AudioBook) : res (list (option CenterRow)) :=
  res_map (λ fields, renderField fields book <$> fields)
    (definedFields config).

(** The rows React puts on screen: the elements that are not [null]. *)
Definition centerRows (config : list (option DraggableInfo))
    (book : AudioBook) : res (list CenterRow) :=
  res_map (omap id) (renderCenterFields config book).

(** The two fields that are shown only beside another one. *)
Definition secondary_field (id : string) : bool :=
  bool_decide (id = "bookCashPrice"%string ∨ id = "numberOfReviews"%string).

(** ** Each field's row *)

Implicit Types (fields : list DraggableInfo) (book : AudioBook)
  (field f : DraggableInfo) (r : CenterRow).

(** The test [isDiscountProcessed] compares the index of the discount
    field with itself, so it is never true. *)
Lemma isDiscountProcessed_false fields field :
  di_id field = "discount"%string →
  bool_decide (fieldIndex fields "discount" <
               fieldIndex fields (di_id field))%Z = false.
Proof. intros ->. apply bool_decide_eq_false_2. lia. Qed.

Lemma renderField_key fields book field r :
  renderField fields book field = Some r → row_key r = di_id field.
Proof.
  unfold renderField. repeat case_decide; try done;
    try case_match; by intros [= <-].
Qed.

Lemma renderField_secondary fields book field :
  renderField fields book field = None ↔
  secondary_field (di_id field) = true.
Proof.
  unfold secondary_field. rewrite bool_decide_eq_true.
  unfold renderField. case_decide as Hd.
  - rewrite isDiscountProcessed_false by done. simpl.
    rewrite Hd. split; [done|]. by intros [|].
  - repeat case_decide; split; try done; try tauto; intros [|]; congruence.
Qed.

Lemma definedFields_Some fields : definedFields (Some <$> fields) = Ok fields.
Proof.
  unfold definedFields. by rewrite js_map_res_prop_Some, list_fmap_id.
Qed.

Lemma definedFields_Ok config fields :
  definedFields config = Ok fields ↔ config = Some <$> fields.
Proof.
  split; [|intros ->; apply definedFields_Some].
  unfold definedFields. rewrite js_map_res_Ok. revert fields.
  induction config as [|o config IH]; intros fields; inversion 1; subst.
  - done.
  - rewrite fmap_cons. f_equal; [|by apply IH].
    match goal with Hx : js_prop _ _ = Ok _ |- _ =>
      by apply js_prop_Ok in Hx as (? & -> & ->) end.
Qed.

Lemma definedFields_Throw_iff config e :
  definedFields config = Throw e ↔ None ∈ config ∧ e = TypeError.
Proof.
  split; [|intros [? ->]; by apply js_map_res_prop_None].
  intros ([f|] & Hin & Hf)%js_map_res_Throw; [done|]. by injection Hf as <-.
Qed.

Lemma definedFields_Throw config :
  None ∈ config ↔ definedFields config = Throw TypeError.
Proof.
  split; [apply js_map_res_prop_None|].
  destruct (definedFields config) as [fields|e] eqn:Hd; [done|].
  apply js_map_res_Throw in Hd as ([f|] & Hin & Hf); [done|]. by intros _.
Qed.

Lemma centerRows_Ok config book rows :
  centerRows config book = Ok rows ↔
  ∃ fields, config = Some <$> fields ∧
            rows = omap (renderField fields book) fields.
Proof.
  unfold centerRows, renderCenterFields, res_map.
  rewrite res_bind_Ok. setoid_rewrite res_bind_Ok. split.
  - intros (? & (fields & Hd%definedFields_Ok & [= <-]) & [= <-]).
    exists fields. split; [done|]. by rewrite omap_id_fmap.
  - intros (fields & -> & ->). eexists. split.
    + exists fields. by rewrite definedFields_Some.
    + by rewrite omap_id_fmap.
Qed.

(** C15: neither the price nor the review count ever gets a row of its
    own: the keys of the rows are the configured identifiers, in order,
    without those two. *)
Theorem centerRows_keys config book rows :
  centerRows config book = Ok rows →
  Some <$> (row_key <$> rows) =
  filter (λ o, ¬ (secondary_field <$> o = Some true))
    ((λ o, di_id <$> o) <$> config).
Proof.
  intros (fields & -> & ->)%centerRows_Ok.
  rewrite <-!list_fmap_compose.
  generalize fields at 1 as all.
  induction fields as [|f fields IH]; intros all; [done|].
  rewrite fmap_cons. csimpl.
  destruct (renderField all book f) as [r|] eqn:Hr.
  - rewrite filter_cons_True.
    + csimpl. rewrite IH. by rewrite (renderField_key _ _ _ _ Hr).
    + simpl. intros [= Hs]. rewrite <-(renderField_secondary all book) in Hs.
      congruence.
  - rewrite filter_cons_False; [done|].
    intros Hn. apply Hn. simpl. f_equal.
    by apply (renderField_secondary all book).
Qed.

(** The price is shown exactly in the discount row, and only when the
    price field is configured too; the review count exactly in the rating
    row, and only when it is configured.  A configured price without the
    discount field is not shown at all. *)
Theorem centerRows_pairing fields book r :
  r ∈ omap (renderField fields book) fields →
  match r with
  | RowDiscount key _ priceNode =>
      key = "discount"%string ∧
      (is_Some priceNode ↔ "bookCashPrice"%string ∈ field_ids fields)
  | RowRating key _ reviewsNode =>
      key = "ratingStar"%string ∧
      (is_Some reviewsNode ↔ "numberOfReviews"%string ∈ field_ids fields)
  | RowPlain key _ _ =>
      key ∉ ["discount"; "bookCashPrice"; "ratingStar";
             "numberOfReviews"]%string
  end.
Proof.
  intros (f & Hf & Hr)%list_elem_of_omap. unfold renderField in Hr.
  destruct (decide (di_id f = "discount"%string)) as [Hd|Hd].
  - rewrite isDiscountProcessed_false in Hr by done. injection Hr as <-.
    split; [done|]. etrans; [apply fmap_is_Some|].
    symmetry. apply find_draggable_is_Some.
  - repeat case_decide; try done; injection Hr as <-.
    + split; [done|]. etrans; [apply fmap_is_Some|].
      symmetry. apply find_draggable_is_Some.
    + rewrite !not_elem_of_cons. split_and!; try done. apply not_elem_of_nil.
Qed.

(** Rendering the centre card throws exactly when the configuration
    has an [undefined] entry. *)
Theorem renderCenterFields_throws config book :
  None ∈ config ↔ renderCenterFields config book = Throw TypeError.
Proof.
  rewrite definedFields_Throw. unfold renderCenterFields, res_map.
  destruct (definedFields config) as [fields|e]; simpl; [done|].
  split; by intros [= ->].
Qed.

End render.

Arguments CenterRow : clear implicits.

(** ** Worked examples *)

(** A formatter that shows which field it was asked to format. *)
Definition tag_formatter (id : string) (v : JsValue) (book : AudioBook)
    : string := id.

Lemma centerRows_scenario :
  centerRows tag_formatter
    (find_draggable initialDraggables <$>
       ["bookTitle"; "ratingStar"; "numberOfReviews"]%string)
    (example_book "A") =
  Ok [RowPlain "bookTitle" "mb-2 text-2xl font-bold" "bookTitle";
      RowRating "ratingStar" "ratingStar" (Some "numberOfReviews")]%string.
Proof. by_compute. Qed.

Lemma centerRows_price_without_discount :
  centerRows tag_formatter
    (find_draggable initialDraggables <$> ["bookCashPrice"; "author"]%string)
    (example_book "A") =
  Ok [RowPlain "author" "mb-2 flex items-center justify-center gap-2"
        "author"]%string.
Proof. by_compute. Qed.

Lemma centerRows_keys_witness :
  Some <$> ["discount"; "author"]%string =
  filter (λ o, ¬ (secondary_field <$> o = Some true))
    ((λ o, di_id <$> o) <$>
       (find_draggable initialDraggables <$>
          ["discount"; "bookCashPrice"; "author"]%string)).
Proof.
  apply (centerRows_keys tag_formatter
           (find_draggable initialDraggables <$>
              ["discount"; "bookCashPrice"; "author"]%string)
           (example_book "A")
           [RowDiscount "discount" "discount" (Some "bookCashPrice");
            RowPlain "author" "mb-2 flex items-center justify-center gap-2"
              "author"]%string).
  by_compute.
Defined.

Lemma centerRows_pairing_witness :
  "discount"%string = "discount"%string ∧
  (is_Some (Some "bookCashPrice"%string) ↔
   "bookCashPrice"%string ∈
     field_ids (omap (find_draggable initialDraggables)
                  ["discount"; "bookCashPrice"]%string)).
Proof.
  apply (centerRows_pairing tag_formatter
           (omap (find_draggable initialDraggables)
              ["discount"; "bookCashPrice"]%string)
           (example_book "A")
           (RowDiscount "discount" "discount" (Some "bookCashPrice"))%string).
  by_compute.
Defined.
