(* ===== verification/Format.v ===== *)
(** * The field formatters

    Models the two functions called [formatValue]: the one of the edit mode
    ([src/src/components/EditMode/constants.ts]), which returns a string,
    and the one of the carousel ([src/src/components/Carousel.tsx]), which
    returns a React node, with the string operations they call
    ([String.prototype.repeat], [split(',')], [trim]).

    Strings are sequences of bytes (UTF-8), so the glyph of the edit mode
    is three bytes long.  [trim] removes the six ASCII white-space
    characters; the other white-space characters of Unicode are not
    modelled.  How a number is printed ([String(n)], a template literal, a
    React child) and how a string is read as a number are parameters of the
    section: the formatters only pass the results on.  The formatter of
    the edit mode is the instance [editFormatter] of the class
    [Formatter]. *)

From Stdlib Require Import Ascii QArith Qround.
From S2P Require Import Prelude Fields CenterCard.

Local Close Scope Q_scope.
Local Open Scope list_scope.

(** ** String operations *)

(** [s.repeat(n)] for a count that is a natural number. *)
Fixpoint string_repeat (s : string) (n : nat) : string :=
  match n with
  | 0 => ""
  | S n' => s +:+ string_repeat s n'
  end.

(** [s.repeat(count)] where [count] is the integral number [Some n], or
    [NaN] ([None]), which counts as zero.  A negative count throws. *)
Definition js_repeat (s : string) (count : option Z) : res string :=
  match count with
  | None => Ok ""%string
  | Some n =>
      if decide (n < 0)%Z then Throw RangeError
      else Ok (string_repeat s (Z.to_nat n))
  end.

(** [s.split(sep)] for a separator of one character: never empty. *)
Fixpoint js_split (sep : ascii) (s : string) : list string :=
  match s with
  | EmptyString => [EmptyString]
  | String c s' =>
      if decide (c = sep) then EmptyString :: js_split sep s'
      else
        match js_split sep s' with
        | t :: ts => String c t :: ts
        | [] => [String c EmptyString]
        end
  end.

(** The white space [trim] removes, as far as it is ASCII: tab, line feed,
    vertical tab, form feed, carriage return and space. *)
Definition is_space (c : ascii) : bool :=
  bool_decide (nat_of_ascii c ∈ [9; 10; 11; 12; 13; 32]).

(** Removes the white space at the front. *)
Fixpoint ltrim (l : list ascii) : list ascii :=
  match l with
  | c :: l' => if is_space c then ltrim l' else l
  | [] => []
  end.

(** Removes the white space at the end. *)
Definition rtrim (l : list ascii) : list ascii := reverse (ltrim (reverse l)).

(** [s.trim()] *)
Definition js_trim (s : string) : string :=
  String.string_of_list_ascii
    (rtrim (ltrim (String.list_ascii_of_string s))).

(** ** The formatters *)

(** The glyph of the edit mode's formatter: a black star, U+2605. *)
Definition star : string := "★".

(** The string literal of the carousel's formatter: the three characters
    U+00E2, U+02DC and U+2026. *)
Definition carousel_star : string := "â˜…".

(** The nodes the carousel's formatter returns: a text, the stars with the
    rating beside them when a book is given, or the topic chips with their
    keys. *)
Inductive CardNode :=
| NText (text : string)
| NStars (glyphs : string) (rating : option string)
| NTags (chips : list (nat * string)).

#[export] Instance CardNode_eq_dec : EqDecision CardNode.
Proof. solve_decision. Defined.

Section format.
Context (numberToString : Q → string).
Context (stringToNumber : string → option Q).

(** [String(value)], which is also a template literal's [${value}]. *)
Definition js_String (value : JsValue) : string :=
  match value with
  | VStr s => s
  | VNum q => numberToString q
  | VUndef => "undefined"
  end.

(** [Math.floor(value as number)]: the cast does nothing at run time, so a
    string is read as a number; [None] is [NaN]. *)
Definition js_floor (value : JsValue) : option Z :=
  match value with
  | VStr s => Qfloor <$> stringToNumber s
  | VNum q => Some (Qfloor q)
  | VUndef => None
  end.

(** [formatValue] of [EditMode/constants.ts]. *)
Definition formatValue (id : string) (value : JsValue) : res string :=
  if decide (id = "ratingStar"%string) then js_repeat star (js_floor value)
  else if decide (id = "bookCashPrice"%string)
  then Ok ("$" +:+ js_String value)
  else if decide (id = "numberOfReviews"%string)
  then Ok (js_String value +:+ " reviews")
  else if decide (id = "topicTags"%string) then Ok (js_String value)
  else Ok (js_String value).

(** The chips of the topic tags: the parts between commas, trimmed, each
    with its index as key. *)
Definition topicChips (value : JsValue) : list (nat * string) :=
  imap (λ index tag, (index, tag))
    (js_trim <$> js_split ","%char (js_String value)).

(** [formatValue] of [Carousel.tsx]; [book] is its optional third
    parameter. *)
Definition cardFormatValue (id : string) (value : JsValue)
    (book : option AudioBook) : CardNode :=
  if decide (id = "ratingStar"%string) then
    NStars (string_repeat carousel_star 5)
      ((λ b, numberToString (ratingStar b)) <$> book)
  else if decide (id = "bookCashPrice"%string)
  then NText ("$" +:+ js_String value)
  else if decide (id = "numberOfReviews"%string) then NText (js_String value)
  else if decide (id = "discount"%string) then NText (js_String value)
  else if decide (id = "topicTags"%string) then NTags (topicChips value)
  else if decide (id = "author"%string) then NText ("By " +:+ js_String value)
  else if decide (id = "narrator"%string)
  then NText ("Narrated by " +:+ js_String value)
  else NText (js_String value).

(** The formatter as the centre card calls it: always with the book. *)
Definition centreFormatter (id : string) (value : JsValue) (book : AudioBook)
    : CardNode :=
  cardFormatValue id value (Some book).

End format.

(** ** [split] *)

Section split.
Context (sep : ascii).
Implicit Types (s t : string).

(** The number of occurrences of the separator. *)
Fixpoint count_sep (s : string) : nat :=
  match s with
  | EmptyString => 0
  | String c s' => (if decide (c = sep) then 1 else 0) + count_sep s'
  end.

(** The separator occurs in the string. *)
Fixpoint has_sep (s : string) : bool :=
  match s with
  | EmptyString => false
  | String c s' => bool_decide (c = sep) || has_sep s'
  end.

Lemma js_split_nonempty s : js_split sep s ≠ [].
Proof. destruct s as [|c s]; simpl; [done|]. by repeat case_match. Qed.

Lemma js_split_cons c s :
  js_split sep (String c s) =
  if decide (c = sep) then EmptyString :: js_split sep s
  else match js_split sep s with
       | t :: ts => String c t :: ts
       | [] => [String c EmptyString]
       end.
Proof. done. Qed.

Lemma js_split_concat s :
  String.concat (String sep EmptyString) (js_split sep s) = s.
Proof.
  induction s as [|c s IH]; [done|]. rewrite js_split_cons.
  pose proof (js_split_nonempty s) as Hne.
  destruct (js_split sep s) as [|t [|t' ts]] eqn:Hs; [done|..];
    case_decide; subst; simpl in *; by rewrite ?IH.
Qed.

Lemma length_js_split s : length (js_split sep s) = S (count_sep s).
Proof.
  induction s as [|c s IH]; [done|]. rewrite js_split_cons. simpl.
  pose proof (js_split_nonempty s) as Hne.
  destruct (js_split sep s) as [|t ts]; [done|].
  case_decide; simpl in *; lia.
Qed.

Lemma js_split_no_sep s : Forall (λ t, has_sep t = false) (js_split sep s).
Proof.
  induction s as [|c s IH]; [by repeat constructor|]. rewrite js_split_cons.
  case_decide as Hc; [by constructor|].
  destruct (js_split sep s) as [|t ts].
  - repeat constructor. simpl. by rewrite bool_decide_eq_false_2.
  - apply Forall_cons in IH as [Ht Hts]. constructor; [|done].
    simpl. by rewrite bool_decide_eq_false_2.
Qed.

(** [split] cuts a string at every separator and nowhere else: joining
    the parts with the separator gives the string back, no part contains
    the separator, and there is one part more than there are separators
    (so the empty string has one part, the empty one). *)
Lemma js_split_spec s :
  String.concat (String sep EmptyString) (js_split sep s) = s ∧
  Forall (λ t, has_sep t = false) (js_split sep s) ∧
  length (js_split sep s) = S (count_sep s).
Proof.
  split_and!;
    [apply js_split_concat|apply js_split_no_sep|apply length_js_split].
Qed.

End split.

(** ** [trim] *)

Section trim.
Implicit Types (l pre post : list ascii) (s : string).

Lemma ltrim_split l :
  ∃ pre, l = pre ++ ltrim l ∧ Forall (λ c, is_space c = true) pre ∧
         (is_space <$> head (ltrim l)) ≠ Some true.
Proof.
  induction l as [|c l (pre & Hl & Hpre & Hhd)]; [by exists []|]. simpl.
  destruct (is_space c) eqn:Hc.
  - exists (c :: pre). split_and!; [by rewrite Hl at 1|by constructor|done].
  - exists []. split_and!; [done..|]. simpl. by rewrite Hc.
Qed.

Lemma ltrim_id l : (is_space <$> head l) ≠ Some true → ltrim l = l.
Proof. destruct l as [|c l]; simpl; [done|]. by destruct (is_space c). Qed.

Lemma ltrim_idem l : ltrim (ltrim l) = ltrim l.
Proof. apply ltrim_id. by destruct (ltrim_split l) as (? & _ & _ & ?). Qed.

Lemma rtrim_split l :
  ∃ post, l = rtrim l ++ post ∧ Forall (λ c, is_space c = true) post ∧
          (is_space <$> last (rtrim l)) ≠ Some true.
Proof.
  destruct (ltrim_split (reverse l)) as (pre & Hl & Hpre & Hhd).
  exists (reverse pre). unfold rtrim. split_and!.
  - by rewrite <-reverse_app, <-Hl, reverse_involutive.
  - by apply Forall_reverse.
  - by rewrite last_reverse.
Qed.

Lemma rtrim_id l : (is_space <$> last l) ≠ Some true → rtrim l = l.
Proof.
  intros Hl. unfold rtrim. rewrite ltrim_id, reverse_involutive; [done|].
  by rewrite head_reverse.
Qed.

(** Removing white space at the end leaves the front as it is. *)
Lemma head_rtrim l :
  (is_space <$> head l) ≠ Some true →
  (is_space <$> head (rtrim l)) ≠ Some true.
Proof.
  intros Hhd. destruct (rtrim_split l) as (post & Hl & Hpost & _).
  destruct (rtrim l) as [|c l'] eqn:Hr; [done|].
  rewrite Hl in Hhd. by simpl in *.
Qed.

(** [trim] removes exactly the white space at both ends: the string
    is its trimmed form between two runs of white space, the trimmed form
    neither starts nor ends with white space, and trimming it again changes
    nothing. *)
Lemma js_trim_spec s :
  (∃ pre post,
     String.list_ascii_of_string s =
       pre ++ String.list_ascii_of_string (js_trim s) ++ post ∧
     Forall (λ c, is_space c = true) pre ∧
     Forall (λ c, is_space c = true) post) ∧
  (is_space <$> head (String.list_ascii_of_string (js_trim s))) ≠ Some true ∧
  (is_space <$> last (String.list_ascii_of_string (js_trim s))) ≠ Some true ∧
  js_trim (js_trim s) = js_trim s.
Proof.
  unfold js_trim. rewrite !String.list_ascii_of_string_of_list_ascii.
  destruct (ltrim_split (String.list_ascii_of_string s))
    as (pre & Hpre & Hsp & Hhd).
  destruct (rtrim_split (ltrim (String.list_ascii_of_string s)))
    as (post & Hpost & Hsp' & Hlast).
  split_and!; [|by apply head_rtrim|done|].
  - exists pre, post. by rewrite <-Hpost.
  - by rewrite (ltrim_id (rtrim _)), (rtrim_id (rtrim _))
      by (done || by apply head_rtrim).
Qed.

End trim.

(** ** The formatters' results *)

Lemma Qfloor_neg (q : Q) : (Qfloor q < 0)%Z ↔ (q < 0)%Q.
Proof.
  destruct q as [n d]. unfold Qfloor, Qlt. simpl. rewrite Z.mul_1_r.
  pose proof (Z.div_mod n (Z.pos d) ltac:(done)).
  pose proof (Z.mod_pos_bound n (Z.pos d) ltac:(done)). nia.
Qed.

(** Repeating by the floor of a number throws exactly for negative
    numbers. *)
Lemma js_repeat_floor s q :
  js_repeat s (Some (Qfloor q)) =
  if Qlt_le_dec q 0 then Throw RangeError
  else Ok (string_repeat s (Z.to_nat (Qfloor q))).
Proof.
  unfold js_repeat. pose proof (Qfloor_neg q) as Hq.
  destruct (Qlt_le_dec q 0) as [Hneg|Hpos]; case_decide as Hf; try done.
  - tauto.
  - apply Hq in Hf. by apply Qlt_not_le in Hf.
Qed.

Section results.
Context (numberToString : Q → string).
Context (stringToNumber : string → option Q).
Implicit Types (id : string) (value : JsValue) (book : AudioBook).
Implicit Types (q : Q).

(** In the edit mode a rating is shown as one star per whole point,
    rounded down, and a negative rating throws a [RangeError]. *)
Theorem formatValue_ratingStar q :
  formatValue numberToString stringToNumber "ratingStar" (VNum q) =
  if Qlt_le_dec q 0 then Throw RangeError
  else Ok (string_repeat star (Z.to_nat (Qfloor q))).
Proof. apply js_repeat_floor. Qed.

(** Only the rating can make the edit mode's formatter throw. *)
Lemma formatValue_total id value :
  id ≠ "ratingStar"%string →
  ∃ s, formatValue numberToString stringToNumber id value = Ok s.
Proof. intros Hid. unfold formatValue. repeat case_decide; by eauto. Qed.

(** What the edit mode shows for each field of a book whose rating is not
    negative. *)
Lemma formatValue_book book id :
  (0 <= ratingStar book)%Q →
  ∃ s,
    formatValue numberToString stringToNumber id (book_get book id) = Ok s.
Proof.
  intros Hr. destruct (decide (id = "ratingStar"%string)) as [->|Hid];
    [|by apply formatValue_total].
  change (formatValue numberToString stringToNumber "ratingStar"
            (book_get book "ratingStar"))
    with (js_repeat star (Some (Qfloor (ratingStar book)))).
  rewrite js_repeat_floor.
  destruct (Qlt_le_dec _ 0) as [Hneg|_]; [|by eauto].
  by apply Qlt_not_le in Hneg.
Qed.

(** The only exception the edit mode's formatter throws is the
    [RangeError] of [repeat]. *)
Lemma formatValue_Throw id value e :
  formatValue numberToString stringToNumber id value = Throw e →
  e = RangeError.
Proof.
  unfold formatValue, js_repeat.
  repeat case_decide; try done. destruct (js_floor _ value); [|done].
  case_decide; [|done]. by intros [= <-].
Qed.

(** The carousel does not show the rating as stars: whatever the
    rating, it shows the same five copies of a string literal followed by
    the rating as a number, and that literal is not the star the edit mode
    uses but three other characters. *)
Theorem cardFormatValue_ratingStar value book :
  cardFormatValue numberToString "ratingStar" value (Some book) =
    NStars (string_repeat carousel_star 5)
      (Some (numberToString (ratingStar book))) ∧
  carousel_star ≠ star ∧
  String.length (string_repeat carousel_star 5) = 5 * 7.
Proof. split_and!; [done|by_compute|by_compute]. Qed.

(** C25: the configuration [bookTitle, ratingStar, numberOfReviews] renders
    as two rows: the title, and one row with the five glyphs, the rating
    and, beside them, the review count as it is stored; the review count
    has no row of its own. *)
Theorem centre_card_scenario book (title rating reviews : DraggableInfo) :
  di_id title = "bookTitle"%string → di_id rating = "ratingStar"%string →
  di_id reviews = "numberOfReviews"%string →
  centerRows (centreFormatter numberToString)
    (Some <$> [title; rating; reviews]) book =
  Ok [RowPlain "bookTitle" "mb-2 text-2xl font-bold"
        (NText (bookTitle book));
      RowRating "ratingStar"
        (NStars (string_repeat carousel_star 5)
           (Some (numberToString (ratingStar book))))
        (Some (NText (numberOfReviews book)))]%string.
Proof.
  intros Ht Hr Hn. apply centerRows_Ok. eexists. split; [done|].
  destruct title, rating, reviews. simpl in *. by subst.
Qed.

End results.

(** The edit mode's formatter meets the interface its components rely
    on. *)
#[export] Instance editFormatter (numberToString : Q → string)
    (stringToNumber : string → option Q) : Formatter := {|
  fmt := formatValue numberToString stringToNumber;
  fmt_total := formatValue_total numberToString stringToNumber;
  fmt_error := formatValue_Throw numberToString stringToNumber
|}.

(** It fails on a rating exactly when the rating is negative. *)
Lemma editFormatter_rating_Throw numberToString stringToNumber (q : Q) e :
  @fmt (editFormatter numberToString stringToNumber) "ratingStar" (VNum q) =
    Throw e ↔
  (q < 0)%Q ∧ e = RangeError.
Proof.
  simpl.
  change (formatValue numberToString stringToNumber "ratingStar" (VNum q))
    with (js_repeat star (Some (Qfloor q))).
  rewrite js_repeat_floor. destruct (Qlt_le_dec q 0) as [Hneg|Hpos].
  - split; [by intros [= <-]|by intros [_ ->]].
  - split; [done|]. intros [Hneg _]. by apply Qle_not_lt in Hpos.
Qed.

Lemma editFormatter_rating_Ok numberToString stringToNumber (q : Q) :
  (0 <= q)%Q →
  ∃ text,
    @fmt (editFormatter numberToString stringToNumber) "ratingStar" (VNum q) =
    Ok text.
Proof.
  intros Hq.
  destruct (@fmt (editFormatter numberToString stringToNumber) "ratingStar"
              (VNum q)) as [text|e] eqn:Hf; [by eauto|].
  apply editFormatter_rating_Throw in Hf as [Hneg _].
  by apply Qle_not_lt in Hq.
Qed.

(** ** Worked examples *)

(** A printer that is good enough for the examples: whole numbers only. *)
Definition digits_of (q : Q) : string :=
  match Qfloor q with
  | 0%Z => "0" | 1%Z => "1" | 2%Z => "2" | 3%Z => "3" | 4%Z => "4"
  | 5%Z => "5" | _ => "?"
  end.

Lemma topicChips_example :
  topicChips digits_of (VStr "fantasy, epic ,,dragons ") =
  [(0, "fantasy"); (1, "epic"); (2, ""); (3, "dragons")]%string.
Proof. by_compute. Qed.

Lemma topicChips_empty : topicChips digits_of (VStr "") = [(0, ""%string)].
Proof. by_compute. Qed.

Lemma formatValue_examples :
  formatValue digits_of (λ _, None) "ratingStar" (VNum (9 # 2)) =
    Ok (string_repeat star 4) ∧
  formatValue digits_of (λ _, None) "ratingStar" (VNum (- 1 # 2)) =
    Throw RangeError ∧
  formatValue digits_of (λ _, None) "ratingStar" VUndef = Ok ""%string ∧
  formatValue digits_of (λ _, None) "numberOfReviews" (VStr "1") =
    Ok "1 reviews"%string ∧
  formatValue digits_of (λ _, None) "bookCashPrice" (VNum 5) =
    Ok "$5"%string.
Proof. split_and!; by_compute. Qed.

Lemma centre_card_scenario_witness :
  centerRows (centreFormatter digits_of)
    (find_draggable initialDraggables <$>
       ["bookTitle"; "ratingStar"; "numberOfReviews"]%string)
    (example_book "A") =
  Ok [RowPlain "bookTitle" "mb-2 text-2xl font-bold"
        (NText (bookTitle (example_book "A")));
      RowRating "ratingStar"
        (NStars (string_repeat carousel_star 5)
           (Some (digits_of (ratingStar (example_book "A")))))
        (Some (NText (numberOfReviews (example_book "A"))))]%string.
Proof.
  apply (centre_card_scenario digits_of (example_book "A")
           (mkDraggable "bookTitle" "Title" "text" (mkPosition (-200) (-150)))
           (mkDraggable "ratingStar" "Rating Stars" "number"
              (mkPosition (-200) 0))
           (mkDraggable "numberOfReviews" "Reviews" "text"
              (mkPosition 200 0))); reflexivity.
Defined.
