(* ===== verification/Row.v ===== *)
(** * A row of the preview list

    Models the component [ReorderableItem]
    ([src/src/components/EditMode/ReorderableItem.tsx]): its two state
    cells, the event handlers that write them, the effect that depends on
    [isDragging], and what the row shows.  The text of a row calls the edit
    mode's [formatValue], so rendering a row can throw; rendering the whole
    preview is [renderPreview], and [renderContainer] is the render of
    [PreviewContainer] around it.  The lemmas about rendering hold for
    every [Formatter].

    The timeout of [onDragEnd] dispatches a [mouseleave] event on the row.
    Whether React delivers it to [onMouseLeave] or not, it is the event
    [RowMouseLeave] occurring or not occurring. *)

From Stdlib Require Import QArith Qround.
From S2P Require Import Prelude Fields Assignment Preview CenterCard Format.

Local Close Scope Q_scope.
Local Open Scope list_scope.

(** ** State and handlers *)

(** The [useState] cells of a row. *)
Record RowState := mkRowState {
  isHovered : bool;
  isDragging : bool
}.

#[export] Instance RowState_eq_dec : EqDecision RowState.
Proof. solve_decision. Defined.

Definition initialRow : RowState := mkRowState false false.

(** The events of a row; [RowMouseOver] carries the test
    [e.currentTarget === e.target]. *)
Inductive RowEvent :=
| RowMouseEnter
| RowMouseLeave
| RowMouseOver (onTarget : bool)
| RowMouseOut
| RowDragStart
| RowDragEnd
| RowAnimationComplete.

(** The handler of each event. *)
Definition row_handle (ev : RowEvent) (s : RowState) : RowState :=
  match ev with
  | RowMouseEnter =>
      if negb (isDragging s) then mkRowState true (isDragging s) else s
  | RowMouseLeave => mkRowState false (isDragging s)
  | RowMouseOver onTarget =>
      if negb (isDragging s) && onTarget
      then mkRowState true (isDragging s) else s
  | RowMouseOut => mkRowState false (isDragging s)
  | RowDragStart => mkRowState false true
  | RowDragEnd => mkRowState false false
  | RowAnimationComplete => mkRowState false false
  end.

(** The effect with the dependency [isDragging]: it runs after a render in
    which [isDragging] differs from the previous render. *)
Definition row_effect (prev s : RowState) : RowState :=
  if bool_decide (isDragging prev ≠ isDragging s) then
    if negb (isDragging s) then mkRowState false (isDragging s) else s
  else s.

(** An event: its handler, the render, the effect. *)
Definition row_step (ev : RowEvent) (s : RowState) : RowState :=
  row_effect s (row_handle ev s).

Definition row_run (evs : list RowEvent) (s : RowState) : RowState :=
  foldl (λ st ev, row_step ev st) s evs.

(** ** What a row shows *)

(** The key of the row (also its [value] and [layoutId]), its [className],
    the label with its colon, and the formatted value. *)
Record RowContent := mkRowContent {
  rc_key : string;
  rc_className : string;
  rc_label : string;
  rc_value : string
}.

(** The part of the [className] that depends on [isDraggedOver]. *)
Definition rowHighlight (isDraggedOver : bool) : string :=
  if isDraggedOver then "bg-blue-500/30 border-2 border-blue-400"
  else "hover:border-indigo-500/30".

Section render.
Context (formatValue : string → JsValue → res string).

(** The render of one [ReorderableItem]; neither state cell is read. *)
Definition renderRow (book : AudioBook) (s : RowState) (row : RowView)
    : res RowContent :=
  res_map
    (mkRowContent (row_id row) (rowHighlight (row_isDraggedOver row))
       (di_label (row_item row) +:+ ": "))
    (formatValue (row_id row) (book_get book (row_id row))).

(** The render of the rows of the preview, each in its own state. *)
Definition renderPreview (draggables : list DraggableInfo) (book : AudioBook)
    (s : EditState) (states : string → RowState) : res (list RowContent) :=
  js_map_res (λ row, renderRow book (states (row_id row)) row)
    (previewRows draggables s).

(** What [PreviewContainer] renders: the colour of its frame, the cover
    with its alternative text, the rows, and the placeholder. *)
Record ContainerView := mkContainerView {
  cv_borderColor : string;
  cv_src : string;
  cv_alt : string;
  cv_rows : list RowContent;
  cv_placeholder : option PlaceholderView
}.

(** The render of [PreviewContainer]. *)
Definition renderContainer (draggables : list DraggableInfo)
    (book : AudioBook) (s : EditState) (states : string → RowState)
    : res ContainerView :=
  res_map
    (λ rows,
       mkContainerView (containerBorderColor s) (coverArt book)
         (bookTitle book) rows (renderPlaceholder s))
    (renderPreview draggables book s states).

End render.

(** The [onReorder] of the [Reorder.Group]: the callback of the edit mode,
    then a [mouseleave] event for every element of the class
    [select-none], which every row carries.  [delivered] says whether the
    rows' [onMouseLeave] receives it. *)
Definition groupReorder (delivered : bool) (newOrder : list string)
    (s : EditState) (states : string → RowState)
    : EditState * (string → RowState) :=
  (onReorder newOrder s,
   if delivered then λ id, row_step RowMouseLeave (states id) else states).

(** ** The flags *)

Section flags.
Implicit Types (s : RowState) (ev : RowEvent).

(** A row that is being dragged is not marked as hovered. *)
Definition row_ok (s : RowState) : Prop :=
  isDragging s = true → isHovered s = false.

Lemma row_step_ok ev s : row_ok s → row_ok (row_step ev s).
Proof.
  unfold row_ok, row_step, row_effect.
  destruct s as [[] []], ev as [| |[]| | | |]; by simpl.
Qed.

Lemma row_run_ok evs s : row_ok s → row_ok (row_run evs s).
Proof.
  revert s. induction evs as [|ev evs IH]; intros s Hs; [done|].
  apply IH. by apply row_step_ok.
Qed.

(** The end of a drag and the end of an animation reset both flags. *)
Lemma row_step_reset ev s :
  ev = RowDragEnd ∨ ev = RowAnimationComplete → row_step ev s = initialRow.
Proof. by intros [-> | ->]; destruct s as [[] []]. Qed.

(** While a drag is under way no mouse event marks the row as hovered. *)
Lemma row_step_dragging ev s :
  row_ok s → isDragging s = true →
  ev ≠ RowDragEnd → ev ≠ RowAnimationComplete →
  row_step ev s = mkRowState false true.
Proof.
  destruct s as [hov []]; [|done]. intros Hok _ Hd Ha.
  rewrite (Hok eq_refl : hov = false). by destruct ev as [| |[]| | | |].
Qed.

End flags.

(** ** Rendering the preview *)

(** What the preview renders for any formatter that meets the
    interface. *)
Section clients.
Context `{Formatter}.
Context (ds : list DraggableInfo) (book : AudioBook).
Implicit Types (s : EditState) (states : string → RowState) (row : RowView).
Implicit Types (rs : RowState) (c : RowContent).

Lemma renderRow_Throw rs row e :
  renderRow fmt book rs row = Throw e ↔
  row_id row = "ratingStar"%string ∧
  fmt "ratingStar" (VNum (ratingStar book)) = Throw e.
Proof. unfold renderRow. rewrite res_map_Throw. apply fmt_book_Throw. Qed.

Lemma renderRow_Ok rs row c :
  renderRow fmt book rs row = Ok c → rc_key c = row_id row.
Proof. unfold renderRow. by intros (? & _ & ->)%res_map_Ok. Qed.

(** The preview throws exactly when the rating is one of its rows and the
    formatter fails on the rating of the book. *)
Lemma renderPreview_Throw s states e :
  renderPreview fmt ds book s states = Throw e ↔
  "ratingStar"%string ∈ removable ds s ∧
  fmt "ratingStar" (VNum (ratingStar book)) = Throw e.
Proof.
  unfold renderPreview, removable. rewrite js_map_res_Throw_iff.
  - rewrite list_elem_of_fmap. setoid_rewrite renderRow_Throw.
    split; [intros (row & ? & ? & ?)|intros [(row & ? & ?) ?]]; eauto.
  - intros ???? _ _ ?%res_map_Throw%fmt_error ?%res_map_Throw%fmt_error.
    congruence.
Qed.

(** The rows rendered are those of the identifiers with a remove button,
    in order. *)
Lemma renderPreview_Ok s states rows :
  renderPreview fmt ds book s states = Ok rows →
  rc_key <$> rows = removable ds s.
Proof. apply js_map_res_Ok_fmap. intros row c. apply renderRow_Ok. Qed.

Lemma renderContainer_Throw s states e :
  renderContainer fmt ds book s states = Throw e ↔
  "ratingStar"%string ∈ removable ds s ∧
  fmt "ratingStar" (VNum (ratingStar book)) = Throw e.
Proof. unfold renderContainer. by rewrite res_map_Throw, renderPreview_Throw. Qed.

Lemma renderContainer_Ok s states v :
  renderContainer fmt ds book s states = Ok v →
  rc_key <$> cv_rows v = removable ds s ∧
  cv_placeholder v = renderPlaceholder s.
Proof.
  unfold renderContainer. intros (rows & Hrows & ->)%res_map_Ok.
  split; [by eapply renderPreview_Ok|done].
Qed.

End clients.

Section preview.
Context (numberToString : Q → string).
Context (stringToNumber : string → option Q).
Context (ds : list DraggableInfo) (book : AudioBook).
Implicit Types (s : EditState) (states : string → RowState) (row : RowView).

(** C29: the preview list renders for every book whose rating is not
    negative, one entry per row, whatever the state of the edit mode and of
    the rows; for a book with a negative rating it throws a [RangeError] as
    soon as the rating is one of the rows. *)
Theorem renderPreview_spec s states :
  ((0 <= ratingStar book)%Q →
   ∃ rows,
     renderPreview (formatValue numberToString stringToNumber) ds book s
       states = Ok rows ∧
     length rows = length (previewRows ds s)) ∧
  ((ratingStar book < 0)%Q → "ratingStar"%string ∈ removable ds s →
   renderPreview (formatValue numberToString stringToNumber) ds book s
     states = Throw RangeError).
Proof.
  unfold renderPreview. split.
  - intros Hr. apply js_map_res_Forall_Ok, Forall_forall. intros row _.
    unfold renderRow.
    destruct (formatValue_book numberToString stringToNumber book
                (row_id row) Hr) as [v ->].
    by eexists.
  - intros Hr Hin.
    apply (renderPreview_Throw (H := editFormatter numberToString stringToNumber)).
    split; [done|]. by apply editFormatter_rating_Throw.
Qed.

End preview.

(** ** Worked examples *)

(** A book like the example with a rating below zero. *)
Definition negative_book : AudioBook :=
  mkAudioBook "" "A" "" (- 1 # 2) "12" 5 "" "" "" "" "" "" "" "" "" "" "".

Lemma renderPreview_example :
  renderPreview (formatValue digits_of (λ _, None)) initialDraggables
    (example_book "A")
    (set_activeContainer ["author"; "ratingStar"]%string default_state)
    (λ _, initialRow) =
  Ok [mkRowContent "author" "hover:border-indigo-500/30" "Author: "
        (author (example_book "A"));
      mkRowContent "ratingStar" "hover:border-indigo-500/30" "Rating Stars: "
        (string_repeat star 4)]%string.
Proof. by_compute. Qed.

Lemma renderPreview_negative :
  renderPreview (formatValue digits_of (λ _, None)) initialDraggables
    negative_book default_state (λ _, initialRow) = Throw RangeError.
Proof. by_compute. Qed.

Lemma row_run_example :
  row_run [RowMouseEnter; RowDragStart; RowMouseOver true; RowDragEnd;
           RowMouseEnter] initialRow = mkRowState true false.
Proof. by_compute. Qed.

Lemma renderPreview_spec_witness :
  renderPreview (formatValue digits_of (λ _, None)) initialDraggables
    negative_book default_state (λ _, initialRow) = Throw RangeError.
Proof.
  apply (proj2 (renderPreview_spec digits_of (λ _, None) initialDraggables
                  negative_book default_state (λ _, initialRow)));
    by_compute.
Defined.
