(* ===== verification/Layout.v ===== *)
(** * The bubble layout of the edit mode

    Models the effect [updatePositions] of [EditMode]
    ([src/src/components/EditMode/index.tsx]), which places the bubbles of
    the fields that are not active on a circle around the preview, and the
    [position] prop each bubble receives.

    The source computes [x = cos(angle) * radius] and
    [y = sin(angle) * radius] with
    [angle = visibleIndex * angleStep - PI / 2] and
    [angleStep = 2 * PI / visibleBubbles.length].  The model keeps the three
    numbers that determine the point ([visibleIndex], the number of visible
    bubbles and the radius) and gives the angle exactly, as a rational
    number of turns ([bubble_turns]); sine and cosine are evaluated in
    [Geometry].  [referencePositions] is the layout written directly, as
    the numbering of the visible bubbles; the source's reduction is proved
    equal to it.
    The object [positions] is a finite map from identifiers. *)

From Stdlib Require Import QArith.
From stdpp Require Import gmap.
From S2P Require Import Prelude Fields Assignment.

Local Close Scope Q_scope.
Local Open Scope list_scope.

(** ** Positions *)

(** A point of the circle, by what determines it.  The state cell
    [positions] is a [gmap string BubblePosition]. *)
Record BubblePosition := mkBubblePosition {
  bp_visibleIndex : nat;
  bp_count : nat;
  bp_radius : Z
}.

#[export] Instance BubblePosition_eq_dec : EqDecision BubblePosition.
Proof. solve_decision. Defined.

(** [isMobile ? 120 : 420] *)
Definition layoutRadius (isMobile : bool) : Z := if isMobile then 120 else 420.

(** The callback of [draggables.reduce]: a visible bubble gets its point,
    any other descriptor leaves the accumulator alone. *)
Definition placeBubble (isMobile : bool) (visible : list DraggableInfo)
    (acc : gmap string BubblePosition) (item : DraggableInfo)
    : gmap string BubblePosition :=
  match js_findIndex (λ b, di_id b = di_id item) visible with
  | Some visibleIndex =>
      <[di_id item :=
          mkBubblePosition visibleIndex (length visible)
            (layoutRadius isMobile)]> acc
  | None => acc
  end.

(** [newPositions]: the reduction over all descriptors, from the empty
    object. *)
Definition newPositions (isMobile : bool) (draggables : list DraggableInfo)
    (active : list string) : gmap string BubblePosition :=
  foldl (placeBubble isMobile (visibleBubbles draggables active)) ∅ draggables.

(** The reference layout: the visible bubbles numbered in the order in
    which they are rendered. *)
Definition referencePositions (isMobile : bool)
    (draggables : list DraggableInfo) (active : list string)
    : gmap string BubblePosition :=
  let visible := visibleBubbles draggables active in
  list_to_map
    (imap (λ i d,
             (di_id d,
              mkBubblePosition i (length visible) (layoutRadius isMobile)))
       visible).

(** [updatePositions()]: without a mounted container the cell keeps its
    value, otherwise it is replaced. *)
Definition updatePositions (containerRect : option Rect) (isMobile : bool)
    (draggables : list DraggableInfo) (active : list string)
    (positions : gmap string BubblePosition) : gmap string BubblePosition :=
  match containerRect with
  | None => positions
  | Some _ => newPositions isMobile draggables active
  end.

(** What a bubble is given as [position]: its point, or the centre
    [{ x: 0, y: 0 }] when [positions] has no entry for it. *)
Inductive Place :=
| AtCentre
| OnCircle (p : BubblePosition).

(** [positions[item.id] || { x: 0, y: 0 }] *)
Definition bubblePlace (positions : gmap string BubblePosition)
    (id : string) : Place :=
  match positions !! id with
  | Some p => OnCircle p
  | None => AtCentre
  end.

(** [angleStep = (2 * PI) / visibleBubbles.length], in turns.  For no
    bubble the source computes [Infinity] and never uses it; here the value
    for [0] is that for [1] and is never used either. *)
Definition angleStep (count : nat) : Q := 1 # Pos.of_nat count.

(** [visibleIndex * angleStep - PI / 2], in turns. *)
Definition bubble_turns (p : BubblePosition) : Q :=
  inject_Z (Z.of_nat (bp_visibleIndex p)) * angleStep (bp_count p) - (1 # 4).

(** ** The entries of [newPositions] *)

Section layout.
Context (isMobile : bool) (ds : list DraggableInfo) (active : list string).
Implicit Types (id : string) (p : BubblePosition).
Implicit Types (acc : gmap string BubblePosition).

(** The point of the descriptor [id], if it is visible. *)
Definition pointOf (id : string) : option BubblePosition :=
  (λ i, mkBubblePosition i (length (visibleBubbles ds active))
          (layoutRadius isMobile)) <$>
  js_findIndex (λ b, di_id b = id) (visibleBubbles ds active).

Lemma placeBubble_lookup acc item id :
  placeBubble isMobile (visibleBubbles ds active) acc item !! id =
  if decide (id = di_id item) then
    match pointOf id with Some p => Some p | None => acc !! id end
  else acc !! id.
Proof.
  unfold placeBubble, pointOf.
  case_decide as Hid; [subst id|]; destruct (js_findIndex _ _); try done.
  - by rewrite lookup_insert_eq.
  - by rewrite lookup_insert_ne.
Qed.

Lemma foldl_placeBubble_lookup l acc id :
  foldl (placeBubble isMobile (visibleBubbles ds active)) acc l !! id =
  if decide (id ∈ field_ids l) then
    match pointOf id with Some p => Some p | None => acc !! id end
  else acc !! id.
Proof.
  revert acc. induction l as [|item l IH]; intros acc; [done|].
  simpl foldl. rewrite IH, placeBubble_lookup. unfold field_ids.
  rewrite fmap_cons. destruct (pointOf id); repeat case_decide; try done;
    match goal with
    | H : _ ∉ _ :: _ |- _ => rewrite not_elem_of_cons in H
    | H : _ ∈ _ :: _ |- _ => rewrite elem_of_cons in H
    end; tauto.
Qed.

Lemma pointOf_is_Some id :
  is_Some (pointOf id) ↔ id ∈ field_ids (visibleBubbles ds active).
Proof.
  unfold pointOf. etrans; [apply fmap_is_Some|].
  rewrite <-not_eq_None_Some, js_findIndex_find, not_eq_None_Some.
  symmetry. apply find_draggable_is_Some.
Qed.

Lemma pointOf_visible id :
  is_Some (pointOf id) → id ∈ field_ids ds.
Proof.
  rewrite pointOf_is_Some, elem_of_visible_ids. tauto.
Qed.

(** Each entry of the new object is the point of its descriptor. *)
Lemma newPositions_lookup id :
  newPositions isMobile ds active !! id = pointOf id.
Proof.
  unfold newPositions. rewrite foldl_placeBubble_lookup, lookup_empty.
  case_decide as Hin; [by destruct (pointOf id)|].
  destruct (pointOf id) eqn:Hp; [|done].
  destruct Hin. apply pointOf_visible. by rewrite Hp.
Qed.

Lemma pointOf_Some id p :
  pointOf id = Some p →
  bp_count p = length (visibleBubbles ds active) ∧
  bp_radius p = layoutRadius isMobile ∧
  bp_visibleIndex p < length (visibleBubbles ds active) ∧
  ∃ d, visibleBubbles ds active !! bp_visibleIndex p = Some d ∧ di_id d = id.
Proof.
  unfold pointOf. intros (i & Hi & ->)%fmap_Some. simpl.
  apply js_findIndex_Some in Hi as (d & Hd & Hid & _).
  split_and!; [done..| |by exists d]. by apply lookup_lt_Some in Hd.
Qed.

End layout.

(** ** Counting the visible bubbles *)

Lemma length_visibleBubbles ds active :
  NoDup (field_ids ds) → NoDup active → active ⊆ field_ids ds →
  length (visibleBubbles ds active) + length active = length ds.
Proof.
  intros Hnd Hna Hsub.
  pose proof (visible_partition ds active Hnd Hna Hsub) as Hp.
  apply Permutation_length in Hp. unfold field_ids in Hp.
  rewrite length_app, !length_fmap in Hp. lia.
Qed.

(** ** What the layout guarantees *)

Section guarantees.
Context (isMobile : bool) (ds : list DraggableInfo) (active : list string).
Implicit Types (id : string) (p q : BubblePosition).

(** Once the effect has run with the container mounted, the bubbles
    with a point on the circle are exactly the rendered ones: every field
    that is not active has a point, and no active or unknown field has
    one. *)
Theorem updatePositions_places rect positions id :
  (∃ p, bubblePlace (updatePositions (Some rect) isMobile ds active positions)
          id = OnCircle p) ↔
  id ∈ field_ids ds ∧ id ∉ active.
Proof.
  unfold bubblePlace, updatePositions.
  rewrite newPositions_lookup, <-elem_of_visible_ids,
    <-(pointOf_is_Some isMobile).
  destruct (pointOf isMobile ds active id) as [p|]; split;
    [eauto..|by intros [? [=]]|by intros [? [=]]].
Qed.

(** Numbering a list of descriptors: the number of an identifier is the
    index at which [findIndex] finds it. *)
Lemma list_to_map_imap_lookup {V} (f : nat → V) (l : list DraggableInfo) id :
  (list_to_map (imap (λ i d, (di_id d, f i)) l) : gmap string V) !! id =
  f <$> js_findIndex (λ b, di_id b = id) l.
Proof.
  revert f. induction l as [|d l IH]; intros f; [done|].
  rewrite js_findIndex_cons. simpl. case_decide as Hid.
  - by rewrite Hid, lookup_insert_eq.
  - rewrite lookup_insert_ne by done.
    rewrite <-option_fmap_compose. apply (IH (f ∘ S)).
Qed.

(** C21: the layout the source computes, a reduction over all descriptors
    with a search through the visible bubbles for each of them, is the
    reference layout: the visible bubbles numbered in rendering order,
    each with the number of visible bubbles and the radius of the
    viewport. *)
Theorem newPositions_reference :
  newPositions isMobile ds active = referencePositions isMobile ds active.
Proof.
  apply map_eq. intros id. rewrite newPositions_lookup.
  unfold referencePositions. by rewrite list_to_map_imap_lookup.
Qed.

(** In rendering order the bubbles occupy the slots 0, 1, 2, ... of
    the circle, one each: the angles are evenly spaced and no two bubbles
    share a point. *)
Theorem newPositions_slots :
  NoDup (field_ids ds) →
  (λ d, bp_visibleIndex <$> newPositions isMobile ds active !! di_id d) <$>
    visibleBubbles ds active =
  Some <$> seq 0 (length (visibleBubbles ds active)).
Proof.
  intros Hnd. apply list_eq. intros i.
  rewrite !list_lookup_fmap.
  destruct (visibleBubbles ds active !! i) as [d|] eqn:Hi; simpl.
  - rewrite lookup_seq_lt by (by apply lookup_lt_Some in Hi). simpl.
    rewrite newPositions_lookup. unfold pointOf.
    rewrite (js_findIndex_NoDup di_id _ i d); [done| |done].
    eapply sublist_NoDup; [exact Hnd|].
    apply fmap_sublist, sublist_filter.
  - apply lookup_ge_None in Hi. by rewrite lookup_seq_ge.
Qed.

(** The angle of every point lies within one turn starting at the
    top of the circle, two points of one layout with the same angle are
    the same slot, and the angle steps of all bubbles add up to exactly one
    turn. *)
Theorem bubble_turns_spec id1 id2 p q :
  newPositions isMobile ds active !! id1 = Some p →
  newPositions isMobile ds active !! id2 = Some q →
  (- (1 # 4) <= bubble_turns p)%Q ∧ (bubble_turns p < 3 # 4)%Q ∧
  ((bubble_turns p == bubble_turns q)%Q →
   bp_visibleIndex p = bp_visibleIndex q) ∧
  (inject_Z (Z.of_nat (bp_count p)) * angleStep (bp_count p) == 1)%Q.
Proof.
  rewrite !newPositions_lookup.
  intros (Hc & _ & Hlt & _)%pointOf_Some (Hc' & _ & Hlt' & _)%pointOf_Some.
  unfold bubble_turns, angleStep, Qle, Qlt, Qeq. simpl. rewrite Hc, Hc'.
  pose proof (Zpos_of_nat (length (visibleBubbles ds active))) as Hn.
  specialize (Hn ltac:(lia)).
  rewrite !Pos2Z.inj_mul, !Hn. split_and!; [nia..| |lia]. intros Heq.
  apply Nat2Z.inj. nia.
Qed.

(** Without a bubble to lay out the object stays empty: the angle step is
    not used. *)
Lemma newPositions_empty :
  visibleBubbles ds active = [] → newPositions isMobile ds active = ∅.
Proof.
  intros Hnil. apply map_eq. intros id.
  rewrite newPositions_lookup, lookup_empty. unfold pointOf. by rewrite Hnil.
Qed.

End guarantees.

(** With the fifteen descriptors and a valid configuration at least ten
    bubbles are laid out, so the angle step is a proper fraction of a
    turn, and there are exactly as many bubbles as fields that are not
    active. *)
Theorem visibleBubbles_count active :
  config_ok initialDraggables active →
  length (visibleBubbles initialDraggables active) = 15 - length active ∧
  10 ≤ length (visibleBubbles initialDraggables active).
Proof.
  intros (Hnd & Hlen & Hsub). unfold max_fields in Hlen.
  pose proof (length_visibleBubbles initialDraggables active
                initialDraggables_ids_NoDup Hnd Hsub) as Hsum.
  rewrite initialDraggables_length in Hsum. lia.
Qed.

(** ** Worked examples *)

Lemma newPositions_default :
  bubblePlace (newPositions false initialDraggables defaultFields)
    <$> ["numberOfReviews"; "topicTags"; "author"]%string =
  [OnCircle (mkBubblePosition 0 10 420); OnCircle (mkBubblePosition 9 10 420);
   AtCentre].
Proof. by_compute. Qed.

Lemma newPositions_slots_witness :
  (λ d, bp_visibleIndex <$>
          newPositions true initialDraggables defaultFields !! di_id d) <$>
    visibleBubbles initialDraggables defaultFields =
  Some <$> seq 0 (length (visibleBubbles initialDraggables defaultFields)).
Proof. apply newPositions_slots. apply initialDraggables_ids_NoDup. Defined.

Lemma bubble_turns_spec_witness :
  (- (1 # 4) <= bubble_turns (mkBubblePosition 0 10 420))%Q ∧
  (bubble_turns (mkBubblePosition 0 10 420) < 3 # 4)%Q ∧
  ((bubble_turns (mkBubblePosition 0 10 420) ==
    bubble_turns (mkBubblePosition 9 10 420))%Q → 0 = 9) ∧
  (inject_Z (Z.of_nat 10) * angleStep 10 == 1)%Q.
Proof.
  apply (bubble_turns_spec false initialDraggables defaultFields
           "numberOfReviews" "topicTags"); by_compute.
Defined.

Lemma visibleBubbles_count_witness :
  length (visibleBubbles initialDraggables defaultFields) = 15 - 5 ∧
  10 ≤ length (visibleBubbles initialDraggables defaultFields).
Proof. apply (visibleBubbles_count defaultFields). by_compute. Defined.
