(* ===== verification/Bubble.v ===== *)
(** * A field bubble

    Models the component [DraggableBubble]
    ([src/src/components/EditMode/DraggableBubble.tsx]): its props, and
    what it renders from them: where the bubble starts and where it
    settles, the delays of its entrance, its stacking order, the variant of
    its style, its label, and the formatted value shown beside the label
    while the bubble is dragged.  The component has no state; its two
    handlers are the props [onDragStart] (called with the identifier of the
    item) and [onDragEnd].

    Durations and delays are exact rationals, in seconds, where the source
    has decimal literals.  A position is kept as the [Place] of [Layout]
    with the factor it is multiplied by. *)

From Stdlib Require Import QArith.
From S2P Require Import Prelude Fields Assignment Layout.

Local Close Scope Q_scope.
Local Open Scope list_scope.

(** ** Props *)

(** [interface DraggableBubbleProps], without the three function props;
    [index] is optional. *)
Record BubbleProps := mkBubbleProps {
  bprop_item : DraggableInfo;
  bprop_position : Place;
  bprop_isDragging : bool;
  bprop_showPreview : bool;
  bprop_index : option Z
}.

(** ** What is rendered *)

(** [calc(50% + ${position.x * k}px)] and the same for [y]: the place and
    the factor [k]. *)
Record Anchor := mkAnchor {
  an_factor : Q;
  an_place : Place
}.

(** The rendered bubble. *)
Record BubbleView := mkBubbleView {
  bv_key : string;
  bv_layoutId : string;
  bv_initial : Anchor;
  bv_animate : Anchor;
  bv_delay : Q;
  bv_zIndex : Z;
  bv_scaleDelay : Q;
  bv_opacityDelay : Q;
  bv_filterDelay : Q;
  bv_className : string;
  bv_boxShadow : string;
  bv_label : string;
  bv_preview : option string
}.

(** [index * 0.08] *)
Definition staggerDelay (index : Z) : Q := inject_Z index * (2 # 25).

(** [isDragging ? 100 : 10] *)
Definition bubbleZIndex (isDragging : bool) : Z :=
  if isDragging then 100 else 10.

(** The line break and the indentation inside the template literal of
    [className]. *)
Definition class_break : string :=
  String (Ascii.ascii_of_nat 10) "          ".

(** The [className] of the inner element. *)
Definition bubbleClassName (isMobile isDragging : bool) : string :=
  ("pointer-events-auto cursor-grab active:cursor-grabbing " +:+
   (if isMobile then "px-4 py-2" else "px-6 py-3") +:+
   " rounded-full " +:+ class_break +:+
   "shadow-lg backdrop-blur-sm transition-all " +:+
   (if isDragging
    then "bg-gradient-to-r from-indigo-600/80 to-purple-700/80 scale-110 shadow-2xl opacity-60"
    else "bg-gradient-to-r from-indigo-500 to-purple-600 hover:from-indigo-600 hover:to-purple-700 border border-white/10") +:+
   " text-white font-medium " +:+
   (if isMobile then "text-sm" else ""))%string.

(** [style.boxShadow] of the inner element. *)
Definition bubbleBoxShadow (isDragging : bool) : string :=
  if isDragging
  then "0 20px 40px rgba(0,0,0,0.4), 0 0 40px rgba(99, 102, 241, 0.6)"
  else "0 4px 20px rgba(0,0,0,0.2)".

Section render.
Context (isMobile : bool).
Context (formatValue : string → JsValue → res string).

(** [showPreview && isDragging && <span>{formatValue(...)}</span>] *)
Definition bubblePreview (book : AudioBook) (p : BubbleProps)
    : res (option string) :=
  if bprop_showPreview p && bprop_isDragging p then
    res_map Some
      (formatValue (di_id (bprop_item p))
         (book_get book (di_id (bprop_item p))))
  else Ok None.

(** The render of [DraggableBubble]; [index] defaults to [0]. *)
Definition renderBubble (book : AudioBook) (p : BubbleProps)
    : res BubbleView :=
  let index := default 0%Z (bprop_index p) in
  res_map
    (mkBubbleView (di_id (bprop_item p))
       ("bubble-" +:+ di_id (bprop_item p))
       (mkAnchor (1 # 10) (bprop_position p))
       (mkAnchor 1 (bprop_position p))
       (staggerDelay index)
       (bubbleZIndex (bprop_isDragging p))
       (staggerDelay index)
       (staggerDelay index + (1 # 10))%Q
       (staggerDelay index)
       (bubbleClassName isMobile (bprop_isDragging p))
       (bubbleBoxShadow (bprop_isDragging p))
       (di_label (bprop_item p)))
    (bubblePreview book p).

End render.

(** ** The entrance *)

Section entrance.
Implicit Types (i j : Z).

Lemma staggerDelay_lt i j : (i < j)%Z → (staggerDelay i < staggerDelay j)%Q.
Proof.
  intros Hij. unfold staggerDelay, Qlt. simpl. lia.
Qed.

Lemma staggerDelay_inj i j : (staggerDelay i == staggerDelay j)%Q → i = j.
Proof.
  unfold staggerDelay, Qeq. simpl. lia.
Qed.

Lemma staggerDelay_nonneg i : (0 ≤ i)%Z → (0 <= staggerDelay i)%Q.
Proof.
  intros Hi. unfold staggerDelay, Qle. simpl. lia.
Qed.

(** A bubble starts to fade in after the bubble that follows it has
    started to grow: a step of the stagger is shorter than the extra delay
    of the opacity. *)
Lemma opacity_after_next_scale i :
  (staggerDelay (i + 1) < staggerDelay i + (1 # 10))%Q.
Proof.
  unfold staggerDelay, Qlt, Qplus. simpl. lia.
Qed.

End entrance.

(** ** The render *)

Section render_lemmas.
Context (isMobile : bool).
Context (formatValue : string → JsValue → res string).
Context (book : AudioBook).
Implicit Types (p : BubbleProps) (v : BubbleView).

Lemma bubblePreview_hidden p :
  bprop_showPreview p && bprop_isDragging p = false →
  bubblePreview formatValue book p = Ok None.
Proof. unfold bubblePreview. by intros ->. Qed.

Lemma bubblePreview_shown p :
  bprop_showPreview p && bprop_isDragging p = true →
  bubblePreview formatValue book p =
  res_map Some
    (formatValue (di_id (bprop_item p)) (book_get book (di_id (bprop_item p)))).
Proof. unfold bubblePreview. by intros ->. Qed.

(** A bubble that is not being dragged renders whatever the formatter
    does. *)
Lemma renderBubble_idle p :
  bprop_isDragging p = false →
  ∃ v, renderBubble isMobile formatValue book p = Ok v ∧
       bv_preview v = None ∧ bv_zIndex v = 10%Z.
Proof.
  intros Hd. unfold renderBubble.
  rewrite bubblePreview_hidden by (rewrite Hd; apply andb_false_r).
  rewrite Hd. by eexists.
Qed.

Lemma renderBubble_Ok p v :
  renderBubble isMobile formatValue book p = Ok v →
  bv_key v = di_id (bprop_item p) ∧
  bv_label v = di_label (bprop_item p) ∧
  bv_delay v = staggerDelay (default 0%Z (bprop_index p)) ∧
  bv_zIndex v = bubbleZIndex (bprop_isDragging p) ∧
  bv_className v = bubbleClassName isMobile (bprop_isDragging p) ∧
  an_place (bv_animate v) = bprop_position p ∧
  bubblePreview formatValue book p = Ok (bv_preview v).
Proof.
  unfold renderBubble, res_map.
  destruct (bubblePreview _ _ _) as [o|e]; [|done]. by intros [= <-].
Qed.

(** A bubble enters from a tenth of its position and settles there. *)
Lemma renderBubble_anchors p v :
  renderBubble isMobile formatValue book p = Ok v →
  bv_initial v = mkAnchor (1 # 10) (bprop_position p) ∧
  bv_animate v = mkAnchor 1 (bprop_position p).
Proof.
  unfold renderBubble, res_map.
  destruct (bubblePreview _ _ _) as [o|e]; [|done]. by intros [= <-].
Qed.

Lemma renderBubble_Throw p e :
  renderBubble isMobile formatValue book p = Throw e ↔
  bprop_showPreview p && bprop_isDragging p = true ∧
  formatValue (di_id (bprop_item p)) (book_get book (di_id (bprop_item p))) =
    Throw e.
Proof.
  unfold renderBubble, bubblePreview, res_map.
  destruct (bprop_showPreview p && bprop_isDragging p);
    [destruct (formatValue _ _)|]; (split; [intros [=]|intros [? [=]]]);
    by subst.
Qed.

End render_lemmas.
