(* ===== verification/EditView.v ===== *)
(** * What the edit mode renders

    Models the render of [EditMode]
    ([src/src/components/EditMode/index.tsx], the [return] of the
    component): the preview of a touch drag, the preview container with
    the counter under it, the chips of the mobile layout or the bubbles of
    the desktop layout, and the save button.  The render is a function of
    the props, the state cells and the value of [useIsMobile]; it succeeds
    or throws what the formatter throws.

    The theorems connect the render with the machine of [EditMachine]: in
    every reachable session each descriptor is on screen exactly once, as a
    row or as a bubble; the field being dragged is a bubble; and the
    controls on screen are the events the machine offers. *)

From Stdlib Require Import QArith.
From stdpp Require Import gmap pretty.
From S2P Require Import Prelude Fields Assignment Preview EditMachine.
From S2P Require Import Format Row Layout Bubble.

Local Close Scope Q_scope.
Local Open Scope list_scope.
Local Open Scope js_scope.

(** ** The preview of a touch drag *)

(** The element that follows the finger: its [left] and [top], and the
    label of the dragged descriptor ([undefined] when there is none). *)
Record TouchPreview := mkTouchPreview {
  tp_left : Z;
  tp_top : Z;
  tp_label : option string
}.

(** [isDraggingTouch && touchDragPosition && draggedItem && <motion.div>] *)
Definition touchPreview (draggables : list DraggableInfo) (s : EditState)
    : option TouchPreview :=
  if isDraggingTouch s then
    match touchDragPosition s, draggedItem s with
    | Some pos, Some item =>
        if js_truthy_string item then
          Some (mkTouchPreview (pos_x pos - 40) (pos_y pos - 20)
                  (di_label <$> find_draggable draggables item))
        else None
    | _, _ => None
    end
  else None.

(** ** The counter *)

(** [{activeContainer.length}/5 selected] *)
Definition counterText (s : EditState) : string :=
  pretty (length (activeContainer s)) +:+ "/5 selected".

(** ** The mobile layout *)

(** A chip of the mobile list: its key, the delay of its entrance, its
    [className] and its label. *)
Record ChipView := mkChipView {
  chip_key : string;
  chip_delay : Q;
  chip_className : string;
  chip_label : string
}.

(** The line break and the indentation inside the template literal of a
    chip's [className]. *)
Definition chip_break : string :=
  String (Ascii.ascii_of_nat 10) "                            ".

(** The [className] of a chip. *)
Definition chipClassName (dragging : bool) : string :=
  ("px-3 py-1.5 rounded-full cursor-grab active:cursor-grabbing touch-none" +:+
   chip_break +:+
   (if dragging
    then "bg-gradient-to-r from-indigo-600/80 to-purple-700/80 scale-110 shadow-2xl opacity-60"
    else "bg-gradient-to-r from-indigo-500 to-purple-600 hover:from-indigo-600 hover:to-purple-700 border border-white/10") +:+
   " text-white font-medium text-xs shadow-lg")%string.

(** [draggedItem === item.id] *)
Definition isDragged (s : EditState) (item : DraggableInfo) : bool :=
  bool_decide (draggedItem s = Some (di_id item)).

(** The callback of [.map((item, index) => ...)] in the mobile layout; the
    delay is [index * 0.03]. *)
Definition renderChip (s : EditState) (index : nat) (item : DraggableInfo)
    : ChipView :=
  mkChipView (di_id item) (inject_Z (Z.of_nat index) * (3 # 100))
    (chipClassName (isDragged s item)) (di_label item).

(** The chips, in display order. *)
Definition mobileChips (draggables : list DraggableInfo) (s : EditState)
    : list ChipView :=
  imap (renderChip s) (visibleBubbles draggables (activeContainer s)).

(** ** The desktop layout *)

(** [draggables.findIndex(d => d.id === item.id)], [-1] for no match. *)
Definition originalIndex (draggables : list DraggableInfo)
    (item : DraggableInfo) : Z :=
  default (-1)%Z
    (Z.of_nat <$> js_findIndex (λ d, di_id d = di_id item) draggables).

(** The props [EditMode] gives the bubble of [item]. *)
Definition bubbleProps (draggables : list DraggableInfo)
    (positions : gmap string BubblePosition) (s : EditState)
    (item : DraggableInfo) : BubbleProps :=
  mkBubbleProps item (bubblePlace positions (di_id item)) (isDragged s item)
    (showPreview s) (Some (originalIndex draggables item)).

Section render.
Context (isMobile : bool).
Context (formatValue : string → JsValue → res string).
Context (draggables : list DraggableInfo) (book : AudioBook).

(** The bubbles, in display order. *)
Definition desktopBubbles (positions : gmap string BubblePosition)
    (s : EditState) : res (list BubbleView) :=
  js_map_res
    (λ item,
       renderBubble isMobile formatValue book
         (bubbleProps draggables positions s item))
    (visibleBubbles draggables (activeContainer s)).

End render.

(** ** The save button *)

(** The three contents of the button. *)
Inductive SaveLabel :=
| LabelSaved
| LabelSaving
| LabelSave.

#[export] Instance SaveLabel_eq_dec : EqDecision SaveLabel.
Proof. solve_decision. Defined.

(** The button: the attribute [disabled], the [className], whether the
    hover and tap animations are installed, whether the scale pulses, and
    the content. *)
Record SaveButton := mkSaveButton {
  sb_disabled : bool;
  sb_className : string;
  sb_interactive : bool;
  sb_pulse : bool;
  sb_label : SaveLabel
}.

(** The [className] of the button. *)
Definition saveClassName (isMobile : bool) (s : EditState) : string :=
  ((if isMobile then "fixed bottom-52 right-4 px-5 py-2.5"
    else "absolute bottom-8 right-8 px-7 py-3.5") +:+
   " text-white rounded-lg transition-all z-50 shadow-lg hover:shadow-xl font-medium tracking-wide " +:+
   (if showSuccess s then "bg-gradient-to-r from-green-500 to-green-600"
    else "bg-gradient-to-r from-indigo-500 to-purple-600 hover:from-indigo-600 hover:to-purple-700") +:+
   " " +:+
   (if isSaving s then "cursor-not-allowed" else "cursor-pointer"))%string.

(** [showSuccess ? Saved! : isSaving ? Saving... : Save Configuration] *)
Definition saveLabel (s : EditState) : SaveLabel :=
  if showSuccess s then LabelSaved
  else if isSaving s then LabelSaving
  else LabelSave.

(** The render of the button. *)
Definition renderSaveButton (isMobile : bool) (s : EditState) : SaveButton :=
  mkSaveButton (isSaving s) (saveClassName isMobile s) (negb (isSaving s))
    (showSuccess s) (saveLabel s).

(** ** The whole overlay *)

(** What [EditMode] renders. *)
Record EditView := mkEditView {
  ev_touchPreview : option TouchPreview;
  ev_frameClass : string;
  ev_container : ContainerView;
  ev_counter : string;
  ev_chips : option (list ChipView);
  ev_bubbles : option (list BubbleView);
  ev_save : SaveButton
}.

(** The [className] of the element around the preview container. *)
Definition frameClass (isMobile : bool) : string :=
  ("absolute " +:+
   (if isMobile then "inset-x-0 top-16 bottom-48" else "inset-0") +:+
   " flex items-center justify-center px-4")%string.

Section overlay.
Context (isMobile : bool).
Context (formatValue : string → JsValue → res string).
Context (draggables : list DraggableInfo) (book : AudioBook).

(** The render of [EditMode] with the renders of the components it
    mounts. *)
Definition renderEditMode (positions : gmap string BubblePosition)
    (states : string → RowState) (s : EditState) : res EditView :=
  ' container ← renderContainer formatValue draggables book s states;
  ' bubbles ←
      (if negb isMobile
       then res_map Some
              (desktopBubbles isMobile formatValue draggables book positions s)
       else Ok None);
  Ok (mkEditView (touchPreview draggables s) (frameClass isMobile) container
        (counterText s)
        (if isMobile then Some (mobileChips draggables s) else None)
        bubbles (renderSaveButton isMobile s)).

End overlay.

(** The keys of the chips and of the bubbles of a view, in display
    order. *)
Definition areaKeys (v : EditView) : list string :=
  match ev_chips v with Some chips => chip_key <$> chips | None => [] end ++
  match ev_bubbles v with Some bubbles => bv_key <$> bubbles | None => [] end.

(** ** What holds in every reachable session *)

(** The field being dragged is a descriptor that is not active, and the
    success mark is shown only while saving. *)
Definition view_ok (draggables : list DraggableInfo) (s : EditState) : Prop :=
  (∀ x, draggedItem s = Some x →
        x ∈ field_ids draggables ∧ x ∉ activeContainer s) ∧
  (showSuccess s = true → isSaving s = true).

Section view_ok.
Context (isMobile : bool) (ds : list DraggableInfo).
Implicit Types (sess : Session) (s : EditState) (ev : EditEvent).

Lemma edit_transition_view_ok sess ev :
  edit_valid isMobile ds sess ev →
  view_ok ds (sess_state sess) →
  view_ok ds (sess_state (edit_transition ev sess)).
Proof.
  intros Hv [Hd Hs]. destruct sess as [s p]. simpl in *.
  split; [intros x|].
  - destruct ev; simpl in *.
    all: handler_cases; try done; try by apply Hd.
    all: try (intros [= <-]; apply elem_of_visible_ids; tauto).
    + intros [? Hx]%Hd. split; [done|].
      by intros [_ ?]%list_elem_of_filter.
    + intros [? Hx]%Hd. split; [done|]. by rewrite moveItem_perm.
  - destruct ev; simpl in *; handler_cases; try done; auto.
Qed.

Lemma initEditState_view_ok cfg s : initEditState cfg = Ok s → view_ok ds s.
Proof. by intros (ids & _ & ->)%res_map_Ok. Qed.

(** The two invariants hold in every session reachable from an open edit
    mode. *)
Lemma reachable_view_ok cfg sess0 sess :
  open_session cfg = Ok sess0 →
  rtc (edit_step isMobile ds) sess0 sess →
  view_ok ds (sess_state sess).
Proof.
  intros (s & Hs & ->)%res_map_Ok Hrtc. revert Hrtc.
  apply (rtc_preserve _ (λ sess, view_ok ds (sess_state sess))).
  - intros a b Ha Hab. revert Ha. destruct Hab as [a ev Hv].
    by apply edit_transition_view_ok.
  - by eapply initEditState_view_ok.
Qed.

End view_ok.

(** ** The bubbles and the chips *)

Section bubbles.
Context `{Formatter}.
Context (isMobile : bool) (ds : list DraggableInfo) (book : AudioBook).
Implicit Types (s : EditState) (item d : DraggableInfo).
Implicit Types (positions : gmap string BubblePosition).

Lemma isDragged_true s item :
  isDragged s item = true ↔ draggedItem s = Some (di_id item).
Proof. apply bool_decide_eq_true. Qed.

(** With distinct identifiers the original index of a descriptor is its
    position. *)
Lemma originalIndex_lookup i d :
  NoDup (field_ids ds) → ds !! i = Some d → originalIndex ds d = Z.of_nat i.
Proof.
  intros Hnd Hi. unfold originalIndex.
  by rewrite (js_findIndex_NoDup di_id ds i d).
Qed.

Lemma originalIndex_sorted (P : DraggableInfo → Prop) `{∀ d, Decision (P d)} :
  NoDup (field_ids ds) →
  StronglySorted Z.lt (originalIndex ds <$> filter P ds).
Proof.
  intros Hnd.
  apply (StronglySorted_sublist _ _ (originalIndex ds <$> ds));
    [apply fmap_sublist, sublist_filter|].
  assert (originalIndex ds <$> ds = Z.of_nat <$> seq 0 (length ds)) as ->.
  { apply list_eq. intros i. rewrite !list_lookup_fmap.
    destruct (ds !! i) as [d|] eqn:Hi; simpl.
    - rewrite lookup_seq_lt by (by apply lookup_lt_Some in Hi). simpl.
      f_equal. by apply originalIndex_lookup.
    - apply lookup_ge_None in Hi. by rewrite lookup_seq_ge. }
  eapply StronglySorted_fmap; [|apply StronglySorted_seq].
  intros x y. lia.
Qed.

Lemma desktopBubbles_Ok positions s bubbles :
  desktopBubbles isMobile fmt ds book positions s = Ok bubbles →
  bv_key <$> bubbles = field_ids (visibleBubbles ds (activeContainer s)) ∧
  bv_delay <$> bubbles =
    (λ item, staggerDelay (originalIndex ds item)) <$>
      visibleBubbles ds (activeContainer s) ∧
  bv_zIndex <$> bubbles =
    (λ item, bubbleZIndex (isDragged s item)) <$>
      visibleBubbles ds (activeContainer s) ∧
  bv_className <$> bubbles =
    (λ item, bubbleClassName isMobile (isDragged s item)) <$>
      visibleBubbles ds (activeContainer s).
Proof.
  intros Hb. split_and!.
  all: eapply js_map_res_Ok_fmap; [|exact Hb].
  all: intros item v Hv; by apply renderBubble_Ok in Hv as (?&?&?&?&?&?&?).
Qed.

(** The bubbles throw exactly when the rating is being dragged with the
    preview on and the formatter fails on the rating of the book. *)
Lemma desktopBubbles_Throw positions s e :
  desktopBubbles isMobile fmt ds book positions s = Throw e ↔
  (showPreview s = true ∧ draggedItem s = Some "ratingStar"%string ∧
   "ratingStar"%string ∈ field_ids (visibleBubbles ds (activeContainer s))) ∧
  fmt "ratingStar" (VNum (ratingStar book)) = Throw e.
Proof.
  unfold desktopBubbles. rewrite js_map_res_Throw_iff.
  - setoid_rewrite renderBubble_Throw. setoid_rewrite fmt_book_Throw.
    unfold field_ids. rewrite list_elem_of_fmap. simpl.
    setoid_rewrite andb_true_iff. setoid_rewrite isDragged_true. split.
    + intros (item & ? & [? Hd] & Hid & ?). rewrite Hid in Hd. eauto 10.
    + intros [(? & ? & item & Hid & ?) ?]. exists item.
      rewrite <-Hid. eauto 10.
  - intros ???? _ _ [_ ?%fmt_error]%renderBubble_Throw
      [_ ?%fmt_error]%renderBubble_Throw. congruence.
Qed.

End bubbles.

(** ** The render as a whole *)

Section overlay_lemmas.
Context `{Formatter}.
Context (isMobile : bool) (ds : list DraggableInfo) (book : AudioBook).
Implicit Types (s : EditState) (v : EditView).
Implicit Types (positions : gmap string BubblePosition).
Implicit Types (states : string → RowState).

Lemma mobileChips_keys s :
  chip_key <$> mobileChips ds s =
  field_ids (visibleBubbles ds (activeContainer s)).
Proof.
  unfold mobileChips, field_ids. apply list_eq. intros i.
  rewrite !list_lookup_fmap, list_lookup_imap.
  by destruct (visibleBubbles ds (activeContainer s) !! i).
Qed.

Lemma renderEditMode_Ok positions states s v :
  renderEditMode isMobile fmt ds book positions states s = Ok v →
  rc_key <$> cv_rows (ev_container v) = removable ds s ∧
  cv_placeholder (ev_container v) = renderPlaceholder s ∧
  areaKeys v = field_ids (visibleBubbles ds (activeContainer s)) ∧
  ev_counter v = counterText s ∧
  ev_save v = renderSaveButton isMobile s ∧
  ev_touchPreview v = touchPreview ds s ∧
  (isMobile = true → ev_bubbles v = None ∧ ev_chips v = Some (mobileChips ds s)) ∧
  (isMobile = false →
   ev_chips v = None ∧
   ∃ bubbles,
     ev_bubbles v = Some bubbles ∧
     desktopBubbles isMobile fmt ds book positions s = Ok bubbles).
Proof.
  unfold renderEditMode.
  intros (c & [Hrows Hph]%renderContainer_Ok & Hrest)%res_bind_Ok.
  apply res_bind_Ok in Hrest as (bubbles & Hb & [= <-]).
  unfold areaKeys. simpl. destruct isMobile; simpl in *.
  - injection Hb as <-. simpl. rewrite app_nil_r, mobileChips_keys.
    by split_and!.
  - apply res_map_Ok in Hb as (bs & Hbs & ->). simpl.
    apply desktopBubbles_Ok in Hbs as Hkeys. destruct Hkeys as [-> _].
    split_and!; try done. eauto.
Qed.

End overlay_lemmas.

Section overlay_throws.
Context `{Formatter}.
Context (isMobile : bool) (ds : list DraggableInfo) (book : AudioBook).
Implicit Types (s : EditState) (v : EditView).

(** The render of the edit mode throws exactly when it has to format
    the rating and the formatter fails on the rating of the book; it has
    to format the rating when the rating is a row of the preview, or when
    in the desktop layout the bubble of the rating is being dragged with the
    preview on.  What it throws is the formatter's exception. *)
Lemma renderEditMode_Throw positions states s e :
  renderEditMode isMobile fmt ds book positions states s = Throw e ↔
  ("ratingStar"%string ∈ removable ds s ∨
   isMobile = false ∧ showPreview s = true ∧
   draggedItem s = Some "ratingStar"%string ∧
   "ratingStar"%string ∈ field_ids (visibleBubbles ds (activeContainer s))) ∧
  fmt "ratingStar" (VNum (ratingStar book)) = Throw e.
Proof.
  unfold renderEditMode. rewrite res_bind_Throw, renderContainer_Throw. split.
  - intros [[? ?]|(c & _ & Hb)]; [by eauto|].
    apply res_bind_Throw in Hb as [Hb|(? & _ & [=])].
    destruct isMobile; simpl in Hb; [done|].
    apply res_map_Throw, desktopBubbles_Throw in Hb as [? ?]. by eauto.
  - intros [[Hrow|(-> & Hb)] He]; [by left|].
    destruct (renderContainer fmt ds book s states) as [c|e'] eqn:Hc.
    + right. exists c. split; [done|]. apply res_bind_Throw. left. simpl.
      by apply res_map_Throw, desktopBubbles_Throw.
    + left. by apply renderContainer_Throw in Hc as [? _].
Qed.

End overlay_throws.

(** ** The views of the reachable sessions *)

Section reachable_views.
Context `{Formatter}.
Context (isMobile : bool) (ds : list DraggableInfo) (book : AudioBook).
Context (cfg : option (list (option DraggableInfo))) (sess0 sess : Session).
Context (ids_distinct : NoDup (field_ids ds)).
Context (opened : open_session cfg = Ok sess0).
Context (cfg_ok : config_ok ds (activeContainer (sess_state sess0))).
Context (reached : rtc (edit_step isMobile ds) sess0 sess).
Implicit Types (v : EditView) (x : string).

(** C13: in every reachable session each field descriptor is on screen
    exactly once: the keys of the rows of the preview followed by the keys
    of the chips or bubbles are a permutation of the descriptors'
    identifiers; the rows are the active list in its order, and the
    placeholder is on screen exactly while fewer than five fields are
    active. *)
Theorem view_shows_each_field_once positions states v :
  renderEditMode isMobile fmt ds book positions states (sess_state sess) =
    Ok v →
  rc_key <$> cv_rows (ev_container v) = activeContainer (sess_state sess) ∧
  (rc_key <$> cv_rows (ev_container v)) ++ areaKeys v ≡ₚ field_ids ds ∧
  (is_Some (cv_placeholder (ev_container v)) ↔
   length (cv_rows (ev_container v)) < max_fields).
Proof.
  intros (Hrows & Hph & Hkeys & _)%renderEditMode_Ok.
  destruct (reachable_sess_ok isMobile ds cfg sess0 sess opened cfg_ok reached)
    as ((Hnd & Hlen & Hsub) & _).
  destruct (previewRows_known ds _ Hsub) as [Hids _].
  unfold removable in Hrows. rewrite Hids in Hrows.
  split_and!; [done|rewrite Hrows, Hkeys; by apply visible_partition|].
  rewrite Hph. unfold renderPlaceholder, placeholderSlot.
  rewrite <-(length_fmap rc_key), Hrows, fmap_is_Some.
  case_decide; split; (done || by intros []%is_Some_None || lia).
Qed.

(** In every reachable session the field being dragged is one of the
    bubbles, and it is the only bubble drawn as dragged: of the
    descriptors that are rendered as chips or bubbles, exactly one has the
    identifier stored in [draggedItem]. *)
Theorem reachable_dragged_bubble x :
  draggedItem (sess_state sess) = Some x →
  ∃ d, find_draggable ds x = Some d ∧
       filter (λ item, isDragged (sess_state sess) item = true)
         (visibleBubbles ds (activeContainer (sess_state sess))) = [d].
Proof.
  intros Hx.
  destruct (reachable_view_ok isMobile ds cfg sess0 sess opened reached)
    as [Hd _].
  destruct (Hd x Hx) as [Hin Hout].
  assert (x ∈ field_ids (visibleBubbles ds (activeContainer (sess_state sess))))
    as (d & -> & Hvis)%list_elem_of_fmap by (by apply elem_of_visible_ids).
  exists d. split.
  - apply find_draggable_elem_of; [done|].
    by apply elem_of_visibleBubbles in Hvis as [? _].
  - rewrite <-(filter_eq_NoDup di_id
                 (visibleBubbles ds (activeContainer (sess_state sess))) d);
      [|by apply NoDup_visible_ids|done].
    apply filter_ext_elem_of. intros item _.
    rewrite isDragged_true, Hx. split; congruence.
Qed.

(** In every reachable session the save button is in one of three
    configurations: enabled with the label "Save Configuration", disabled
    with "Saving...", or disabled with "Saved!"; the machine accepts a
    click on it exactly while it is enabled. *)
Theorem save_button_reachable :
  let b := renderSaveButton isMobile (sess_state sess) in
  ((sb_disabled b = false ∧ sb_label b = LabelSave) ∨
   (sb_disabled b = true ∧ sb_label b = LabelSaving) ∨
   (sb_disabled b = true ∧ sb_label b = LabelSaved)) ∧
  (edit_valid isMobile ds sess EvSaveClick ↔ sb_disabled b = false) ∧
  sb_interactive b = negb (sb_disabled b).
Proof.
  destruct (reachable_view_ok isMobile ds cfg sess0 sess opened reached)
    as [_ Hs].
  simpl. unfold saveLabel.
  destruct (showSuccess (sess_state sess)), (isSaving (sess_state sess));
    try (by specialize (Hs eq_refl)); by auto.
Qed.

(** The bubbles of the desktop layout enter in the order of the
    descriptors, each after a delay that depends on its own descriptor
    only: 0.08 s times the position of the descriptor among all
    descriptors.  So the delays along the rendered bubbles are strictly
    increasing, and a bubble keeps its delay when other fields are added
    to or removed from the preview. *)
Theorem bubbles_entrance_order positions bubbles :
  desktopBubbles isMobile fmt ds book positions (sess_state sess) =
    Ok bubbles →
  StronglySorted Qlt (bv_delay <$> bubbles) ∧
  ∀ b, b ∈ bubbles →
    ∃ k d, ds !! k = Some d ∧ di_id d = bv_key b ∧
           bv_delay b = staggerDelay (Z.of_nat k).
Proof.
  intros Hb. split.
  - apply desktopBubbles_Ok in Hb as (_ & -> & _).
    rewrite (list_fmap_compose (originalIndex ds) staggerDelay).
    eapply StronglySorted_fmap; [|by apply originalIndex_sorted].
    apply staggerDelay_lt.
  - intros b Hin. apply js_map_res_Ok in Hb.
    apply list_elem_of_lookup_1 in Hin as [i Hi].
    destruct (Forall2_lookup_r _ _ _ i b Hb Hi) as (item & Hitem & Hv).
    apply renderBubble_Ok in Hv as (Hkey & _ & Hdelay & _).
    apply list_elem_of_lookup_2, elem_of_visibleBubbles in Hitem as [Hitem _].
    apply list_elem_of_lookup_1 in Hitem as [k Hk].
    exists k, item. rewrite Hkey, Hdelay. simpl.
    by rewrite (originalIndex_lookup ds k item).
Qed.

End reachable_views.

(** The chips of the mobile layout are staggered by their position among
    the chips, not among the descriptors: [originalIndex] is computed there
    too, but not used. *)
Lemma mobileChips_delays ds s :
  chip_delay <$> mobileChips ds s =
  (λ i, inject_Z (Z.of_nat i) * (3 # 100))%Q <$>
    seq 0 (length (visibleBubbles ds (activeContainer s))).
Proof.
  unfold mobileChips. apply list_eq. intros i.
  rewrite !list_lookup_fmap, list_lookup_imap.
  destruct (visibleBubbles ds (activeContainer s) !! i) as [d|] eqn:Hi; simpl.
  - by rewrite lookup_seq_lt by (by apply lookup_lt_Some in Hi).
  - apply lookup_ge_None in Hi. by rewrite lookup_seq_ge.
Qed.

(** ** Worked examples *)

(** The formatter of the examples. *)
Definition example_formatter : Formatter := editFormatter digits_of (λ _, None).

(** The author removed and the bubble "Length" picked up. *)
Definition dragging_events : list EditEvent :=
  [EvRemove "author"; EvDragStart "length"].

Definition dragging_session : Session :=
  mkSession
    (set_showPreview true
       (set_draggedItem (Some "length"%string)
          (set_activeContainer
             ["bookTitle"; "bookSubtitle"; "narrator"; "ratingStar"]%string
             default_state)))
    (Some (mkDataTransfer "length" "false")).

Lemma dragging_session_run :
  run_events false initialDraggables dragging_events default_session =
  Some dragging_session.
Proof. by_compute. Qed.

Lemma dragging_session_reached :
  rtc (edit_step false initialDraggables) default_session dragging_session.
Proof. apply run_events_rtc with dragging_events. by_compute. Qed.

(** The edit mode opened on a book with a negative rating throws at its
    first render, and so does the desktop layout when the rating is not
    shown but its bubble is picked up. *)
Lemma renderEditMode_negative :
  renderEditMode false (@fmt example_formatter) initialDraggables
    negative_book ∅ (λ _, initialRow) default_state = Throw RangeError ∧
  renderEditMode false (@fmt example_formatter) initialDraggables
    negative_book ∅ (λ _, initialRow)
    (set_showPreview true
       (set_draggedItem (Some "ratingStar"%string)
          (set_activeContainer ["bookTitle"]%string default_state))) =
    Throw RangeError ∧
  ∃ v, renderEditMode true (@fmt example_formatter) initialDraggables
         negative_book ∅ (λ _, initialRow)
         (set_showPreview true
            (set_draggedItem (Some "ratingStar"%string)
               (set_activeContainer ["bookTitle"]%string default_state))) =
       Ok v.
Proof. split_and!; [by_compute..|]. eexists. by_compute. Qed.

(** A touch that is followed by the end of a mouse drag leaves the touch
    flags set: the later touch end returns early, and when a mouse drag
    then starts, the preview of a touch drag is on screen at the place
    of the old touch. *)
Definition stale_touch_events : list EditEvent :=
  [EvTouchStart "discount" (mkPosition 100 200); EvDragEnd;
   EvTouchEnd "discount" true; EvDragStart "length"].

Lemma stale_touch_preview :
  (λ sess, touchPreview initialDraggables (sess_state sess)) <$>
    run_events true initialDraggables stale_touch_events default_session =
  Some (Some (mkTouchPreview 60 180 (Some "Length"%string))).
Proof. by_compute. Qed.

Lemma view_shows_each_field_once_witness :
  ∃ v,
    renderEditMode false (@fmt example_formatter) initialDraggables
      (example_book "A") ∅ (λ _, initialRow) (sess_state dragging_session) =
      Ok v ∧
    rc_key <$> cv_rows (ev_container v) =
      activeContainer (sess_state dragging_session) ∧
    (rc_key <$> cv_rows (ev_container v)) ++ areaKeys v ≡ₚ
      field_ids initialDraggables ∧
    (is_Some (cv_placeholder (ev_container v)) ↔
     length (cv_rows (ev_container v)) < max_fields).
Proof.
  eexists. split; [by_compute|].
  apply (view_shows_each_field_once (H := example_formatter) false
           initialDraggables (example_book "A") None default_session
           dragging_session initialDraggables_ids_NoDup eq_refl
           ltac:(by_compute) dragging_session_reached ∅ (λ _, initialRow)).
  by_compute.
Defined.

Lemma reachable_dragged_bubble_witness :
  ∃ d, find_draggable initialDraggables "length" = Some d ∧
       filter (λ item, isDragged (sess_state dragging_session) item = true)
         (visibleBubbles initialDraggables
            (activeContainer (sess_state dragging_session))) = [d].
Proof.
  apply (reachable_dragged_bubble false initialDraggables None
           default_session dragging_session initialDraggables_ids_NoDup
           eq_refl dragging_session_reached "length"%string).
  reflexivity.
Defined.

Lemma save_button_reachable_witness :
  let b := renderSaveButton false (sess_state dragging_session) in
  ((sb_disabled b = false ∧ sb_label b = LabelSave) ∨
   (sb_disabled b = true ∧ sb_label b = LabelSaving) ∨
   (sb_disabled b = true ∧ sb_label b = LabelSaved)) ∧
  (edit_valid false initialDraggables dragging_session EvSaveClick ↔
   sb_disabled b = false) ∧
  sb_interactive b = negb (sb_disabled b).
Proof.
  apply (save_button_reachable false initialDraggables None default_session
           dragging_session eq_refl dragging_session_reached).
Defined.

Lemma bubbles_entrance_order_witness :
  ∃ bubbles,
    desktopBubbles false (@fmt example_formatter) initialDraggables
      (example_book "A") ∅ (sess_state dragging_session) = Ok bubbles ∧
    StronglySorted Qlt (bv_delay <$> bubbles) ∧
    ∀ b, b ∈ bubbles →
      ∃ k d, initialDraggables !! k = Some d ∧ di_id d = bv_key b ∧
             bv_delay b = staggerDelay (Z.of_nat k).
Proof.
  eexists. split; [by_compute|].
  apply (bubbles_entrance_order (H := example_formatter) false
           initialDraggables (example_book "A") dragging_session
           initialDraggables_ids_NoDup ∅).
  by_compute.
Defined.
