(* ===== verification/Geometry.v ===== *)
(** * The coordinates of the bubbles

    [updatePositions] of [EditMode] ([src/src/components/EditMode/index.tsx])
    gives every visible bubble the point
    [{ x: Math.cos(angle) * radius, y: Math.sin(angle) * radius }] with
    [angle = visibleIndex * angleStep - Math.PI / 2], and
    [DraggableBubble] ([src/src/components/EditMode/DraggableBubble.tsx])
    lets the bubble enter from [position * 0.1] and settle at [position].
    [Layout] keeps what determines a point; this file evaluates it.

    Coordinates are real numbers and [Math.cos], [Math.sin] and [Math.PI]
    are the cosine, the sine and the number pi: the rounding of the
    source's binary floating point arithmetic is not modelled, so an
    equation of this file holds in the source up to that rounding.

    The theorems: every point lies on the circle of the layout's radius
    around the centre of the preview, the first bubble at its top; two
    bubbles of one layout are at different points; the angle is the
    rational number of turns of [Layout]; a bubble enters from the circle
    of a tenth of the radius, on the ray of the point where it settles. *)

From Stdlib Require Import Reals Lra QArith Qreals.
From stdpp Require Import gmap.
From S2P Require Import Prelude Fields Assignment Layout Bubble EditView.

Local Close Scope Q_scope.
Local Open Scope R_scope.

(** ** Points *)

(** [{ x: number; y: number }] *)
Record Point := mkPoint { pt_x : R; pt_y : R }.

(** [(2 * Math.PI) / visibleBubbles.length] *)
Definition angleStepR (count : nat) : R := 2 * PI / INR count.

(** [visibleIndex * angleStep - Math.PI / 2] *)
Definition angle (p : BubblePosition) : R :=
  INR (bp_visibleIndex p) * angleStepR (bp_count p) - PI / 2.

(** [{ x: Math.cos(angle) * radius, y: Math.sin(angle) * radius }] *)
Definition pointOfPosition (p : BubblePosition) : Point :=
  mkPoint (cos (angle p) * IZR (bp_radius p))
    (sin (angle p) * IZR (bp_radius p)).

(** The value of [positions[item.id] || { x: 0, y: 0 }]. *)
Definition placePoint (pl : Place) : Point :=
  match pl with
  | AtCentre => mkPoint 0 0
  | OnCircle p => pointOfPosition p
  end.

(** The offsets of [calc(50% + ${position.x * k}px)] and
    [calc(50% + ${position.y * k}px)]. *)
Definition anchorPoint (a : Anchor) : Point :=
  mkPoint (pt_x (placePoint (an_place a)) * Q2R (an_factor a))
    (pt_y (placePoint (an_place a)) * Q2R (an_factor a)).

(** The square of the distance of a point from the centre. *)
Definition norm2 (pt : Point) : R := Rsqr (pt_x pt) + Rsqr (pt_y pt).

(** ** Trigonometry *)

Section trigonometry.
Implicit Types (a b d r : R).

(** Within less than a full turn only the angle zero has cosine one. *)
Lemma cos_eq_1_turn d : - (2 * PI) < d < 2 * PI → cos d = 1 → d = 0.
Proof.
  pose proof PI_RGT_0 as Hpi. intros Hd Hcos.
  assert (∀ e, 0 <= e <= PI → cos e = 1 → e = 0) as Hhalf.
  { intros e He Hc. apply cos_inj; [done|lra|by rewrite cos_0]. }
  assert (∀ e, 0 <= e < 2 * PI → cos e = 1 → e = 0) as Hpos.
  { intros e He Hc. destruct (Rle_dec e PI) as [Hle|Hgt]; [apply Hhalf; lra|].
    assert (2 * PI - e = 0); [|lra].
    apply Hhalf; [lra|]. by rewrite cos_minus, cos_2PI, sin_2PI, Hc; lra. }
  destruct (Rle_dec 0 d) as [Hle|Hlt]; [apply Hpos; lra|].
  assert (- d = 0); [|lra]. apply Hpos; [lra|]. by rewrite cos_neg.
Qed.

(** Two angles less than a full turn apart with the same cosine and the
    same sine are the same. *)
Lemma angle_inj a b :
  - (2 * PI) < a - b < 2 * PI → cos a = cos b → sin a = sin b → a = b.
Proof.
  intros Hd Hc Hs. assert (a - b = 0); [|lra].
  apply cos_eq_1_turn; [done|].
  rewrite cos_minus, Hc, Hs. pose proof (sin2_cos2 b) as Hsq.
  unfold Rsqr in Hsq. lra.
Qed.

End trigonometry.

(** ** The points of a layout *)

Section points.
Implicit Types (p q : BubblePosition).

(** Every point is at the distance [radius] from the centre. *)
Lemma pointOfPosition_norm2 p :
  norm2 (pointOfPosition p) = Rsqr (IZR (bp_radius p)).
Proof.
  unfold norm2. simpl. rewrite !Rsqr_mult, <-Rmult_plus_distr_r.
  rewrite Rplus_comm, sin2_cos2. lra.
Qed.

(** The first slot is at the top of the circle. *)
Lemma pointOfPosition_first p :
  bp_visibleIndex p = 0%nat →
  pointOfPosition p = mkPoint 0 (- IZR (bp_radius p)).
Proof.
  intros Hi. unfold pointOfPosition, angle. rewrite Hi. simpl.
  replace (0 * angleStepR (bp_count p) - PI / 2) with (- (PI / 2)) by lra.
  rewrite cos_neg, sin_neg, cos_PI2, sin_PI2. f_equal; lra.
Qed.

(** The angle in radians is the number of turns of [Layout]. *)
Lemma angle_turns p :
  (0 < bp_count p)%nat → angle p = 2 * PI * Q2R (bubble_turns p).
Proof.
  intros Hn. unfold angle, angleStepR, bubble_turns, angleStep.
  rewrite Q2R_minus, Q2R_mult. unfold Q2R. simpl.
  rewrite Zpos_of_nat, <-!INR_IZR_INZ by done.
  assert (INR (bp_count p) ≠ 0) by (apply not_0_INR; lia).
  field. done.
Qed.

(** The angles of two slots of one layout are less than a turn apart. *)
Lemma angle_diff p q :
  bp_count p = bp_count q →
  (bp_visibleIndex p < bp_count p)%nat → (bp_visibleIndex q < bp_count q)%nat →
  angle p - angle q =
    (INR (bp_visibleIndex p) - INR (bp_visibleIndex q)) *
    angleStepR (bp_count p) ∧
  - (2 * PI) < angle p - angle q < 2 * PI.
Proof.
  intros Hc Hp Hq. rewrite <-Hc in Hq. unfold angle. rewrite <-Hc.
  split; [lra|]. unfold angleStepR.
  pose proof PI_RGT_0 as Hpi.
  assert (0 < INR (bp_count p)) as Hn by (apply lt_0_INR; lia).
  apply lt_INR in Hp, Hq.
  pose proof (pos_INR (bp_visibleIndex p)).
  pose proof (pos_INR (bp_visibleIndex q)).
  replace (INR (bp_visibleIndex p) * (2 * PI / INR (bp_count p)) - PI / 2 -
           (INR (bp_visibleIndex q) * (2 * PI / INR (bp_count p)) - PI / 2))
    with ((INR (bp_visibleIndex p) - INR (bp_visibleIndex q)) /
          INR (bp_count p) * (2 * PI)) by (field; lra).
  assert (-1 < (INR (bp_visibleIndex p) - INR (bp_visibleIndex q)) /
               INR (bp_count p) < 1) as [? ?].
  { split.
    - apply Rmult_lt_reg_r with (INR (bp_count p)); [done|].
      unfold Rdiv. rewrite Rmult_assoc, Rinv_l by lra. lra.
    - apply Rmult_lt_reg_r with (INR (bp_count p)); [done|].
      unfold Rdiv. rewrite Rmult_assoc, Rinv_l by lra. lra. }
  split; nra.
Qed.

(** Two slots of one layout with the same point are the same slot. *)
Lemma pointOfPosition_inj p q :
  bp_count p = bp_count q → bp_radius p = bp_radius q → bp_radius p ≠ 0%Z →
  (bp_visibleIndex p < bp_count p)%nat → (bp_visibleIndex q < bp_count q)%nat →
  pointOfPosition p = pointOfPosition q →
  bp_visibleIndex p = bp_visibleIndex q.
Proof.
  intros Hc Hr Hr0 Hp Hq [= Hx Hy]. rewrite <-Hr in Hx, Hy.
  assert (IZR (bp_radius p) ≠ 0) as Hr1 by (by apply not_0_IZR).
  apply Rmult_eq_reg_r in Hx, Hy; [|done..].
  destruct (angle_diff p q Hc Hp Hq) as [Hd Hlt].
  pose proof (angle_inj _ _ Hlt Hx Hy) as Heq.
  assert (0 < INR (bp_count p)) as Hn by (apply lt_0_INR; lia).
  pose proof PI_RGT_0 as Hpi.
  assert ((INR (bp_visibleIndex p) - INR (bp_visibleIndex q)) *
          angleStepR (bp_count p) = 0) as Hz by lra.
  apply Rmult_integral in Hz as [Hz|Hz].
  - apply INR_eq. lra.
  - unfold angleStepR in Hz. exfalso.
    assert (0 < 2 * PI / INR (bp_count p)); [|lra].
    apply Rdiv_lt_0_compat; lra.
Qed.

End points.

(** ** The points of the bubbles on screen *)

Section layout_points.
Context (isMobile : bool) (ds : list DraggableInfo) (active : list string).
Implicit Types (id : string) (p q : BubblePosition).

(** The coordinates of a point of the circle are within the radius. *)
Lemma pointOfPosition_bounded p :
  (0 <= bp_radius p)%Z →
  - IZR (bp_radius p) <= pt_x (pointOfPosition p) <= IZR (bp_radius p) ∧
  - IZR (bp_radius p) <= pt_y (pointOfPosition p) <= IZR (bp_radius p).
Proof.
  intros Hr%IZR_le. simpl.
  pose proof (COS_bound (angle p)). pose proof (SIN_bound (angle p)).
  split; split; nra.
Qed.

Lemma layoutRadius_pos : (0 < layoutRadius isMobile)%Z.
Proof. by destruct isMobile. Qed.

(** C37: the bubbles of a layout lie on the circle of the layout's radius
    (120 px on a narrow viewport, 420 px on a wide one) around the centre
    of the preview, so neither coordinate exceeds the radius, and no two
    bubbles are at the same point. *)
Theorem bubbles_on_circle id1 id2 p q :
  newPositions isMobile ds active !! id1 = Some p →
  newPositions isMobile ds active !! id2 = Some q →
  norm2 (pointOfPosition p) = Rsqr (IZR (layoutRadius isMobile)) ∧
  (- IZR (layoutRadius isMobile) <= pt_x (pointOfPosition p)
     <= IZR (layoutRadius isMobile)) ∧
  (- IZR (layoutRadius isMobile) <= pt_y (pointOfPosition p)
     <= IZR (layoutRadius isMobile)) ∧
  (pointOfPosition p = pointOfPosition q → id1 = id2).
Proof.
  rewrite !newPositions_lookup.
  intros (Hc & Hr & Hlt & d & Hd & <-)%pointOf_Some
         (Hc' & Hr' & Hlt' & d' & Hd' & <-)%pointOf_Some.
  pose proof layoutRadius_pos as Hpos.
  rewrite pointOfPosition_norm2, <-Hr.
  split_and!; [done|apply pointOfPosition_bounded; lia..|].
  intros Heq. apply pointOfPosition_inj in Heq; [|lia..].
  rewrite Heq in Hd. congruence.
Qed.

End layout_points.

(** ** The entrance of a bubble *)

Section entrance.
Context `{Formatter}.
Context (isMobile : bool) (ds : list DraggableInfo) (book : AudioBook).
Implicit Types (s : EditState) (b : BubbleView).

Lemma anchorPoint_scale (k : Q) (pl : Place) :
  norm2 (anchorPoint (mkAnchor k pl)) = Rsqr (Q2R k) * norm2 (placePoint pl).
Proof. unfold norm2, anchorPoint. simpl. rewrite !Rsqr_mult. lra. Qed.

(** Once the layout is up to date, every bubble on screen settles on
    the circle of the layout's radius and enters from the circle of a
    tenth of that radius, on the ray from the centre to the point where it
    settles. *)
Theorem bubble_entrance s bubbles b :
  desktopBubbles isMobile fmt ds book
    (newPositions isMobile ds (activeContainer s)) s = Ok bubbles →
  b ∈ bubbles →
  norm2 (anchorPoint (bv_animate b)) = Rsqr (IZR (layoutRadius isMobile)) ∧
  norm2 (anchorPoint (bv_initial b)) =
    Rsqr (IZR (layoutRadius isMobile) / 10) ∧
  pt_x (anchorPoint (bv_initial b)) = pt_x (anchorPoint (bv_animate b)) / 10 ∧
  pt_y (anchorPoint (bv_initial b)) = pt_y (anchorPoint (bv_animate b)) / 10.
Proof.
  intros Hb Hin. apply js_map_res_Ok in Hb.
  apply list_elem_of_lookup_1 in Hin as [i Hi].
  destruct (Forall2_lookup_r _ _ _ i b Hb Hi) as (item & Hitem & Hv).
  apply renderBubble_anchors in Hv as [-> ->].
  apply list_elem_of_lookup_2, list_elem_of_fmap_2 with (f := di_id) in Hitem.
  apply (pointOf_is_Some isMobile) in Hitem as [p Hp].
  rewrite !anchorPoint_scale. unfold anchorPoint. simpl.
  unfold bubblePlace. rewrite newPositions_lookup, Hp. simpl.
  apply pointOf_Some in Hp as (_ & Hr & _).
  rewrite pointOfPosition_norm2, Hr. unfold Q2R, Rsqr, Rdiv. simpl.
  split_and!; lra.
Qed.

End entrance.

(** ** Worked examples *)

(** The first bubble of the default layout is at the top of the circle. *)
Lemma first_bubble_top :
  placePoint
    (bubblePlace (newPositions false initialDraggables defaultFields)
       "numberOfReviews") = mkPoint 0 (-420).
Proof.
  replace (bubblePlace _ _) with (OnCircle (mkBubblePosition 0 10 420))
    by by_compute.
  exact (pointOfPosition_first (mkBubblePosition 0 10 420) eq_refl).
Qed.

Lemma bubbles_on_circle_witness :
  norm2 (pointOfPosition (mkBubblePosition 0 10 420)) = Rsqr 420 ∧
  (- 420 <= pt_x (pointOfPosition (mkBubblePosition 0 10 420)) <= 420) ∧
  (- 420 <= pt_y (pointOfPosition (mkBubblePosition 0 10 420)) <= 420) ∧
  (pointOfPosition (mkBubblePosition 0 10 420) =
   pointOfPosition (mkBubblePosition 9 10 420) →
   "numberOfReviews"%string = "topicTags"%string).
Proof.
  apply (bubbles_on_circle false initialDraggables defaultFields
           "numberOfReviews" "topicTags"); by_compute.
Defined.

Lemma bubble_entrance_witness :
  ∃ bubbles,
    desktopBubbles false (@fmt example_formatter) initialDraggables
      (example_book "A") (newPositions false initialDraggables defaultFields)
      default_state = Ok bubbles ∧
    ∀ b, b ∈ bubbles →
      norm2 (anchorPoint (bv_animate b)) = Rsqr 420 ∧
      norm2 (anchorPoint (bv_initial b)) = Rsqr (420 / 10) ∧
      pt_x (anchorPoint (bv_initial b)) =
        pt_x (anchorPoint (bv_animate b)) / 10 ∧
      pt_y (anchorPoint (bv_initial b)) =
        pt_y (anchorPoint (bv_animate b)) / 10.
Proof.
  eexists. split; [by_compute|]. intros b Hb.
  eapply (bubble_entrance (H := example_formatter) false initialDraggables
            (example_book "A") default_state); [by_compute|exact Hb].
Defined.
