(* ===== verification/Slides.v ===== *)
(** * What the carousel renders

    Models the render of [Carousel] ([src/src/components/Carousel.tsx], the
    [return] of the component), of [BookCoverSkeleton]
    ([src/src/components/BookCoverSkeleton.tsx]) and of [App]
    ([src/src/App.tsx]): the slide of every book of the window with the
    targets of its animation, the placeholder of a cover that has not
    loaded, the rows of the centre card, and the props of the edit mode
    while it is open.

    Scale, opacity and blur are exact rationals where the source has
    decimal literals; horizontal offsets and rotations are integers.  A
    position of the window whose index misses the book list is the slide
    [SlideMissing]: the source renders an object without book properties
    there, which the model does not detail; under the invariant of the
    index it does not occur. *)

From Stdlib Require Import QArith.
From stdpp Require Import gmap.
From S2P Require Import Prelude Fields Swipe Carousel CenterCard Format.

Local Close Scope Q_scope.
Local Open Scope list_scope.
Local Open Scope Z_scope.

(** ** The placeholder of a cover *)

(** What [BookCoverSkeleton] renders: the class of the frame and the sweep
    of the highlight, from [sk_from] to [sk_to] percent of the width in
    [sk_duration] seconds, repeated for ever when [sk_forever]. *)
Record SkeletonView := mkSkeletonView {
  sk_className : string;
  sk_from : Z;
  sk_to : Z;
  sk_duration : Q;
  sk_forever : bool
}.

(** [BookCoverSkeleton()] *)
Definition BookCoverSkeleton : SkeletonView :=
  mkSkeletonView "w-full h-[600px] bg-gray-800 rounded-lg overflow-hidden relative"
    (-100) 100 (3 # 2) true.

(** ** The animation of a slide *)

(** The numeric targets of [initial], [animate] and [exit]. *)
Record Motion := mkMotion {
  mo_scale : Q;
  mo_opacity : Q;
  mo_x : Z;
  mo_rotateY : Z;
  mo_zIndex : Z
}.

(** [offset === 0] *)
Definition isCenter (offset : Z) : bool := bool_decide (offset = 0).

(** [isCenter ? 1 : 0.85 - Math.abs(offset) * 0.08] *)
Definition slideScale (offset : Z) : Q :=
  if isCenter offset then 1
  else ((17 # 20) - inject_Z (Z.abs offset) * (2 # 25))%Q.

(** [isCenter ? 1 : 0.7 - Math.abs(offset) * 0.15] *)
Definition slideOpacity (offset : Z) : Q :=
  if isCenter offset then 1
  else ((7 # 10) - inject_Z (Z.abs offset) * (3 # 20))%Q.

(** [offset * (isMobile ? 180 : 280)] *)
Definition slideX (isMobile : bool) (offset : Z) : Z :=
  offset * (if isMobile then 180 else 280).

(** [offset * -12] *)
Definition slideRotateY (offset : Z) : Z := offset * -12.

(** [isCenter ? 30 : 20] *)
Definition slideZIndex (offset : Z) : Z := if isCenter offset then 30 else 20.

(** The radius of [filter]: [0] for the centre, else
    [Math.abs(offset) * 1.5], in pixels. *)
Definition slideBlur (offset : Z) : Q :=
  if isCenter offset then 0 else (inject_Z (Z.abs offset) * (3 # 2))%Q.

(** [animate] *)
Definition animateMotion (isMobile : bool) (offset : Z) : Motion :=
  mkMotion (slideScale offset) (slideOpacity offset) (slideX isMobile offset)
    (slideRotateY offset) (slideZIndex offset).

(** [initial], when motion is not reduced: the slide comes in from the
    right when [direction >= 0]. *)
Definition enterMotion (direction offset : Z) : Motion :=
  mkMotion (4 # 5) 0
    (if bool_decide (0 ≤ direction) then 600 else -600)
    (if bool_decide (0 ≤ direction) then 25 else -25)
    (slideZIndex offset).

(** [exit], when motion is not reduced: the slide leaves on the other
    side. *)
Definition exitMotion (direction offset : Z) : Motion :=
  mkMotion (4 # 5) 0
    (if bool_decide (0 ≤ direction) then -600 else 600)
    (if bool_decide (0 ≤ direction) then -25 else 25)
    (slideZIndex offset).

(** ** Slides *)

(** One rendered slide: its key (the title of the book), its offset, its
    [className], the three animations ([None] is [initial={false}] and the
    empty [exit]), whether the transition takes no time, the blur, the
    class of its width, the placeholder if the cover has not loaded, the
    image with its opacity, and the rows under the cover of the centre
    slide. *)
Record SlideView := mkSlideView {
  sl_key : string;
  sl_offset : Z;
  sl_className : string;
  sl_initial : option Motion;
  sl_animate : Motion;
  sl_exit : option Motion;
  sl_instant : bool;
  sl_blur : Q;
  sl_widthClass : string;
  sl_skeleton : option SkeletonView;
  sl_src : string;
  sl_alt : string;
  sl_layoutId : string;
  sl_imageOpacity : Z;
  sl_fields : option (list (@CenterRow CardNode))
}.

(** A position of the window. *)
Inductive Slide :=
| SlideBook (v : SlideView)
| SlideMissing (offset : Z).

Section render.
Context `{BookData}.
Context (numberToString : Q → string).
Context (isMobile prefersReducedMotion : bool).

(** The callback of [visibleBooks.map] for a book of the list. *)
Definition renderSlide (s : CarouselState) (book : AudioBook) (offset : Z)
    : res SlideView :=
  let loaded := bool_decide (bookTitle book ∈ loadedImages s) in
  res_map
    (mkSlideView (bookTitle book) offset
       ("absolute " +:+ (if isCenter offset then "z-30" else "z-20"))
       (if prefersReducedMotion then None
        else Some (enterMotion (direction s) offset))
       (animateMotion isMobile offset)
       (if prefersReducedMotion then None
        else Some (exitMotion (direction s) offset))
       prefersReducedMotion
       (slideBlur offset)
       (if isCenter offset then "w-[90vw] max-w-[400px]"
        else "w-[70vw] max-w-[320px]")
       (if loaded then None else Some BookCoverSkeleton)
       (coverArt book) (bookTitle book) ("image-" +:+ bookTitle book)
       (if loaded then 1 else 0))
    (if isCenter offset
     then res_map Some
            (centerRows (centreFormatter numberToString)
               (activeInfoFields s) book)
     else Ok None).

(** [visibleBooks.map(book => ...)] *)
Definition renderSlides (s : CarouselState) : res (list Slide) :=
  js_map_res
    (λ p : option AudioBook * Z,
       match p.1 with
       | Some book => res_map SlideBook (renderSlide s book p.2)
       | None => Ok (SlideMissing p.2)
       end)
    (visibleBooks isMobile s).

(** The slide at the offset [k] of the window: the body of the callback of
    [visibleBooks.map] on the entry of that offset. *)
Definition slideAt (s : CarouselState) (k : Z) : res Slide :=
  match js_index books (visibleIndex books_length (currentIndex s) k) with
  | Some book => res_map SlideBook (renderSlide s book k)
  | None => Ok (SlideMissing k)
  end.

(** What [Carousel] renders: the class of the Edit button and the size of
    its icon, the slides, and the props of the edit mode while it is
    open. *)
Record CarouselView := mkCarouselView {
  cw_editClass : string;
  cw_editIcon : Z;
  cw_slides : list Slide;
  cw_editMode : option (option AudioBook * list (option DraggableInfo))
}.

(** The [className] of the Edit button. *)
Definition editButtonClass : string :=
  ("flex items-center gap-2 " +:+
   (if isMobile then "px-4 py-2" else "px-5 py-2.5") +:+
   " border border-white/10 bg-transparent hover:bg-white/5 rounded-lg transition-all text-white font-medium tracking-wide backdrop-blur-sm")%string.

(** The render of [Carousel]. *)
Definition renderCarousel (s : CarouselState) : res CarouselView :=
  res_map
    (λ slides,
       mkCarouselView editButtonClass (if isMobile then 16 else 18) slides
         (editModeProps s))
    (renderSlides s).

(** The render of [App]: the class of its frame and the carousel. *)
Definition renderApp (s : CarouselState) : res (string * CarouselView) :=
  res_map (pair "min-h-screen bg-gray-900"%string) (renderCarousel s).

End render.

(** ** Prominence by offset *)

Section prominence.
Implicit Types (a b k : Z).

Lemma isCenter_true k : isCenter k = true ↔ k = 0.
Proof. apply bool_decide_eq_true. Qed.

Lemma isCenter_false k : isCenter k = false ↔ k ≠ 0.
Proof. apply bool_decide_eq_false. Qed.

Lemma slideScale_lt a b :
  Z.abs a < Z.abs b → (slideScale b < slideScale a)%Q.
Proof.
  intros Hab. unfold slideScale, isCenter.
  repeat case_bool_decide; unfold Qlt, Qminus, Qplus, Qopp, Qmult, inject_Z;
    simpl; lia.
Qed.

Lemma slideOpacity_lt a b :
  Z.abs a < Z.abs b → (slideOpacity b < slideOpacity a)%Q.
Proof.
  intros Hab. unfold slideOpacity, isCenter.
  repeat case_bool_decide; unfold Qlt, Qminus, Qplus, Qopp, Qmult, inject_Z;
    simpl; lia.
Qed.

Lemma slideBlur_lt a b : Z.abs a < Z.abs b → (slideBlur a < slideBlur b)%Q.
Proof.
  intros Hab. unfold slideBlur, isCenter.
  repeat case_bool_decide; unfold Qlt, Qmult, inject_Z; simpl; lia.
Qed.

Lemma slideX_lt m a b :
  Z.abs a < Z.abs b → Z.abs (slideX m a) < Z.abs (slideX m b).
Proof. intros Hab. unfold slideX. destruct m; lia. Qed.

Lemma slideX_inj m a b : slideX m a = slideX m b → a = b.
Proof. unfold slideX. destruct m; lia. Qed.

(** Inside the window every slide is visible and none is larger than the
    centre. *)
Lemma window_visible m k :
  k ∈ visibleOffsets m →
  (0 < slideOpacity k)%Q ∧ (slideOpacity k <= 1)%Q ∧
  (0 < slideScale k)%Q ∧ (slideScale k <= 1)%Q.
Proof.
  intros Hk. assert (k ∈ [-2; -1; 0; 1; 2]) as Hk'.
  { destruct m; simpl in Hk; revert Hk; rewrite !elem_of_cons; tauto. }
  clear Hk. revert Hk'. rewrite !elem_of_cons, elem_of_nil.
  intros Hk. destruct_or!; subst; done.
Qed.

End prominence.

(** ** The slides of a state *)

Section slides.
Context `{BookData}.
Context (numberToString : Q → string).
Context (isMobile prefersReducedMotion : bool).
Implicit Types (s : CarouselState) (book : AudioBook) (v : SlideView).
Implicit Types (offset : Z).

Lemma renderSlide_Ok s book offset v :
  renderSlide numberToString isMobile prefersReducedMotion s book offset =
    Ok v →
  sl_key v = bookTitle book ∧ sl_offset v = offset ∧
  sl_animate v = animateMotion isMobile offset ∧
  sl_blur v = slideBlur offset ∧
  sl_skeleton v =
    (if bool_decide (bookTitle book ∈ loadedImages s)
     then None else Some BookCoverSkeleton) ∧
  sl_imageOpacity v =
    (if bool_decide (bookTitle book ∈ loadedImages s) then 1 else 0) ∧
  (if isCenter offset
   then res_map Some
          (centerRows (centreFormatter numberToString)
             (activeInfoFields s) book)
   else Ok None) = Ok (sl_fields v).
Proof.
  unfold renderSlide. intros (fields & Hf & ->)%res_map_Ok. by rewrite Hf.
Qed.

(** A slide throws exactly when it is the centre slide and the stored
    configuration has an [undefined] entry. *)
Lemma renderSlide_Throw s book offset e :
  renderSlide numberToString isMobile prefersReducedMotion s book offset =
    Throw e ↔
  offset = 0 ∧ None ∈ activeInfoFields s ∧ e = TypeError.
Proof.
  unfold renderSlide. rewrite res_map_Throw.
  destruct (isCenter offset) eqn:Hc.
  - apply isCenter_true in Hc. unfold centerRows, renderCenterFields.
    rewrite !res_map_Throw, definedFields_Throw_iff. tauto.
  - apply isCenter_false in Hc. split; [done|tauto].
Qed.

End slides.

(** ** The window *)

Section window.
Context `{BookData}.
Context (numberToString : Q → string).
Context (isMobile prefersReducedMotion : bool).
Implicit Types (s : CarouselState) (book : AudioBook) (v : SlideView).
Implicit Types (k : Z) (slide : Slide).

Lemma renderSlides_slideAt s :
  renderSlides numberToString isMobile prefersReducedMotion s =
  js_map_res (slideAt numberToString isMobile prefersReducedMotion s)
    (visibleOffsets isMobile).
Proof.
  unfold renderSlides, visibleBooks.
  induction (visibleOffsets isMobile) as [|k ks IH]; [done|].
  csimpl. by rewrite IH.
Qed.

Lemma slideAt_Throw s k e :
  index_ok books_length s → k ∈ visibleOffsets isMobile →
  slideAt numberToString isMobile prefersReducedMotion s k = Throw e ↔
  k = 0 ∧ None ∈ activeInfoFields s ∧ e = TypeError.
Proof.
  intros Hi Hk. unfold slideAt.
  destruct (visibleBook_Some isMobile s k Hi Hk) as [book ->].
  rewrite res_map_Throw. apply renderSlide_Throw.
Qed.

(** What the slide at an offset of the window is. *)
Lemma slideAt_Ok s k slide :
  index_ok books_length s → k ∈ visibleOffsets isMobile →
  slideAt numberToString isMobile prefersReducedMotion s k = Ok slide →
  ∃ book v,
    slide = SlideBook v ∧
    js_index books (visibleIndex books_length (currentIndex s) k) =
      Some book ∧
    sl_key v = bookTitle book ∧ sl_offset v = k ∧
    sl_animate v = animateMotion isMobile k ∧
    (is_Some (sl_fields v) ↔ k = 0).
Proof.
  intros Hi Hk. unfold slideAt.
  destruct (visibleBook_Some isMobile s k Hi Hk) as [book ->].
  intros (v & Hv & ->)%res_map_Ok. exists book, v.
  apply renderSlide_Ok in Hv as (? & ? & ? & _ & _ & _ & Hf).
  split_and!; try done.
  rewrite <-isCenter_true. destruct (isCenter k).
  - apply res_map_Ok in Hf as (rows & _ & ->). by split.
  - injection Hf as <-. split; [by intros []%is_Some_None|done].
Qed.

End window.

(** ** What the carousel shows *)

(** C39: the prominence of a slide decreases with its distance from the
    centre: of two offsets the one farther out is smaller, fainter,
    more blurred, farther from the middle, and never stacked above the
    other. *)
Theorem slide_prominence_decreases (m : bool) (a b : Z) :
  Z.abs a < Z.abs b →
  (slideScale b < slideScale a)%Q ∧ (slideOpacity b < slideOpacity a)%Q ∧
  (slideBlur a < slideBlur b)%Q ∧
  Z.abs (slideX m a) < Z.abs (slideX m b) ∧
  slideZIndex b ≤ slideZIndex a.
Proof.
  intros Hab. split_and!.
  - by apply slideScale_lt.
  - by apply slideOpacity_lt.
  - by apply slideBlur_lt.
  - by apply slideX_lt.
  - unfold slideZIndex, isCenter. repeat case_bool_decide; lia.
Qed.

Section carousel_view.
Context `{BookData}.
Context (numberToString : Q → string).
Context (isMobile prefersReducedMotion : bool).
Implicit Types (s : CarouselState) (book : AudioBook) (v : SlideView).

(** C23: while the index designates a book and the stored configuration
    has no [undefined] entry, the carousel renders one slide per offset of
    the window, in the order of the offsets; each slide shows the book at
    its index, keyed by its title, with the animation of its offset; and
    the rows of the fields are under the centre slide and under no
    other. *)
Theorem renderSlides_window s fields :
  index_ok books_length s →
  activeInfoFields s = Some <$> fields →
  ∃ slides,
    renderSlides numberToString isMobile prefersReducedMotion s = Ok slides ∧
    Forall2
      (λ k slide,
         ∃ book v,
           slide = SlideBook v ∧
           js_index books (visibleIndex books_length (currentIndex s) k) =
             Some book ∧
           sl_key v = bookTitle book ∧ sl_offset v = k ∧
           sl_animate v = animateMotion isMobile k ∧
           (is_Some (sl_fields v) ↔ k = 0))
      (visibleOffsets isMobile) slides.
Proof.
  intros Hi Hcfg. rewrite renderSlides_slideAt.
  destruct (js_map_res _ _) as [slides|e] eqn:Hm.
  - exists slides. split; [done|]. apply js_map_res_Ok in Hm.
    apply Forall2_same_length_lookup in Hm as [Hlen Hm].
    apply Forall2_same_length_lookup. split; [done|].
    intros i k slide Hk Hslide.
    eapply slideAt_Ok; [done|by eapply list_elem_of_lookup_2|by eapply Hm].
  - apply js_map_res_Throw in Hm as (k & Hk & Ht).
    apply slideAt_Throw in Ht as (_ & Hnone & _); [|done..].
    rewrite Hcfg in Hnone. by apply list_elem_of_fmap in Hnone as (? & ? & _).
Qed.

(** The render of the carousel throws exactly when the stored
    configuration has an [undefined] entry, and then it throws a
    [TypeError]; the slides beside the centre never throw. *)
Lemma renderCarousel_Throw s e :
  index_ok books_length s →
  renderCarousel numberToString isMobile prefersReducedMotion s = Throw e ↔
  None ∈ activeInfoFields s ∧ e = TypeError.
Proof.
  intros Hi. unfold renderCarousel.
  rewrite res_map_Throw, renderSlides_slideAt, js_map_res_Throw_iff.
  - split.
    + intros (k & Hk & Ht). by apply slideAt_Throw in Ht as (_ & ? & ?).
    + intros [Hnone ->]. exists 0. split; [apply centre_visible|].
      apply slideAt_Throw; [done|apply centre_visible|done].
  - intros k1 k2 e1 e2 Hk1 Hk2 Ht1 Ht2.
    apply slideAt_Throw in Ht1 as (_ & _ & ->); [|done..].
    by apply slideAt_Throw in Ht2 as (_ & _ & ->).
Qed.

Lemma loadedImages_handle n ev s (title : string) :
  title ∈ loadedImages s → title ∈ loadedImages (carousel_handle n ev s).
Proof.
  intros Ht. destruct ev as [| |key|d|t| | |cfg]; simpl; try done.
  - unfold handleKeyPress. by repeat case_decide.
  - by destruct d.
  - set_solver.
Qed.

Lemma loadedImages_run n evs s (title : string) :
  title ∈ loadedImages s → title ∈ loadedImages (carousel_run n evs s).
Proof.
  revert s. induction evs as [|ev evs IH]; intros s Ht; [done|].
  apply IH. by apply loadedImages_handle.
Qed.

(** Once the load event of a cover has been handled, no later render
    shows the placeholder for a book of that title, whatever happens in
    between: the image is shown at full opacity. *)
Theorem skeleton_never_returns n evs1 evs2 s book offset v :
  renderSlide numberToString isMobile prefersReducedMotion
    (carousel_run n (evs1 ++ CeImageLoad (bookTitle book) :: evs2) s)
    book offset = Ok v →
  sl_skeleton v = None ∧ sl_imageOpacity v = 1.
Proof.
  intros (_ & _ & _ & _ & Hsk & Hop & _)%renderSlide_Ok.
  rewrite Hsk, Hop. rewrite bool_decide_eq_true_2; [done|].
  unfold carousel_run. rewrite foldl_app. simpl.
  apply loadedImages_run. set_solver.
Qed.

End carousel_view.

(** ** Worked examples *)

(** After a step forward the slides come in from the right and leave to
    the left; after a step back it is the other way round; before any step
    the direction is [0], which counts as forward. *)
Lemma enter_exit_sides (n : Z) (s : CarouselState) (k : Z) :
  mo_x (enterMotion (direction (nextSlide n s)) k) = 600 ∧
  mo_x (exitMotion (direction (nextSlide n s)) k) = -600 ∧
  mo_x (enterMotion (direction (prevSlide n s)) k) = -600 ∧
  mo_x (exitMotion (direction (prevSlide n s)) k) = 600 ∧
  mo_x (enterMotion (direction initialCarousel) k) = 600.
Proof. done. Qed.

(** The targets of the five offsets of the wide window, in lowest
    terms. *)
Lemma animate_targets_wide :
  (λ k, (Qred (slideScale k), Qred (slideOpacity k), Qred (slideBlur k),
         (slideX false k, slideRotateY k, slideZIndex k))) <$>
    visibleOffsets false =
  [((69 # 100)%Q, (2 # 5)%Q, (3 # 1)%Q, (-560, 24, 20));
   ((77 # 100)%Q, (11 # 20)%Q, (3 # 2)%Q, (-280, 12, 20));
   ((1 # 1)%Q, (1 # 1)%Q, (0 # 1)%Q, (0, 0, 30));
   ((77 # 100)%Q, (11 # 20)%Q, (3 # 2)%Q, (280, -12, 20));
   ((69 # 100)%Q, (2 # 5)%Q, (3 # 1)%Q, (560, -24, 20))].
Proof. by_compute. Qed.

Lemma slide_prominence_decreases_witness :
  (slideScale 2 < slideScale 1)%Q ∧ (slideOpacity 2 < slideOpacity 1)%Q ∧
  (slideBlur 1 < slideBlur 2)%Q ∧
  Z.abs (slideX false 1) < Z.abs (slideX false 2) ∧
  slideZIndex 2 ≤ slideZIndex 1.
Proof. apply (slide_prominence_decreases false 1 2). lia. Defined.

Lemma renderSlides_window_witness :
  ∃ slides,
    renderSlides (H := example_books) digits_of false false initialCarousel =
      Ok slides ∧
    Forall2
      (λ k slide,
         ∃ book v,
           slide = SlideBook v ∧
           js_index (books (BookData := example_books))
             (visibleIndex (books_length (H := example_books))
                (currentIndex initialCarousel) k) = Some book ∧
           sl_key v = bookTitle book ∧ sl_offset v = k ∧
           sl_animate v = animateMotion false k ∧
           (is_Some (sl_fields v) ↔ k = 0))
      (visibleOffsets false) slides.
Proof.
  apply (renderSlides_window (H := example_books) digits_of false false
           initialCarousel initialInfoFields); by_compute.
Defined.

(** A configuration with a hole makes the carousel throw. *)
Lemma renderCarousel_hole :
  renderCarousel (H := example_books) digits_of false false
    (handleSaveConfig [None] initialCarousel) = Throw TypeError.
Proof. by_compute. Qed.

Lemma skeleton_never_returns_witness :
  ∃ v,
    renderSlide digits_of false false
      (carousel_run 6 ([CeNext] ++ CeImageLoad "A" :: [CePrev])
         initialCarousel)
      (example_book "A") 0 = Ok v ∧
    sl_skeleton v = None ∧ sl_imageOpacity v = 1.
Proof.
  eexists. split; [by_compute|].
  apply (skeleton_never_returns digits_of false false 6 [CeNext] [CePrev]
           initialCarousel (example_book "A") 0).
  by_compute.
Defined.
