(* ===== verification/System.v ===== *)
(** * The carousel and its edit mode together

    Composes [Carousel], the edit-mode machine [EditMachine] and the rows of
    [CenterCard] into the whole widget: the carousel mounts [EditMode] with
    the stored configuration as [currentConfig] (the Edit button), the edit
    mode runs its events on its own state, and [handleSaveConfiguration]
    ([src/src/components/EditMode/index.tsx]) hands the result back through
    two delays: 400 ms after the click it builds [config] from the list it
    closed over, and 600 ms later it calls [onSave(config)] and
    [onClose()].

    The delays are pending timers of the system ([Timer]); any pending
    timer may fire next.  Timers are not cancelled when the edit mode is
    unmounted.  A timer remembers which mounted instance set it, since
    [setShowSuccess] only reaches the instance whose handler ran.  A render
    that throws is the result [Throw]: mounting [EditMode]
    ([currentConfig.map(field => field.id)]) and rendering the centre card
    after a save ([field.id]).

    The theorems: the invariant of the reachable states and what follows
    from it (no event throws, the stored configuration renders and is well
    typed, the mounted edit mode is a reachable session of the machine);
    what a save commits and what closing discards; that the timers of a
    save run out; and that every valid configuration can be stored. *)

From stdpp Require Import gmap.
From S2P Require Import Prelude Fields Assignment Preview EditMachine.
From S2P Require Import Swipe Carousel CenterCard.

Local Open Scope list_scope.
Local Open Scope js_scope.

(** ** State and events *)

(** A pending delay of [handleSaveConfiguration]. *)
Inductive Timer :=
| SaveDelay (inst : nat) (captured : list string)
| CloseDelay (config : list (option DraggableInfo)).

(** The carousel, the mounted edit mode (with the number of its instance),
    how many instances have been mounted, and the pending timers. *)
Record System := mkSystem {
  sys_carousel : CarouselState;
  sys_edit : option (nat * Session);
  sys_mounts : nat;
  sys_timers : list Timer
}.

Inductive SysEvent :=
| SysNav (ev : CarouselEvent)
| SysOpen
| SysClose
| SysEdit (ev : EditEvent)
| SysTimer (k : nat).

(** The widget as first rendered. *)
Definition initialSystem : System := mkSystem initialCarousel None 0 [].

(** The events of the carousel that reach it from outside the edit mode.
    The overlay covers the buttons and the swipe area, so while it is open
    only the window's key listener and the image loads remain. *)
Definition nav_valid (overlay : bool) (ev : CarouselEvent) : Prop :=
  match ev with
  | CeNext | CePrev | CeSwipe _ => overlay = false
  | CeKey _ | CeImageLoad _ => True
  | CeEdit | CeClose | CeSave _ => False
  end.

#[export] Instance nav_valid_dec overlay ev : Decision (nav_valid overlay ev).
Proof. destruct ev; simpl; apply _. Defined.

(** The event of the edit machine that a timer delivers, not the user. *)
Definition from_timer (e : EditEvent) : bool :=
  match e with
  | EvSaveDelay => true
  | _ => false
  end.

(** The two events of the edit machine that belong to a save. *)
Definition is_save (e : EditEvent) : bool :=
  match e with
  | EvSaveClick | EvSaveDelay => true
  | _ => false
  end.

(** How often a pending timer still makes a timer fire: the first delay
    fires and sets the second. *)
Definition timer_weight (t : Timer) : nat :=
  match t with
  | SaveDelay _ _ => 2
  | CloseDelay _ => 1
  end.

(** The firings still to come from the timers that are pending. *)
Definition pending (sys : System) : nat :=
  sum_list_with timer_weight (sys_timers sys).

(** Every defined entry of a configuration is a well-typed descriptor. *)
Definition config_typed (config : list (option DraggableInfo)) : Prop :=
  Forall (from_option descriptor_typed True) config.

(** The configuration a second delay carries is well typed. *)
Definition timer_typed (t : Timer) : Prop :=
  match t with
  | SaveDelay _ _ => True
  | CloseDelay config => config_typed config
  end.

(** The stored configuration and the configurations on their way to it
    are well typed. *)
Definition typed_inv (sys : System) : Prop :=
  config_typed (activeInfoFields (sys_carousel sys)) ∧
  Forall timer_typed (sys_timers sys).

Section system.
Context `{BookData} (isMobile : bool) (ds : list DraggableInfo).
Implicit Types (sys : System) (ev : SysEvent) (c : CarouselState).

(** When the widget offers an event. *)
Definition sys_valid (sys : System) (ev : SysEvent) : Prop :=
  match ev with
  | SysNav e => nav_valid (isEditMode (sys_carousel sys)) e
  | SysOpen => isEditMode (sys_carousel sys) = false
  | SysClose => is_Some (sys_edit sys)
  | SysEdit e =>
      match sys_edit sys with
      | Some (_, sess) => edit_valid isMobile ds sess e ∧ from_timer e = false
      | None => False
      end
  | SysTimer k => k < length (sys_timers sys)
  end.

#[export] Instance sys_valid_dec sys ev : Decision (sys_valid sys ev).
Proof.
  destruct ev as [| | |e|]; simpl; try apply _.
  destruct (sys_edit sys) as [[? ?]|]; apply _.
Defined.

(** The timer a click on Save sets: the first delay, with the list the
    handler closed over. *)
Definition timers_of (inst : nat) (sess : Session) (e : EditEvent)
    : list Timer :=
  match e with
  | EvSaveClick => [SaveDelay inst (activeContainer (sess_state sess))]
  | _ => []
  end.

(** [setShowSuccess(true)] reaches the instance that set the timer, if it is
    still the mounted one. *)
Definition showSuccess_on (inst : nat) (edit : option (nat * Session))
    : option (nat * Session) :=
  match edit with
  | Some (i, sess) =>
      if decide (i = inst) then Some (i, edit_transition EvSaveDelay sess)
      else edit
  | None => None
  end.

(** What a timer does when it fires. *)
Definition fire (t : Timer) (rest : list Timer) (sys : System) : res System :=
  match t with
  | SaveDelay inst captured =>
      Ok (mkSystem (sys_carousel sys) (showSuccess_on inst (sys_edit sys))
            (sys_mounts sys) (rest ++ [CloseDelay (saveConfig ds captured)]))
  | CloseDelay config =>
      ' _ ← definedFields config;
      Ok (mkSystem
            (setIsEditMode false (handleSaveConfig config (sys_carousel sys)))
            None (sys_mounts sys) rest)
  end.

(** The effect of an event. *)
Definition sys_transition (ev : SysEvent) (sys : System) : res System :=
  let c := sys_carousel sys in
  match ev with
  | SysNav e =>
      Ok (mkSystem (carousel_handle books_length e c) (sys_edit sys)
            (sys_mounts sys) (sys_timers sys))
  | SysOpen =>
      ' sess ← open_session (Some (activeInfoFields c));
      Ok (mkSystem (setIsEditMode true c) (Some (sys_mounts sys, sess))
            (S (sys_mounts sys)) (sys_timers sys))
  | SysClose =>
      Ok (mkSystem (setIsEditMode false c) None (sys_mounts sys)
            (sys_timers sys))
  | SysEdit e =>
      match sys_edit sys with
      | Some (i, sess) =>
          Ok (mkSystem c (Some (i, edit_transition e sess)) (sys_mounts sys)
                (sys_timers sys ++ timers_of i sess e))
      | None => Ok sys
      end
  | SysTimer k =>
      match sys_timers sys !! k with
      | Some t => fire t (delete k (sys_timers sys)) sys
      | None => Ok sys
      end
  end.

(** One step of the widget that does not throw. *)
Inductive sys_step : System → System → Prop :=
| SysStep sys ev sys' :
    sys_valid sys ev → sys_transition ev sys = Ok sys' → sys_step sys sys'.

(** Running a sequence of events: [None] when one of them is not offered,
    otherwise the state reached or the exception thrown. *)
Fixpoint sys_run (evs : list SysEvent) (sys : System) : option (res System) :=
  match evs with
  | [] => Some (Ok sys)
  | ev :: evs' =>
      if decide (sys_valid sys ev) then
        match sys_transition ev sys with
        | Ok sys' => sys_run evs' sys'
        | Throw e => Some (Throw e)
        end
      else None
  end.

(** ** The invariant *)

(** A stored configuration without [undefined] entry whose identifiers
    satisfy the invariant of the edit mode. *)
Definition config_defined (config : list (option DraggableInfo)) : Prop :=
  ∃ cfg, config = Some <$> cfg ∧ config_ok ds (di_id <$> cfg).

(** A session of the edit machine reached from a mount on a stored
    configuration. *)
Definition edit_reachable (sess : Session) : Prop :=
  ∃ config sess0,
    config_defined config ∧ open_session (Some config) = Ok sess0 ∧
    rtc (edit_step isMobile ds) sess0 sess.

Definition edit_ok (mounts : nat) (edit : option (nat * Session)) : Prop :=
  match edit with
  | Some (i, sess) => edit_reachable sess ∧ i < mounts
  | None => True
  end.

(** A first delay carries a valid list, and the instance that set it, if
    still mounted, shows the saving state; a second delay carries a
    configuration without holes. *)
Definition timer_ok (mounts : nat) (edit : option (nat * Session))
    (t : Timer) : Prop :=
  match t with
  | SaveDelay inst captured =>
      config_ok ds captured ∧ inst < mounts ∧
      ∀ sess, edit = Some (inst, sess) → isSaving (sess_state sess) = true
  | CloseDelay config => config_defined config
  end.

Record sys_inv (sys : System) : Prop := mkSysInv {
  inv_index : index_ok books_length (sys_carousel sys);
  inv_config : config_defined (activeInfoFields (sys_carousel sys));
  inv_overlay :
    isEditMode (sys_carousel sys) = bool_decide (is_Some (sys_edit sys));
  inv_edit : edit_ok (sys_mounts sys) (sys_edit sys);
  inv_timers :
    Forall (timer_ok (sys_mounts sys) (sys_edit sys)) (sys_timers sys)
}.

End system.

(** ** Preservation *)

Section preservation.
Context `{BookData} (isMobile : bool) (ds : list DraggableInfo).
Implicit Types (sys : System) (ev : SysEvent) (sess : Session).
Implicit Types (config : list (option DraggableInfo)).

(** The saving flag is never reset. *)
Lemma isSaving_edit_transition e sess :
  isSaving (sess_state sess) = true →
  isSaving (sess_state (edit_transition e sess)) = true.
Proof. intros Hs. destruct e; simpl; by handler_cases. Qed.

(** The session of an edit mode mounted on a configuration without
    [undefined] entry. *)
Lemma open_session_Some (cfg : list DraggableInfo) :
  open_session (Some (Some <$> cfg)) =
  Ok (mkSession
        (mkEditState (di_id <$> cfg) None None false false false false None
           false) None).
Proof. unfold open_session, initEditState. by rewrite js_map_res_prop_Some. Qed.

Lemma open_session_defined config :
  config_defined ds config →
  ∃ sess, open_session (Some config) = Ok sess ∧
    edit_reachable isMobile ds sess ∧ isSaving (sess_state sess) = false.
Proof.
  intros (cfg & -> & Hok).
  eexists. split; [apply open_session_Some|]. split; [|done].
  exists (Some <$> cfg). eexists.
  split_and!; [by exists cfg|apply open_session_Some|done].
Qed.

(** A reachable session satisfies the invariant of the edit machine. *)
Lemma edit_reachable_sess_ok sess :
  edit_reachable isMobile ds sess → sess_ok ds sess.
Proof.
  intros (config & sess0 & Hc & Hopen & Hrtc).
  eapply rtc_edit_step_sess_ok; [exact Hrtc|].
  destruct Hc as (cfg & -> & Hok).
  rewrite open_session_Some in Hopen. injection Hopen as <-.
  split_and!; [done|apply payload_ok_None|done].
Qed.

Lemma edit_reachable_step e sess :
  edit_reachable isMobile ds sess → edit_valid isMobile ds sess e →
  edit_reachable isMobile ds (edit_transition e sess).
Proof.
  intros (config & sess0 & Hc & Hopen & Hrtc) Hv.
  exists config, sess0. split_and!; [done..|].
  eapply rtc_r; [exact Hrtc|by constructor].
Qed.

Lemma saveConfig_defined_config captured :
  config_ok ds captured → config_defined ds (saveConfig ds captured).
Proof.
  intros Hok. destruct (saveConfig_known ds captured) as (cfg & Hc & Hids).
  { by destruct Hok as (_ & _ & ?). }
  exists cfg. by rewrite Hids.
Qed.

(** The timers stay valid when the mounted instance takes a step, is
    unmounted, or a later instance is mounted. *)
Lemma timer_ok_step mounts i sess e t :
  timer_ok ds mounts (Some (i, sess)) t →
  timer_ok ds mounts (Some (i, edit_transition e sess)) t.
Proof.
  destruct t as [inst captured|config]; [|done].
  intros (Hok & Hlt & Hs). split_and!; [done..|].
  intros sess' [= -> <-]. by apply isSaving_edit_transition, Hs.
Qed.

Lemma timer_ok_unmount mounts edit t :
  timer_ok ds mounts edit t → timer_ok ds mounts None t.
Proof.
  destruct t as [inst captured|config]; [|done].
  by intros (Hok & Hlt & _).
Qed.

Lemma timer_ok_mount mounts sess t :
  timer_ok ds mounts None t → timer_ok ds (S mounts) (Some (mounts, sess)) t.
Proof.
  destruct t as [inst captured|config]; [|done].
  intros (Hok & Hlt & _). split_and!; [done|lia|]. intros sess' [= -> _]. lia.
Qed.

Lemma is_Some_showSuccess_on inst edit :
  is_Some (showSuccess_on inst edit) ↔ is_Some edit.
Proof.
  destruct edit as [[i sess]|]; simpl; [|done].
  case_decide; by rewrite <-!not_eq_None_Some.
Qed.

Lemma edit_ok_showSuccess_on mounts inst captured edit :
  edit_ok isMobile ds mounts edit →
  timer_ok ds mounts edit (SaveDelay inst captured) →
  edit_ok isMobile ds mounts (showSuccess_on inst edit).
Proof.
  destruct edit as [[i sess]|]; simpl; [|done].
  intros [Hr Hlt] (_ & _ & Hs). case_decide as Hi; [subst i|done].
  split; [|done]. apply (edit_reachable_step EvSaveDelay sess); [done|].
  by apply Hs.
Qed.

Lemma timer_ok_showSuccess_on mounts inst edit t :
  timer_ok ds mounts edit t → timer_ok ds mounts (showSuccess_on inst edit) t.
Proof.
  destruct edit as [[i sess]|]; simpl; [|done].
  case_decide; [apply (timer_ok_step _ _ _ EvSaveDelay)|done].
Qed.

(** A timer that fires in a state satisfying the invariant does not throw
    and re-establishes the invariant. *)
Lemma fire_inv t rest sys :
  sys_inv isMobile ds sys →
  timer_ok ds (sys_mounts sys) (sys_edit sys) t →
  Forall (timer_ok ds (sys_mounts sys) (sys_edit sys)) rest →
  ∃ sys', fire ds t rest sys = Ok sys' ∧ sys_inv isMobile ds sys'.
Proof.
  intros [Hi Hc Ho He _] Ht Hrest. destruct t as [inst captured|config]; simpl.
  - eexists. split; [done|]. split; simpl; [done..| | |].
    + rewrite Ho. apply bool_decide_ext. by rewrite is_Some_showSuccess_on.
    + by eapply edit_ok_showSuccess_on.
    + apply Forall_app. split.
      * eapply Forall_impl; [exact Hrest|].
        intros t. apply timer_ok_showSuccess_on.
      * apply Forall_singleton. apply saveConfig_defined_config, Ht.
  - destruct Ht as (cfg & -> & Hok). rewrite definedFields_Some. simpl.
    eexists. split; [done|]. split; simpl; [done|by exists cfg|done..|].
    eapply Forall_impl; [exact Hrest|]. intros t. apply timer_ok_unmount.
Qed.

(** Navigation leaves the overlay flag and the stored configuration alone. *)
Lemma carousel_handle_nav overlay e c :
  nav_valid overlay e →
  isEditMode (carousel_handle books_length e c) = isEditMode c ∧
  activeInfoFields (carousel_handle books_length e c) = activeInfoFields c.
Proof.
  destruct e as [| |key|[]| | | |]; simpl; try done.
  intros _. unfold handleKeyPress. by repeat case_decide.
Qed.

(** Every offered event, in a state satisfying the invariant, runs without
    throwing and re-establishes the invariant. *)
Lemma sys_transition_inv ev sys :
  sys_inv isMobile ds sys → sys_valid isMobile ds sys ev →
  ∃ sys', sys_transition ds ev sys = Ok sys' ∧ sys_inv isMobile ds sys'.
Proof.
  intros Hinv Hv. pose proof Hinv as [Hi Hc Ho He Ht].
  destruct ev as [e| | |e|k]; simpl in *.
  - destruct (carousel_handle_nav _ e (sys_carousel sys) Hv) as [Hm Hf].
    eexists. split; [done|]. split; simpl; rewrite ?Hm, ?Hf; try done.
    apply carousel_handle_index_ok; [apply books_length_pos|done].
  - destruct (open_session_defined _ Hc) as (sess & -> & Hr & _).
    simpl. eexists. split; [done|]. split; simpl; try done.
    + split; [done|lia].
    + rewrite Ho in Hv. apply bool_decide_eq_false in Hv.
      destruct (sys_edit sys) as [?|]; [by destruct Hv|].
      eapply Forall_impl; [exact Ht|]. intros t. apply timer_ok_mount.
  - eexists. split; [done|]. split; simpl; try done.
    eapply Forall_impl; [exact Ht|]. intros t. apply timer_ok_unmount.
  - destruct (sys_edit sys) as [[i sess]|] eqn:Hedit; [|done].
    destruct Hv as [Hv Hnt]. destruct He as [Hr Hlt].
    eexists. split; [done|]. split; simpl; try done.
    + split; [by apply edit_reachable_step|done].
    + apply Forall_app. split.
      * eapply Forall_impl; [exact Ht|]. intros t. apply timer_ok_step.
      * destruct e; simpl; try done. apply Forall_singleton.
        split_and!; [by apply edit_reachable_sess_ok in Hr as [? _]|done|].
        by intros sess' [= <-].
  - destruct (sys_timers sys !! k) as [t|] eqn:Hk.
    2:{ apply lookup_ge_None in Hk. lia. }
    apply fire_inv; [done|by eapply Forall_lookup_1|by apply Forall_delete].
Qed.

End preservation.

(** ** Reachable states *)

Section reachable.
Context `{BookData} (isMobile : bool) (ds : list DraggableInfo).
Context (init_ok : config_ok ds (di_id <$> initialInfoFields)).
Implicit Types (sys : System) (ev : SysEvent) (sess : Session).

Lemma initialSystem_inv : sys_inv isMobile ds initialSystem.
Proof.
  split; simpl; try done.
  - split; [done|apply books_length_pos].
  - by exists initialInfoFields.
Qed.

Lemma reachable_sys_inv sys :
  rtc (sys_step isMobile ds) initialSystem sys → sys_inv isMobile ds sys.
Proof.
  apply rtc_preserve; [|apply initialSystem_inv].
  intros a b Ha Hab. destruct Hab as [a ev b Hv Htr].
  destruct (sys_transition_inv isMobile ds ev a Ha Hv) as (b' & Hb & Hinv).
  congruence.
Qed.

(** C2: no offered event throws in a reachable state: mounting the edit
    mode on the stored configuration and rendering the centre card after a
    save always succeed. *)
Theorem system_never_throws sys ev :
  rtc (sys_step isMobile ds) initialSystem sys →
  sys_valid isMobile ds sys ev →
  ∃ sys', sys_transition ds ev sys = Ok sys'.
Proof.
  intros Hinv%reachable_sys_inv Hv.
  destruct (sys_transition_inv isMobile ds ev sys Hinv Hv) as (sys' & ? & _).
  by exists sys'.
Qed.

(** C22: in every reachable state the centre card renders the stored
    configuration, whatever the formatter and the book: the configuration
    has no hole, no duplicate and only known fields, and there are at most
    five rows. *)
Theorem system_config_renders {Node} (fmt : string → JsValue → AudioBook → Node)
    sys book :
  rtc (sys_step isMobile ds) initialSystem sys →
  ∃ cfg rows,
    activeInfoFields (sys_carousel sys) = Some <$> cfg ∧
    config_ok ds (di_id <$> cfg) ∧
    centerRows fmt (activeInfoFields (sys_carousel sys)) book = Ok rows ∧
    length rows ≤ max_fields.
Proof.
  intros [_ (cfg & Hc & Hok) _ _ _]%reachable_sys_inv.
  exists cfg, (omap (renderField fmt cfg book) cfg). split_and!; [done..| |].
  - apply centerRows_Ok. by exists cfg.
  - etrans; [apply length_omap_le|].
    destruct Hok as (_ & Hlen & _). by rewrite length_fmap in Hlen.
Qed.

(** C16: the mounted edit mode of a reachable state is a reachable session
    of the edit machine: it was opened on a configuration without holes
    that satisfies the invariant, and it got where it is by steps of the
    machine.  The timers and the carousel add no behaviour to it. *)
Theorem system_refines_edit_machine sys i sess :
  rtc (sys_step isMobile ds) initialSystem sys →
  sys_edit sys = Some (i, sess) →
  ∃ config sess0,
    open_session (Some config) = Ok sess0 ∧
    config_ok ds (activeContainer (sess_state sess0)) ∧
    rtc (edit_step isMobile ds) sess0 sess.
Proof.
  intros [_ _ _ He _]%reachable_sys_inv Hedit. rewrite Hedit in He.
  destruct He as [(config & sess0 & Hc & Hopen & Hrtc) _].
  exists config, sess0. split_and!; [done| |done].
  destruct Hc as (cfg & -> & Hok). unfold open_session, initEditState in Hopen.
  rewrite js_map_res_prop_Some in Hopen. by injection Hopen as <-.
Qed.

End reachable.

(** ** Saving *)

Section saving.
Context `{BookData} (isMobile : bool) (ds : list DraggableInfo).
Implicit Types (sys : System) (sess : Session) (c : CarouselState).
Implicit Types (evs : list EditEvent) (timers : list Timer).

Lemma sys_run_cons ev rest sys sys' :
  sys_valid isMobile ds sys ev → sys_transition ds ev sys = Ok sys' →
  sys_run isMobile ds (ev :: rest) sys = sys_run isMobile ds rest sys'.
Proof. intros Hv Htr. simpl. by rewrite decide_True, Htr. Qed.

Lemma sys_run_app (l1 l2 : list SysEvent) sys sys1 :
  sys_run isMobile ds l1 sys = Some (Ok sys1) →
  sys_run isMobile ds (l1 ++ l2) sys = sys_run isMobile ds l2 sys1.
Proof.
  revert sys. induction l1 as [|ev l1 IH]; intros sys; simpl.
  - by intros [= ->].
  - case_decide; [|done]. destruct (sys_transition ds ev sys); [apply IH|done].
Qed.

(** While the saving flag is set the Save button is disabled, so the user's
    events set no timer: the system follows the edit machine. *)
Lemma sys_run_edits evs c i sess mounts timers sess' :
  isSaving (sess_state sess) = true →
  Forall (λ e, from_timer e = false) evs →
  run_events isMobile ds evs sess = Some sess' →
  sys_run isMobile ds (SysEdit <$> evs)
    (mkSystem c (Some (i, sess)) mounts timers) =
  Some (Ok (mkSystem c (Some (i, sess')) mounts timers)) ∧
  isSaving (sess_state sess') = true.
Proof.
  revert sess. induction evs as [|e evs IH]; intros sess Hs Hnt; simpl.
  { by intros [= <-]. }
  apply Forall_cons in Hnt as [He Hnt]. case_decide as Hv; [|done]. intros Hrun.
  rewrite decide_True by done.
  assert (timers_of i sess e = []) as ->.
  { destruct e; try done. simpl in Hv. congruence. }
  rewrite app_nil_r. by apply IH; [apply isSaving_edit_transition|..].
Qed.

(** The first delay, fired while the instance that set it is mounted. *)
Lemma fire_SaveDelay c i sess mounts captured :
  sys_transition ds (SysTimer 0)
    (mkSystem c (Some (i, sess)) mounts [SaveDelay i captured]) =
  Ok (mkSystem c (Some (i, edit_transition EvSaveDelay sess)) mounts
        [CloseDelay (saveConfig ds captured)]).
Proof. simpl. by rewrite decide_True. Qed.

(** The second delay: the configuration is stored and the overlay closed,
    whichever instance is mounted. *)
Lemma fire_CloseDelay c edit mounts captured :
  captured ⊆ field_ids ds →
  sys_transition ds (SysTimer 0)
    (mkSystem c edit mounts [CloseDelay (saveConfig ds captured)]) =
  Ok (mkSystem
        (setIsEditMode false (handleSaveConfig (saveConfig ds captured) c))
        None mounts []).
Proof.
  intros (cfg & Hc & _)%(saveConfig_known ds). simpl.
  by rewrite Hc, definedFields_Some.
Qed.

Lemma sys_run_rtc (l : list SysEvent) sys sys' :
  sys_run isMobile ds l sys = Some (Ok sys') →
  rtc (sys_step isMobile ds) sys sys'.
Proof.
  revert sys. induction l as [|ev l IH]; intros sys; simpl.
  - by intros [= ->].
  - case_decide as Hv; [|done].
    destruct (sys_transition ds ev sys) as [sys1|] eqn:Htr; [|done].
    intros Hrun. eapply rtc_l; [by econstructor|by apply IH].
Qed.

(** C7: a click on Save commits the list as it was at the click.  Whatever
    the user does in the edit mode during the two delays, the carousel
    receives the descriptors of the list the handler closed over, the
    overlay closes, and no timer is left. *)
Theorem save_commits_clicked_config c i sess mounts evs1 evs2 sess' :
  config_ok ds (activeContainer (sess_state sess)) →
  Forall (λ e, from_timer e = false) evs1 →
  Forall (λ e, from_timer e = false) evs2 →
  run_events isMobile ds (EvSaveClick :: evs1 ++ EvSaveDelay :: evs2) sess =
    Some sess' →
  sys_run isMobile ds
    (SysEdit EvSaveClick :: (SysEdit <$> evs1) ++
     SysTimer 0 :: (SysEdit <$> evs2) ++ [SysTimer 0])
    (mkSystem c (Some (i, sess)) mounts []) =
  Some (Ok (mkSystem
              (setIsEditMode false
                 (handleSaveConfig
                    (saveConfig ds (activeContainer (sess_state sess))) c))
              None mounts [])).
Proof.
  intros (_ & _ & Hsub) Hnt1 Hnt2 Hrun.
  simpl in Hrun. case_decide as Hclick; [|done].
  rewrite run_events_app in Hrun.
  destruct (run_events isMobile ds evs1 _) as [s2|] eqn:Hrun1; [|done].
  simpl in Hrun. case_decide as Hdelay; [|done].
  erewrite sys_run_cons; [|done|done].
  destruct (sys_run_edits evs1 c i (edit_transition EvSaveClick sess) mounts
              [SaveDelay i (activeContainer (sess_state sess))] s2)
    as [Hsys1 _]; [done..|].
  erewrite sys_run_app by exact Hsys1.
  erewrite sys_run_cons; [|simpl; lia|apply fire_SaveDelay].
  destruct (sys_run_edits evs2 c i (edit_transition EvSaveDelay s2) mounts
              [CloseDelay (saveConfig ds (activeContainer (sess_state sess)))]
              sess') as [Hsys2 _]; [done..|].
  erewrite sys_run_app by exact Hsys2.
  erewrite sys_run_cons; [done|simpl; lia|by apply fire_CloseDelay].
Qed.

(** Without a click on Save the edit mode sets no timer. *)
Lemma sys_run_edits_nosave evs c i sess mounts timers sess' :
  Forall (λ e, is_save e = false) evs →
  run_events isMobile ds evs sess = Some sess' →
  sys_run isMobile ds (SysEdit <$> evs)
    (mkSystem c (Some (i, sess)) mounts timers) =
  Some (Ok (mkSystem c (Some (i, sess')) mounts timers)).
Proof.
  revert sess. induction evs as [|e evs IH]; intros sess Hns; simpl.
  { by intros [= <-]. }
  apply Forall_cons in Hns as [He Hns]. case_decide as Hv; [|done]. intros Hrun.
  rewrite decide_True by (by destruct e).
  assert (timers_of i sess e = []) as -> by (by destruct e).
  rewrite app_nil_r. by apply IH.
Qed.

(** C24: closing the edit mode without a click on Save discards what was
    done in it: whatever the user dragged, removed or reordered, the
    carousel keeps the configuration and the index it had, and no timer is
    pending. *)
Theorem cancel_discards c mounts config sess0 evs sess' :
  isEditMode c = false → activeInfoFields c = config →
  open_session (Some config) = Ok sess0 →
  Forall (λ e, is_save e = false) evs →
  run_events isMobile ds evs sess0 = Some sess' →
  sys_run isMobile ds (SysOpen :: (SysEdit <$> evs) ++ [SysClose])
    (mkSystem c None mounts []) =
  Some (Ok (mkSystem c None (S mounts) [])).
Proof.
  intros Hclosed <- Hopen Hns Hrun.
  erewrite sys_run_cons; [|done|by simpl; rewrite Hopen].
  erewrite sys_run_app by (by apply sys_run_edits_nosave).
  erewrite sys_run_cons; [|by eexists|done]. simpl.
  by destruct c; simpl in *; subst.
Qed.

(** Events other than those of a save leave the saving flag alone. *)
Lemma isSaving_run_nosave evs sess sess' :
  Forall (λ e, is_save e = false) evs →
  run_events isMobile ds evs sess = Some sess' →
  isSaving (sess_state sess') = isSaving (sess_state sess).
Proof.
  revert sess. induction evs as [|e evs IH]; intros sess Hns; simpl.
  { by intros [= <-]. }
  apply Forall_cons in Hns as [He Hns]. case_decide; [|done].
  intros ->%IH; [|done]. destruct e; try done; simpl; by handler_cases.
Qed.

Lemma rebuild_events_nosave (current l : list string) :
  Forall (λ e, is_save e = false) (rebuild_events current l).
Proof.
  unfold rebuild_events. apply Forall_app. split.
  - by apply Forall_fmap, Forall_true.
  - generalize 0. induction l as [|x l IH]; intros k; simpl;
      repeat constructor. apply IH.
Qed.

(** A click on Save followed by the two delays, with nothing in between. *)
Lemma sys_run_save c i sess mounts :
  isSaving (sess_state sess) = false →
  activeContainer (sess_state sess) ⊆ field_ids ds →
  sys_run isMobile ds [SysEdit EvSaveClick; SysTimer 0; SysTimer 0]
    (mkSystem c (Some (i, sess)) mounts []) =
  Some (Ok (mkSystem
              (setIsEditMode false
                 (handleSaveConfig
                    (saveConfig ds (activeContainer (sess_state sess))) c))
              None mounts [])).
Proof.
  intros Hs Hsub.
  erewrite sys_run_cons; [|done|done].
  erewrite sys_run_cons; [|simpl; lia|apply fire_SaveDelay].
  erewrite sys_run_cons; [done|simpl; lia|by apply fire_CloseDelay].
Qed.

(** C9: every valid configuration can be put on the centre card.  From a
    state with the overlay closed and no timer pending, opening the edit
    mode, removing its rows, dragging the wanted fields in one after the
    other, clicking Save and letting the two delays pass is a run of the
    widget; it ends with the descriptors of the wanted fields stored in
    the carousel, in the wanted order, the overlay closed and no timer
    pending. *)
Theorem every_config_storable c mounts cfg l :
  ""%string ∉ field_ids ds →
  isEditMode c = false → activeInfoFields c = Some <$> cfg →
  config_ok ds (di_id <$> cfg) → config_ok ds l →
  sys_run isMobile ds
    (SysOpen :: (SysEdit <$> rebuild_events (di_id <$> cfg) l) ++
     [SysEdit EvSaveClick; SysTimer 0; SysTimer 0])
    (mkSystem c None mounts []) =
  Some (Ok (mkSystem
              (setIsEditMode false (handleSaveConfig (saveConfig ds l) c))
              None (S mounts) [])).
Proof.
  intros Hne Hclosed Hcfg Hok Hl.
  erewrite sys_run_cons;
    [|done|by simpl; rewrite Hcfg, open_session_Some].
  destruct (rebuild_events_run isMobile ds Hne
              (mkSession
                 (mkEditState (di_id <$> cfg) None None false false false
                    false None false) None) l)
    as (sess' & Hrun & Hactive & _); [done..|].
  pose proof (rebuild_events_nosave (di_id <$> cfg) l) as Hns.
  erewrite sys_run_app by (by apply sys_run_edits_nosave).
  rewrite sys_run_save, Hactive.
  - by destruct c.
  - by rewrite (isSaving_run_nosave _ _ _ Hns Hrun).
  - rewrite Hactive. apply Hl.
Qed.

(** C33: the second delay of a save is not tied to the edit mode that set
    it: when it fires it stores its configuration and closes the overlay
    that is open then, also one that was opened after the save. *)
Theorem stale_timer_closes_overlay sys k config cfg :
  sys_timers sys !! k = Some (CloseDelay config) → config = Some <$> cfg →
  ∃ sys',
    sys_transition ds (SysTimer k) sys = Ok sys' ∧
    sys_edit sys' = None ∧ isEditMode (sys_carousel sys') = false ∧
    activeInfoFields (sys_carousel sys') = config.
Proof.
  intros Hk ->. simpl. rewrite Hk. simpl. rewrite definedFields_Some. simpl.
  by eexists.
Qed.

End saving.

(** ** Stored descriptors are well typed *)

Section typed.
Context `{BookData} (isMobile : bool) (ds : list DraggableInfo).
Context (ds_typed : Forall descriptor_typed ds).
Context (init_ok : config_ok ds (di_id <$> initialInfoFields)).
Implicit Types (sys : System) (ev : SysEvent).

Lemma saveConfig_typed captured : config_typed (saveConfig ds captured).
Proof.
  apply Forall_fmap, Forall_forall. intros x _. simpl.
  destruct (find_draggable ds x) as [d|] eqn:Hd; [|done]. simpl.
  apply find_draggable_Some in Hd as [Hd _].
  rewrite Forall_forall in ds_typed. by apply ds_typed.
Qed.

Lemma sys_transition_typed ev sys sys' :
  sys_valid isMobile ds sys ev → sys_transition ds ev sys = Ok sys' →
  typed_inv sys → typed_inv sys'.
Proof.
  intros Hv Htr [Hc Ht]. destruct ev as [e| | |e|k]; simpl in *.
  - injection Htr as <-. split; [|done]. simpl.
    by destruct (carousel_handle_nav _ e (sys_carousel sys) Hv) as [_ ->].
  - by apply res_bind_Ok in Htr as (sess & _ & [= <-]).
  - by injection Htr as <-.
  - destruct (sys_edit sys) as [[i sess]|]; [|done]. injection Htr as <-.
    split; [done|]. simpl. apply Forall_app. split; [done|].
    destruct e; simpl; by repeat constructor.
  - destruct (sys_timers sys !! k) as [t|] eqn:Hk; [|by injection Htr as <-].
    pose proof (Forall_lookup_1 _ _ _ _ Ht Hk) as Htk.
    pose proof (Forall_delete _ _ k Ht) as Hrest.
    destruct t as [inst captured|config]; simpl in Htr.
    + injection Htr as <-. split; [done|]. simpl. apply Forall_app.
      split; [done|]. apply Forall_singleton, saveConfig_typed.
    + apply res_bind_Ok in Htr as (? & _ & [= <-]). by split.
Qed.

Lemma reachable_typed_inv sys :
  rtc (sys_step isMobile ds) initialSystem sys → typed_inv sys.
Proof.
  apply rtc_preserve.
  - intros a b Ha Hab. destruct Hab as [a ev b Hv Htr].
    by eapply sys_transition_typed.
  - split; [|done]. unfold config_typed. simpl.
    repeat (apply Forall_cons; split; [simpl; by_compute|]). constructor.
Qed.

(** C17: every descriptor the carousel ever stores is well typed: in each
    reachable state the stored configuration has no [undefined] entry, and
    for each of its descriptors the property it names exists on every book
    and holds a number when the descriptor's tag is [number] and a string
    when it is [text].  So the casts [field.id as keyof AudioBook] of the
    centre card never read [undefined]. *)
Theorem stored_fields_typed sys book :
  rtc (sys_step isMobile ds) initialSystem sys →
  ∃ cfg,
    activeInfoFields (sys_carousel sys) = Some <$> cfg ∧
    Forall
      (λ d,
         descriptor_typed d ∧
         match book_get book (di_id d) with
         | VStr _ => di_type d = "text"%string
         | VNum _ => di_type d = "number"%string
         | VUndef => False
         end) cfg.
Proof.
  intros Hreach.
  destruct (reachable_sys_inv isMobile ds init_ok sys Hreach)
    as [_ (cfg & Hcfg & _) _ _ _].
  destruct (reachable_typed_inv sys Hreach) as [Hty _].
  exists cfg. split; [done|]. unfold config_typed in Hty.
  rewrite Hcfg, Forall_fmap in Hty. eapply Forall_impl; [exact Hty|].
  intros d Hd. split; [done|]. by apply descriptor_typed_value.
Qed.

End typed.

(** ** The delays run out *)

Section termination.
Context `{BookData} (isMobile : bool) (ds : list DraggableInfo).
Implicit Types (sys : System) (ks : list nat) (timers : list Timer).

Lemma sum_weight_delete timers k t :
  timers !! k = Some t →
  sum_list_with timer_weight (delete k timers) + timer_weight t =
  sum_list_with timer_weight timers.
Proof.
  revert k. induction timers as [|t' timers IH]; intros [|k]; csimpl; try done.
  - intros [= ->]. lia.
  - intros Hk. rewrite <-(IH k Hk). lia.
Qed.

(** Every firing uses up one of the pending firings. *)
Lemma timer_step_pending k sys sys' :
  sys_transition ds (SysTimer k) sys = Ok sys' →
  sys_valid isMobile ds sys (SysTimer k) →
  S (pending sys') = pending sys.
Proof.
  simpl. intros Htr Hk.
  destruct (sys_timers sys !! k) as [t|] eqn:Ht.
  2:{ apply lookup_ge_None in Ht. lia. }
  unfold pending. rewrite <-(sum_weight_delete _ k t Ht).
  destruct t as [inst captured|config]; simpl in Htr.
  - injection Htr as <-. simpl.
    rewrite sum_list_with_app. simpl. lia.
  - apply res_bind_Ok in Htr as (? & _ & [= <-]). simpl. lia.
Qed.

Lemma pending_0 sys : pending sys = 0 → sys_timers sys = [].
Proof.
  unfold pending. destruct (sys_timers sys) as [|[]]; simpl; [done|lia..].
Qed.

Lemma timers_fire_bound ks sys sys' :
  sys_run isMobile ds (SysTimer <$> ks) sys = Some (Ok sys') →
  length ks + pending sys' = pending sys.
Proof.
  revert sys. induction ks as [|k ks IH]; intros sys.
  - by intros [= ->].
  - rewrite fmap_cons. cbn [sys_run]. case_decide as Hv; [|done].
    destruct (sys_transition ds (SysTimer k) sys) as [sys1|] eqn:Htr; [|done].
    intros Hrun%IH. apply timer_step_pending in Htr; [|done].
    cbn [length]. lia.
Qed.

Lemma timers_drain_inv n sys :
  sys_inv isMobile ds sys → pending sys = n →
  ∃ sys',
    sys_run isMobile ds (replicate n (SysTimer 0)) sys = Some (Ok sys') ∧
    sys_timers sys' = [] ∧ sys_inv isMobile ds sys'.
Proof.
  revert sys. induction n as [|n IH]; intros sys Hinv Hn.
  - exists sys. split_and!; [done|by apply pending_0|done].
  - assert (sys_valid isMobile ds sys (SysTimer 0)) as Hv.
    { simpl. unfold pending in Hn. destruct (sys_timers sys); simpl in *; lia. }
    destruct (sys_transition_inv isMobile ds _ sys Hinv Hv)
      as (sys1 & Htr & Hinv1).
    destruct (IH sys1 Hinv1) as (sys' & Hrun & ?).
    { apply timer_step_pending in Htr; [lia|done]. }
    exists sys'. split; [|done].
    change (replicate (S n) (SysTimer 0))
      with (SysTimer 0 :: replicate n (SysTimer 0)).
    by rewrite (sys_run_cons isMobile ds _ _ sys sys1).
Qed.

Context (init_ok : config_ok ds (di_id <$> initialInfoFields)).

(** C10: the delays of a save run out.  In a reachable state the timers
    that are pending account for a number of firings ([pending]: two for a
    first delay, one for a second); however the firings are ordered, each
    uses up one of them, so no more than that many timers fire in a row;
    and firing that many, none of which throws, leaves no timer pending. *)
Theorem save_terminates sys :
  rtc (sys_step isMobile ds) initialSystem sys →
  (∀ ks sys',
     sys_run isMobile ds (SysTimer <$> ks) sys = Some (Ok sys') →
     length ks + pending sys' = pending sys) ∧
  ∃ sys',
    sys_run isMobile ds (replicate (pending sys) (SysTimer 0)) sys =
      Some (Ok sys') ∧
    sys_timers sys' = [].
Proof.
  intros Hinv%reachable_sys_inv; [|done].
  split; [intros ks sys'; apply timers_fire_bound|].
  destruct (timers_drain_inv (pending sys) sys Hinv eq_refl)
    as (sys' & ? & ? & _).
  by exists sys'.
Qed.

End termination.

(** ** Worked examples *)

(** The default configuration without the author, saved from the first
    edit mode. *)
Definition four_fields : list string :=
  ["bookTitle"; "bookSubtitle"; "narrator"; "ratingStar"]%string.

Definition saved_system : System :=
  mkSystem
    (handleSaveConfig (saveConfig initialDraggables four_fields)
       initialCarousel)
    None 1 [].

(** Open, remove the author, save, wait for both delays. *)
Definition save_without_author : list SysEvent :=
  [SysOpen; SysEdit (EvRemove "author"); SysEdit EvSaveClick; SysTimer 0;
   SysTimer 0].

Lemma save_without_author_run :
  sys_run (H:=example_books) false initialDraggables save_without_author
    initialSystem = Some (Ok saved_system).
Proof. by_compute. Qed.

Lemma saved_system_reachable :
  rtc (sys_step (H:=example_books) false initialDraggables) initialSystem
    saved_system.
Proof. apply sys_run_rtc with save_without_author. by_compute. Qed.

Lemma initialInfoFields_ok :
  config_ok initialDraggables (di_id <$> initialInfoFields).
Proof. by_compute. Qed.

(** Save, close and reopen at once, remove a field in the new edit mode:
    the two delays of the first save then close the new edit mode, and its
    removal is lost. *)
Definition reopen_during_save : list SysEvent :=
  [SysOpen; SysEdit EvSaveClick; SysClose; SysOpen;
   SysEdit (EvRemove "author"); SysTimer 0; SysTimer 0].

Lemma reopen_during_save_run :
  (λ r, res_map (λ sys, (sys_edit sys, sys_mounts sys,
                         activeInfoFields (sys_carousel sys))) r) <$>
    sys_run (H:=example_books) false initialDraggables reopen_during_save
      initialSystem =
  Some (Ok (None, 2, saveConfig initialDraggables defaultFields)).
Proof. by_compute. Qed.

(** The arrow keys reach the carousel under the open edit mode; the
    buttons do not. *)
Lemma keys_under_overlay :
  (λ r, res_map (λ sys, currentIndex (sys_carousel sys)) r) <$>
    sys_run (H:=example_books) false initialDraggables
      [SysOpen; SysNav (CeKey "ArrowRight")] initialSystem = Some (Ok 1%Z) ∧
  sys_run (H:=example_books) false initialDraggables
    [SysOpen; SysNav CeNext] initialSystem = None.
Proof. split; by_compute. Qed.

Lemma system_never_throws_witness :
  ∃ sys', sys_transition (H:=example_books) initialDraggables SysOpen
            saved_system = Ok sys'.
Proof.
  apply (system_never_throws (H:=example_books) false initialDraggables
           initialInfoFields_ok saved_system SysOpen).
  - exact saved_system_reachable.
  - reflexivity.
Defined.

Lemma system_config_renders_witness :
  ∃ cfg rows,
    activeInfoFields (sys_carousel saved_system) = Some <$> cfg ∧
    config_ok initialDraggables (di_id <$> cfg) ∧
    centerRows tag_formatter (activeInfoFields (sys_carousel saved_system))
      (example_book "A") = Ok rows ∧
    length rows ≤ max_fields.
Proof.
  apply (system_config_renders (H:=example_books) false initialDraggables
           initialInfoFields_ok tag_formatter saved_system (example_book "A")).
  exact saved_system_reachable.
Defined.

Lemma system_refines_edit_machine_witness :
  ∃ config sess0,
    open_session (Some config) = Ok sess0 ∧
    config_ok initialDraggables (activeContainer (sess_state sess0)) ∧
    rtc (edit_step false initialDraggables) sess0 default_session.
Proof.
  apply (system_refines_edit_machine (H:=example_books) false
           initialDraggables initialInfoFields_ok
           (mkSystem (setIsEditMode true initialCarousel)
              (Some (0, default_session)) 1 []) 0 default_session).
  - apply (sys_run_rtc (H:=example_books)) with [SysOpen]. by_compute.
  - reflexivity.
Defined.

Lemma save_commits_clicked_config_witness :
  sys_run (H:=example_books) false initialDraggables
    (SysEdit EvSaveClick :: (SysEdit <$> [EvRemove "author"]) ++
     SysTimer 0 :: (SysEdit <$> [EvRemove "narrator"]) ++ [SysTimer 0])
    (mkSystem initialCarousel (Some (0, default_session)) 1 []) =
  Some (Ok (mkSystem
              (setIsEditMode false
                 (handleSaveConfig
                    (saveConfig initialDraggables
                       (activeContainer (sess_state default_session)))
                    initialCarousel))
              None 1 [])).
Proof.
  apply (save_commits_clicked_config (H:=example_books) false
           initialDraggables initialCarousel 0 default_session 1
           [EvRemove "author"] [EvRemove "narrator"]
           (mkSession
              (set_showSuccess true
                 (set_isSaving true
                    (set_activeContainer
                       ["bookTitle"; "bookSubtitle"; "ratingStar"]%string
                       default_state))) None)); by_compute.
Defined.

Lemma stale_timer_closes_overlay_witness :
  ∃ sys',
    sys_transition (H:=example_books) initialDraggables (SysTimer 0)
      (mkSystem (setIsEditMode true initialCarousel)
         (Some (1, default_session)) 2
         [CloseDelay (Some <$> initialInfoFields)]) = Ok sys' ∧
    sys_edit sys' = None ∧ isEditMode (sys_carousel sys') = false ∧
    activeInfoFields (sys_carousel sys') = Some <$> initialInfoFields.
Proof.
  apply (stale_timer_closes_overlay (H:=example_books) initialDraggables
           _ 0 (Some <$> initialInfoFields) initialInfoFields); reflexivity.
Defined.

Lemma cancel_discards_witness :
  sys_run (H:=example_books) false initialDraggables
    (SysOpen ::
     (SysEdit <$> [EvRemove "author"; EvDragStart "length"; EvSlotDrop 0]) ++
     [SysClose])
    (mkSystem initialCarousel None 0 []) =
  Some (Ok (mkSystem initialCarousel None 1 [])).
Proof.
  apply (cancel_discards (H:=example_books) false initialDraggables
           initialCarousel 0 (Some <$> initialInfoFields) default_session
           [EvRemove "author"; EvDragStart "length"; EvSlotDrop 0]
           (mkSession
              (set_activeContainer
                 ["length"; "bookTitle"; "bookSubtitle"; "narrator";
                  "ratingStar"]%string default_state) None)); by_compute.
Defined.

(** A click on Save leaves two firings to come; after them no timer is
    pending. *)
Definition saving_system : System :=
  mkSystem (setIsEditMode true initialCarousel)
    (Some (0, edit_transition EvSaveClick default_session)) 1
    [SaveDelay 0 defaultFields].

Lemma saving_system_reachable :
  rtc (sys_step (H:=example_books) false initialDraggables) initialSystem
    saving_system.
Proof.
  apply (sys_run_rtc (H:=example_books) false initialDraggables
           [SysOpen; SysEdit EvSaveClick]).
  by_compute.
Qed.

Lemma save_terminates_witness :
  (∀ ks sys',
     sys_run (H:=example_books) false initialDraggables (SysTimer <$> ks)
       saving_system = Some (Ok sys') →
     length ks + pending sys' = pending saving_system) ∧
  ∃ sys',
    sys_run (H:=example_books) false initialDraggables
      (replicate (pending saving_system) (SysTimer 0)) saving_system =
      Some (Ok sys') ∧
    sys_timers sys' = [].
Proof.
  apply (save_terminates (H:=example_books) false initialDraggables
           initialInfoFields_ok saving_system saving_system_reachable).
Defined.

Lemma stored_fields_typed_witness :
  ∃ cfg,
    activeInfoFields (sys_carousel saved_system) = Some <$> cfg ∧
    Forall
      (λ d,
         descriptor_typed d ∧
         match book_get (example_book "A") (di_id d) with
         | VStr _ => di_type d = "text"%string
         | VNum _ => di_type d = "number"%string
         | VUndef => False
         end) cfg.
Proof.
  apply (stored_fields_typed (H:=example_books) false initialDraggables
           initialDraggables_typed initialInfoFields_ok saved_system
           (example_book "A")).
  exact saved_system_reachable.
Defined.

(** The price and the discount alone, from the first render. *)
Lemma every_config_storable_witness :
  sys_run (H:=example_books) false initialDraggables
    (SysOpen ::
     (SysEdit <$>
        rebuild_events (di_id <$> initialInfoFields)
          ["discount"; "bookCashPrice"]%string) ++
     [SysEdit EvSaveClick; SysTimer 0; SysTimer 0])
    (mkSystem initialCarousel None 0 []) =
  Some (Ok (mkSystem
              (setIsEditMode false
                 (handleSaveConfig
                    (saveConfig initialDraggables
                       ["discount"; "bookCashPrice"]%string)
                    initialCarousel))
              None 1 [])).
Proof.
  apply (every_config_storable (H:=example_books) false initialDraggables
           initialCarousel 0 initialInfoFields
           ["discount"; "bookCashPrice"]%string); by_compute.
Defined.
