(* ===== verification/Widget.v ===== *)
(** * What the whole widget renders

    Composes the render of the carousel ([Slides]) with the render of the
    edit mode ([EditView]) the way [Carousel] mounts [EditMode]
    ([src/src/components/Carousel.tsx]): while the edit mode is open it is
    rendered with the book at the current index of the carousel as [book].
    The formatter of the edit mode is the function [formatValue] of
    [EditMode/constants.ts].

    The theorems are about the states the widget can reach ([System]):
    which of them render, and which throw what. *)

From Stdlib Require Import QArith.
From stdpp Require Import gmap.
From S2P Require Import Prelude Fields Assignment Preview EditMachine.
From S2P Require Import Swipe Carousel CenterCard Format Row Layout Bubble.
From S2P Require Import EditView Slides System.

Local Close Scope Q_scope.
Local Open Scope list_scope.
Local Open Scope js_scope.

Section widget.
Context `{BookData}.
Context (numberToString : Q → string) (stringToNumber : string → option Q).
Context (isMobile prefersReducedMotion : bool) (ds : list DraggableInfo).

(** [<EditMode book={books[currentIndex]} ... />]: the edit mode rendered
    for the current book.  [PreviewContainer] reads [book.coverArt], which
    throws when there is no book. *)
Definition renderOverlay (positions : gmap string BubblePosition)
    (states : string → RowState) (c : CarouselState) (sess : Session)
    : res EditView :=
  match js_index books (currentIndex c) with
  | Some book =>
      renderEditMode isMobile (formatValue numberToString stringToNumber)
        ds book positions states (sess_state sess)
  | None => Throw TypeError
  end.

(** The carousel and, while it is open, the edit mode. *)
Definition renderWidget (positions : gmap string BubblePosition)
    (states : string → RowState) (sys : System)
    : res (CarouselView * option EditView) :=
  ' carousel ←
      renderCarousel numberToString isMobile prefersReducedMotion
        (sys_carousel sys);
  ' overlay ←
      match sys_edit sys with
      | Some (_, sess) =>
          res_map Some (renderOverlay positions states (sys_carousel sys) sess)
      | None => Ok None
      end;
  Ok (carousel, overlay).

(** When the edit mode has to format the rating: the rating is a row of
    the preview, or its bubble is being dragged in the desktop layout. *)
Definition formats_rating (s : EditState) : Prop :=
  "ratingStar"%string ∈ activeContainer s ∨
  isMobile = false ∧ showPreview s = true ∧
  draggedItem s = Some "ratingStar"%string.

End widget.

(** ** Rendering under the invariant *)

Section invariant.
Context `{BookData}.
Context (numberToString : Q → string) (stringToNumber : string → option Q).
Context (isMobile prefersReducedMotion : bool) (ds : list DraggableInfo).
Implicit Types (sys : System) (c : CarouselState) (sess : Session).
Implicit Types (positions : gmap string BubblePosition).
Implicit Types (states : string → RowState).

Lemma renderCarousel_defined c :
  index_ok books_length c → config_defined ds (activeInfoFields c) →
  ∃ view,
    renderCarousel numberToString isMobile prefersReducedMotion c = Ok view.
Proof.
  intros Hi (cfg & Hcfg & _).
  destruct (renderCarousel _ _ _ c) as [view|e] eqn:Hr; [by eauto|].
  apply renderCarousel_Throw in Hr as [Hnone _]; [|done].
  rewrite Hcfg in Hnone. by apply list_elem_of_fmap in Hnone as (? & ? & _).
Qed.

(** A reachable session of the edit machine formats the rating exactly
    when its render has to. *)
Lemma formats_rating_view sess :
  edit_reachable isMobile ds sess →
  formats_rating isMobile (sess_state sess) ↔
  "ratingStar"%string ∈ removable ds (sess_state sess) ∨
  isMobile = false ∧ showPreview (sess_state sess) = true ∧
  draggedItem (sess_state sess) = Some "ratingStar"%string ∧
  "ratingStar"%string ∈
    field_ids (visibleBubbles ds (activeContainer (sess_state sess))).
Proof.
  intros Hreach.
  destruct (edit_reachable_sess_ok isMobile ds sess Hreach)
    as ((_ & _ & Hsub) & _).
  destruct Hreach as (config & sess0 & _ & Hopen & Hrtc).
  destruct (reachable_view_ok isMobile ds _ _ _ Hopen Hrtc) as [Hdrag _].
  unfold formats_rating. rewrite elem_of_removable, elem_of_visible_ids.
  split; (intros [Hrow|(? & ? & Hd)]; [left|right]).
  - split; [exact Hrow|exact (Hsub _ Hrow)].
  - destruct (Hdrag _ Hd) as [? ?]. by split_and!.
  - by destruct Hrow.
  - by destruct Hd.
Qed.

Lemma renderOverlay_Throw positions states c sess e :
  index_ok books_length c → edit_reachable isMobile ds sess →
  renderOverlay numberToString stringToNumber isMobile ds positions states
    c sess = Throw e ↔
  ∃ book,
    js_index books (currentIndex c) = Some book ∧
    formats_rating isMobile (sess_state sess) ∧
    (ratingStar book < 0)%Q ∧ e = RangeError.
Proof.
  intros Hi Hreach. unfold renderOverlay.
  destruct (js_index books (currentIndex c)) as [book|] eqn:Hbook.
  - rewrite (renderEditMode_Throw
               (H := editFormatter numberToString stringToNumber)),
      editFormatter_rating_Throw, <-formats_rating_view by done.
    split; [by eauto|]. by intros (? & [= <-] & ?).
  - assert (is_Some (js_index books (currentIndex c))) as [? ?]
      by (by apply js_index_Some).
    congruence.
Qed.

Lemma renderWidget_Throw positions states sys e :
  sys_inv isMobile ds sys →
  renderWidget numberToString stringToNumber isMobile prefersReducedMotion
    ds positions states sys = Throw e ↔
  ∃ i sess book,
    sys_edit sys = Some (i, sess) ∧
    js_index books (currentIndex (sys_carousel sys)) = Some book ∧
    formats_rating isMobile (sess_state sess) ∧
    (ratingStar book < 0)%Q ∧ e = RangeError.
Proof.
  intros [Hi Hcfg _ He _]. unfold renderWidget.
  destruct (renderCarousel_defined (sys_carousel sys) Hi Hcfg) as [view ->].
  simpl. rewrite res_bind_Throw.
  destruct (sys_edit sys) as [[i sess]|]; simpl.
  - destruct He as [Hreach _].
    rewrite res_map_Throw, renderOverlay_Throw by done. split.
    + intros [(book & ?)|(? & _ & [=])]. by exists i, sess, book.
    + intros (? & ? & book & [= <- <-] & ?). left. by exists book.
  - split; [by intros [[=]|(? & _ & [=])]|by intros (? & ? & ? & [=] & _)].
Qed.

End invariant.

(** ** The reachable states *)

Section reachable_widget.
Context `{BookData}.
Context (numberToString : Q → string) (stringToNumber : string → option Q).
Context (isMobile prefersReducedMotion : bool) (ds : list DraggableInfo).
Context (init_ok : config_ok ds (di_id <$> initialInfoFields)).
Context (sys : System).
Context (reached : rtc (sys_step isMobile ds) initialSystem sys).
Implicit Types (positions : gmap string BubblePosition).
Implicit Types (states : string → RowState).

(** C5: a reachable state of the widget fails to render in one case only:
    the edit mode is open, the rating of the current book is negative, and
    the edit mode has to format the rating (it is a row of the preview, or
    its bubble is being dragged in the desktop layout); the exception is
    the [RangeError] of [repeat].  In particular the carousel itself
    renders in every reachable state. *)
Theorem widget_throws positions states e :
  renderWidget numberToString stringToNumber isMobile prefersReducedMotion
    ds positions states sys = Throw e ↔
  ∃ i sess book,
    sys_edit sys = Some (i, sess) ∧
    js_index books (currentIndex (sys_carousel sys)) = Some book ∧
    formats_rating isMobile (sess_state sess) ∧
    (ratingStar book < 0)%Q ∧ e = RangeError.
Proof. apply renderWidget_Throw. by apply reachable_sys_inv. Qed.

(** C20: when no book has a negative rating, every reachable state of the
    widget renders, and the edit mode is part of what is rendered exactly
    while the carousel's flag [isEditMode] is set. *)
Theorem widget_renders positions states :
  Forall (λ book, (0 <= ratingStar book)%Q) books →
  ∃ view,
    renderWidget numberToString stringToNumber isMobile prefersReducedMotion
      ds positions states sys = Ok view ∧
    (is_Some view.2 ↔ isEditMode (sys_carousel sys) = true).
Proof.
  intros Hbooks. pose proof (reachable_sys_inv isMobile ds init_ok sys reached)
    as Hinv.
  destruct (renderWidget _ _ _ _ _ positions states sys) as [view|e] eqn:Hr.
  - exists view. split; [done|]. rewrite (inv_overlay _ _ _ Hinv).
    rewrite bool_decide_eq_true. unfold renderWidget in Hr.
    apply res_bind_Ok in Hr as (cv & _ & Hr).
    apply res_bind_Ok in Hr as (ov & Hov & [= <-]). simpl.
    destruct (sys_edit sys) as [[i sess]|].
    + apply res_map_Ok in Hov as (? & _ & ->). by split.
    + injection Hov as <-. split; by intros []%is_Some_None.
  - apply renderWidget_Throw in Hr as (i & sess & book & _ & Hb & _ & Hneg & _);
      [|done].
    rewrite Forall_forall in Hbooks. unfold js_index in Hb.
    case_bool_decide; [|done].
    apply list_elem_of_lookup_2, Hbooks, Qle_not_lt in Hb. done.
Qed.

End reachable_widget.

(** ** Worked examples *)

(** A list with one book, whose rating is negative. *)
Definition negative_books : BookData :=
  Build_BookData [negative_book] ltac:(done).

(** The state after a click on Edit. *)
Definition opened_system : System :=
  mkSystem (setIsEditMode true initialCarousel) (Some (0, default_session)) 1
    [].

Lemma opened_system_reachable `{BookData} :
  rtc (sys_step false initialDraggables) initialSystem opened_system.
Proof. apply (sys_run_rtc false initialDraggables [SysOpen]). by_compute. Qed.

(** Opening the edit mode on a book with a negative rating throws at the
    first render: the default configuration shows the rating. *)
Lemma widget_throws_witness :
  renderWidget (H := negative_books) digits_of (λ _, None) false false
    initialDraggables ∅ (λ _, initialRow) opened_system = Throw RangeError.
Proof.
  apply (widget_throws (H := negative_books) digits_of (λ _, None) false
           false initialDraggables initialInfoFields_ok opened_system
           opened_system_reachable ∅ (λ _, initialRow) RangeError).
  exists 0, default_session, negative_book.
  split_and!; [done..|by left; by_compute|done|done].
Defined.

Lemma widget_renders_witness :
  ∃ view,
    renderWidget (H := example_books) digits_of (λ _, None) false false
      initialDraggables ∅ (λ _, initialRow) opened_system = Ok view ∧
    (is_Some view.2 ↔ isEditMode (sys_carousel opened_system) = true).
Proof.
  apply (widget_renders (H := example_books) digits_of (λ _, None) false
           false initialDraggables initialInfoFields_ok opened_system
           opened_system_reachable ∅ (λ _, initialRow)).
  repeat constructor; by vm_compute.
Defined.
